(** * Exception submitter for Jira: a shallow embedding of
    [exceptionservice/server.py] and of the parts of CPython's [difflib],
    [re] and [str] it relies on, with the properties of the triage engine
    proved (or refuted) on that embedding.

    Conventions.
    - A Python [str] is a Rocq [string]; a character is an [ascii], read as
      the code point of the same number (U+0000 .. U+00FF).  The character
      classes of [re] and [str.splitlines] are the CPython tables restricted
      to that range.
    - Python integers are [Z].  The interpreter converts between [str] and
      [int] up to 4300 decimal digits and raises [ValueError] beyond
      ([Py.int], [Py.str_int]).  The line numbers of a report and the status
      code of a response are integers that the interpreter has itself read
      from text under that limit (the JSON body, the status line of three
      digits), so that formatting them gives their decimal numeral
      ([Py.decimal]).
    - A Python exception is a constructor of [exn]; a function that can raise
      returns a [result]; a function that talks to Jira runs in [io], a state
      and error monad over the log of the HTTP requests made so far.
    - The floats of [difflib] are modelled by exact rationals: for two texts
      whose lengths add up to less than 2^52, the correctly rounded quotient
      [2.0 * matches / length] exceeds the double [0.95] (resp. [0.6]) exactly
      when the rational [2 * matches / length] exceeds 19/20 (resp. 3/5). *)

From Stdlib Require Import ZArith QArith String Ascii List Bool Lia.
From Stdlib Require Import DecimalString DecimalPos Permutation.
From stdpp Require Import base gmap list strings sorting.
Import ListNotations.

Local Close Scope Q_scope.
Local Open Scope string_scope.
Local Open Scope Z_scope.

(** ** Python exceptions and results *)

Inductive exn : Type :=
| IndexError
| ValueError
| RecursionError
| InternalError (message : string).

Inductive result (A : Type) : Type :=
| Ok (a : A)
| Raise (e : exn).

Arguments Ok {A} a.
Arguments Raise {A} e.

Definition result_bind {A B : Type} (r : result A) (k : A -> result B) : result B :=
  match r with
  | Ok a => k a
  | Raise e => Raise e
  end.

Notation "'let?' x ':=' c 'in' k" := (result_bind c (fun x => k))
  (at level 10, x name, c at level 100, k at level 200).

(** ** Python built-ins *)

Module Py.

(** [l[i]]: a negative index counts from the end; out of range raises. *)
Definition getitem {A : Type} (l : list A) (i : Z) : result A :=
  let n := Z.of_nat (length l) in
  let i' := if i <? 0 then i + n else i in
  if (i' <? 0) || (n <=? i') then Raise IndexError
  else match nth_error l (Z.to_nat i') with
       | Some x => Ok x
       | None => Raise IndexError
       end.

Definition code (c : ascii) : Z := Z.of_nat (nat_of_ascii c).

Definition in_range (lo hi : Z) (c : ascii) : bool :=
  (lo <=? code c) && (code c <=? hi).

(** [str.lower] on one character. *)
Definition lower_char (c : ascii) : ascii :=
  if in_range 65 90 c || (in_range 192 222 c && negb (code c =? 215))
  then ascii_of_nat (nat_of_ascii c + 32)
  else c.

Fixpoint lower (s : string) : string :=
  match s with
  | EmptyString => EmptyString
  | String c s' => String (lower_char c) (lower s')
  end.

(** The line boundaries of [str.splitlines]. *)
Definition is_linebreak (c : ascii) : bool :=
  in_range 10 13 c || in_range 28 30 c || (code c =? 133).

(** [s.splitlines()]: no empty last line, and CR LF is one boundary. *)
Fixpoint splitlines (s : string) : list string :=
  match s with
  | EmptyString => []
  | String c s' =>
      if is_linebreak c then
        match s' with
        | String c' s'' =>
            if (code c =? 13) && (code c' =? 10) then EmptyString :: splitlines s''
            else EmptyString :: splitlines s'
        | EmptyString => [EmptyString]
        end
      else
        match splitlines s' with
        | [] => [String c EmptyString]
        | l :: ls => String c l :: ls
        end
  end.

(** [s.partition(sep)[0]] for a one-character [sep]. *)
Fixpoint partition_head (sep : ascii) (s : string) : string :=
  match s with
  | EmptyString => EmptyString
  | String c s' => if Ascii.eqb c sep then EmptyString else String c (partition_head sep s')
  end.

(** [s.split(sep)] for a non-empty [sep]: [skip] characters of an occurrence
    of [sep] remain to be dropped, [cur] is the segment being read. *)
Fixpoint split_from (sep : string) (s : string) (skip : nat) (cur : string) : list string :=
  match s with
  | EmptyString => [cur]
  | String c s' =>
      match skip with
      | S k => split_from sep s' k cur
      | O =>
          if String.prefix sep s
          then cur :: split_from sep s' (String.length sep - 1) EmptyString
          else split_from sep s' O (cur +:+ String c EmptyString)
      end
  end.

Definition split (sep : string) (s : string) : list string :=
  split_from sep s O EmptyString.

(** The decimal numeral of an integer, with a minus sign when it is
    negative: what [str(n)] and ['{}'.format(n)] give for an integer of at
    most [max_str_digits] digits, as are the integers that the interpreter
    has read from text itself (a line number of the JSON body, the status
    code of a response). *)
Definition decimal (n : Z) : string := NilEmpty.string_of_int (Z.to_int n).

(** [sys.int_info.default_max_str_digits]: the interpreter converts between
    [str] and [int] up to that many decimal digits, and raises [ValueError]
    beyond. *)
Definition max_str_digits : Z := 4300.

(** The number of decimal digits of an integer, the sign left out. *)
Definition digits (n : Z) : Z := Z.of_nat (String.length (decimal (Z.abs n))).

(** [str(n)] and ['{}'.format(n)] for an integer. *)
Definition str_int (n : Z) : result string :=
  if max_str_digits <? digits n then Raise ValueError else Ok (decimal n).

(** [int(s)] for a string of decimal digits; the limit counts the digits
    of [s], leading zeros included. *)
Definition int (s : string) : result Z :=
  match s with
  | EmptyString => Raise ValueError
  | _ =>
      match NilEmpty.uint_of_string s with
      | Some u =>
          if max_str_digits <? Z.of_nat (String.length s) then Raise ValueError
          else Ok (Z.of_N (N.of_uint u))
      | None => Raise ValueError
      end
  end.

End Py.

(** ** The fragment of [re] the two patterns use

    Each combinator takes the continuation that matches the rest of the
    pattern, and explores the alternatives in the order of CPython's
    backtracking matcher: a greedy repetition first tries to consume one more
    character and falls back to the continuation. *)

Module Re.

(** [\s], [\d] and [\w] on code points below 256. *)
Definition is_space (c : ascii) : bool :=
  Py.in_range 9 13 c || Py.in_range 28 32 c || (Py.code c =? 133) || (Py.code c =? 160).

Definition is_digit (c : ascii) : bool := Py.in_range 48 57 c.

Definition is_word (c : ascii) : bool :=
  Py.in_range 48 57 c || Py.in_range 65 90 c || (Py.code c =? 95) || Py.in_range 97 122 c
  || (Py.code c =? 170) || Py.in_range 178 179 c || (Py.code c =? 181)
  || Py.in_range 185 186 c || Py.in_range 188 190 c
  || Py.in_range 192 214 c || Py.in_range 216 246 c || Py.in_range 248 255 c.

Definition non_word (c : ascii) : bool := negb (is_word c).

(** [.] without DOTALL. *)
Definition dot (c : ascii) : bool := negb (Py.code c =? 10).

Section Combinators.

Context {A : Type}.

(** [p*] followed by [k]. *)
Fixpoint star (p : ascii -> bool) (k : string -> option A) (s : string) : option A :=
  match s with
  | EmptyString => k EmptyString
  | String c s' =>
      if p c then
        match star p k s' with
        | Some r => Some r
        | None => k s
        end
      else k s
  end.

(** [p+] followed by [k]. *)
Definition plus (p : ascii -> bool) (k : string -> option A) (s : string) : option A :=
  match s with
  | EmptyString => None
  | String c s' => if p c then star p k s' else None
  end.

(** A literal under IGNORECASE, followed by [k]. *)
Fixpoint lit_ci (pat : string) (k : string -> option A) (s : string) : option A :=
  match pat with
  | EmptyString => k s
  | String p pat' =>
      match s with
      | EmptyString => None
      | String c s' =>
          if Ascii.eqb (Py.lower_char c) (Py.lower_char p) then lit_ci pat' k s' else None
      end
  end.

End Combinators.

(** [(p+)] at the end of the pattern: the group is the text consumed.  The
    repetition is greedy and nothing follows it, so the first alternative
    tried, the longest run, is the match. *)
Fixpoint group_plus_end (p : ascii -> bool) (s : string) : string :=
  match s with
  | EmptyString => EmptyString
  | String c s' => if p c then String c (group_plus_end p s') else EmptyString
  end.

Definition plus_group_end (p : ascii -> bool) (s : string) : option string :=
  match s with
  | EmptyString => None
  | String c _ => if p c then Some (group_plus_end p s) else None
  end.

End Re.

(** [REGEX_CAUSED_BY = re.compile(r'\W*caused\W+by', re.IGNORECASE)];
    [REGEX_CAUSED_BY.match(s)] as a truth value. *)
Definition REGEX_CAUSED_BY_match (s : string) : bool :=
  match Re.star Re.non_word
          (Re.lit_ci "caused" (Re.plus Re.non_word (Re.lit_ci "by" (fun _ => Some tt)))) s with
  | Some _ => true
  | None => false
  end.

(** [REGEX_COUNT = re.compile(r'.*count:\s+(\d+)', re.IGNORECASE)];
    [REGEX_COUNT.match(s)], as [group(1)] of the match when there is one. *)
Definition REGEX_COUNT_match (s : string) : option string :=
  Re.star Re.dot
    (Re.lit_ci "count:" (Re.plus Re.is_space (Re.plus_group_end Re.is_digit))) s.

(** ** [difflib.SequenceMatcher]

    [SequenceMatcher(isjunk, a, b)] with the default [autojunk=True], as far
    as [ratio] and [real_quick_ratio] need it.  The two sequences are the
    characters of two strings. *)

Module SequenceMatcher.

Local Close Scope string_scope.

(** A [Match(a=i, b=j, size=k)] tuple. *)
Definition block : Type := Z * Z * Z.

Definition size (x : block) : Z := snd x.

Definition len (l : list ascii) : Z := Z.of_nat (length l).

(** [l[i]] for an index in range. *)
Definition item (l : list ascii) (i : Z) : ascii := nth (Z.to_nat i) l "000"%char.

(** [range(lo, hi)]. *)
Definition range (lo hi : Z) : list Z :=
  map (fun n => lo + Z.of_nat n) (seq 0 (Z.to_nat (hi - lo))).

Definition enumerate (l : list ascii) : list (Z * ascii) :=
  combine (range 0 (len l)) l.

(** The fields of a matcher that the ratios read. *)
Record t : Type := {
  a : list ascii;
  b : list ascii;
  b2j : gmap ascii (list Z);
  bjunk : gset ascii;
  bpopular : gset ascii
}.

(** *** [__init__], [set_seqs] and [__chain_b] *)

Section Chain.

Variable isjunk : ascii -> bool.
Variable seq_b : list ascii.

(** [b2j] after the first loop: every element of [b] with its indices. *)
Definition b2j_all : gmap ascii (list Z) :=
  fold_left (fun (b2j : gmap ascii (list Z)) (ie : Z * ascii) =>
               <[snd ie := default [] (b2j !! snd ie) ++ [fst ie]]> b2j)
            (enumerate seq_b) ∅.

(** The junk set: the keys of [b2j] that [isjunk] accepts. *)
Definition chain_bjunk : gset ascii :=
  filter (fun elt => isjunk elt = true) (dom b2j_all).

Definition b2j_nojunk : gmap ascii (list Z) :=
  filter (fun kv => fst kv ∉ chain_bjunk) b2j_all.

(** The popular set: with 200 elements or more, the elements that are not
    junk and occur more than [n // 100 + 1] times. *)
Definition chain_bpopular : gset ascii :=
  let n := len seq_b in
  if 200 <=? n then
    let ntest := n / 100 + 1 in
    dom (filter (fun kv : ascii * list Z => ntest < Z.of_nat (length (snd kv))) b2j_nojunk)
  else ∅.

(** [b2j] once junk and popular elements are purged. *)
Definition chain_b2j : gmap ascii (list Z) :=
  filter (fun kv => fst kv ∉ chain_bpopular) b2j_nojunk.

End Chain.

(** [SequenceMatcher(isjunk, a, b)]. *)
Definition init (isjunk : ascii -> bool) (seq_a seq_b : list ascii) : t :=
  {| a := seq_a;
     b := seq_b;
     b2j := chain_b2j isjunk seq_b;
     bjunk := chain_bjunk isjunk seq_b;
     bpopular := chain_bpopular isjunk seq_b |}.

Section Methods.

Variable self : t.

Definition isbjunk (x : ascii) : bool := bool_decide (x ∈ bjunk self).

(** *** [find_longest_match] *)

(** The state of the search: [newj2len] and [(besti, bestj, bestsize)]. *)
Definition search_state : Type := gmap Z Z * block.

(** The inner loop [for j in b2j.get(a[i], nothing)], over the indices [js]
    still to visit. *)
Fixpoint row (blo bhi : Z) (j2len : gmap Z Z) (i : Z) (js : list Z)
    (st : search_state) : search_state :=
  match js with
  | [] => st
  | j :: js' =>
      if j <? blo then row blo bhi j2len i js' st
      else if bhi <=? j then st
      else
        let '(newj2len, (besti, bestj, bestsize)) := st in
        let k := default 0 (j2len !! (j - 1)) + 1 in
        let newj2len := <[j := k]> newj2len in
        let best := if bestsize <? k then (i - k + 1, j - k + 1, k)
                    else (besti, bestj, bestsize) in
        row blo bhi j2len i js' (newj2len, best)
  end.

(** One turn of [for i in range(alo, ahi)]; the state carries [j2len]. *)
Definition rows_step (blo bhi : Z) (st : search_state) (i : Z) : search_state :=
  let '(j2len, best) := st in
  row blo bhi j2len i (default [] (b2j self !! item (a self) i)) (∅, best).

Definition longest_junk_free (alo ahi blo bhi : Z) : block :=
  snd (fold_left (rows_step blo bhi) (range alo ahi) (∅, (alo, blo, 0))).

(** The four [while] loops that extend the best match.  [junk] tells
    whether the loop takes junk or non-junk elements; [fuel] is the distance
    to the bound the loop condition tests, so that the loop condition is false
    when it is spent. *)
Fixpoint extend_back (junk : bool) (alo blo : Z) (fuel : nat) (x : block) : block :=
  match fuel with
  | O => x
  | S fuel' =>
      let '(besti, bestj, bestsize) := x in
      if (alo <? besti) && (blo <? bestj)
         && Bool.eqb (isbjunk (item (b self) (bestj - 1))) junk
         && Ascii.eqb (item (a self) (besti - 1)) (item (b self) (bestj - 1))
      then extend_back junk alo blo fuel' (besti - 1, bestj - 1, bestsize + 1)
      else x
  end.

Fixpoint extend_forward (junk : bool) (ahi bhi : Z) (fuel : nat) (x : block) : block :=
  match fuel with
  | O => x
  | S fuel' =>
      let '(besti, bestj, bestsize) := x in
      if (besti + bestsize <? ahi) && (bestj + bestsize <? bhi)
         && Bool.eqb (isbjunk (item (b self) (bestj + bestsize))) junk
         && Ascii.eqb (item (a self) (besti + bestsize)) (item (b self) (bestj + bestsize))
      then extend_forward junk ahi bhi fuel' (besti, bestj, bestsize + 1)
      else x
  end.

Definition back_fuel (alo : Z) (x : block) : nat := Z.to_nat (fst (fst x) - alo).

Definition forward_fuel (ahi : Z) (x : block) : nat :=
  Z.to_nat (ahi - (fst (fst x) + snd x)).

Definition find_longest_match (alo ahi blo bhi : Z) : block :=
  let x0 := longest_junk_free alo ahi blo bhi in
  let x1 := extend_back false alo blo (back_fuel alo x0) x0 in
  let x2 := extend_forward false ahi bhi (forward_fuel ahi x1) x1 in
  let x3 := extend_back true alo blo (back_fuel alo x2) x2 in
  extend_forward true ahi bhi (forward_fuel ahi x3) x3.

(** *** [get_matching_blocks] *)

(** The [while queue] loop.  The head of [queue] is the end of the Python
    list, where [pop] and [append] work. *)
Fixpoint matching_blocks_loop (fuel : nat) (queue : list (Z * Z * Z * Z))
    (matching_blocks : list block) : option (list block) :=
  match fuel with
  | O => None
  | S fuel' =>
      match queue with
      | [] => Some matching_blocks
      | (alo, ahi, blo, bhi) :: queue =>
          let x := find_longest_match alo ahi blo bhi in
          let '(i, j, k) := x in
          if k =? 0 then matching_blocks_loop fuel' queue matching_blocks
          else
            let queue := if (alo <? i) && (blo <? j)
                         then (alo, i, blo, j) :: queue else queue in
            let queue := if (i + k <? ahi) && (j + k <? bhi)
                         then (i + k, ahi, j + k, bhi) :: queue else queue in
            matching_blocks_loop fuel' queue (matching_blocks ++ [x])
      end
  end.

(** The order of tuples, for [matching_blocks.sort()]. *)
Definition block_le (x y : block) : Prop :=
  let '(i1, j1, k1) := x in
  let '(i2, j2, k2) := y in
  i1 < i2 \/ (i1 = i2 /\ (j1 < j2 \/ (j1 = j2 /\ k1 <= k2))).

#[local] Instance block_le_dec (x y : block) : Decision (block_le x y).
Proof. destruct x as [[i1 j1] k1], y as [[i2 j2] k2]. simpl. apply _. Defined.

(** The loop that collapses adjacent blocks; the state is
    [(i1, j1, k1)] and [non_adjacent]. *)
Definition collapse_step (st : block * list block) (x : block) : block * list block :=
  let '((i1, j1, k1), non_adjacent) := st in
  let '(i2, j2, k2) := x in
  if (i1 + k1 =? i2) && (j1 + k1 =? j2) then ((i1, j1, k1 + k2), non_adjacent)
  else ((i2, j2, k2), if k1 =? 0 then non_adjacent else non_adjacent ++ [(i1, j1, k1)]).

Definition collapse (matching_blocks : list block) : list block :=
  let '((i1, j1, k1), non_adjacent) :=
    fold_left collapse_step matching_blocks ((0, 0, 0), []) in
  let non_adjacent := if k1 =? 0 then non_adjacent else non_adjacent ++ [(i1, j1, k1)] in
  non_adjacent ++ [(len (a self), len (b self), 0)].

(** Every turn of the loop takes a range off the queue and puts back ranges
    that are shorter in total, so this many turns are enough
    ([matching_blocks_loop_returns] below). *)
Definition loop_fuel : nat := S (S (2 * length (a self))).

Definition raw_matching_blocks : option (list block) :=
  matching_blocks_loop loop_fuel [(0, len (a self), 0, len (b self))] [].

Definition get_matching_blocks : list block :=
  match raw_matching_blocks with
  | Some matching_blocks => collapse (merge_sort block_le matching_blocks)
  | None => []
  end.

(** *** The ratios *)

(** [_calculate_ratio], on exact rationals. *)
Definition _calculate_ratio (matches length : Z) : Q :=
  if length =? 0 then 1%Q else Qmake (2 * matches) (Z.to_pos length).

Definition ratio : Q :=
  let matches := fold_right Z.add 0 (map size get_matching_blocks) in
  _calculate_ratio matches (len (a self) + len (b self)).

Definition real_quick_ratio : Q :=
  let la := len (a self) in
  let lb := len (b self) in
  _calculate_ratio (Z.min la lb) (la + lb).

End Methods.

End SequenceMatcher.

(** ** The data of [server.py] *)

(** An element of the [stacktrace] array of a causal frame. *)
Record stack_line : Type := {
  className : string;
  methodName : string;
  fileName : string;
  lineNumber : Z;
  nativeMethod : bool
}.

(** An element of the [stacktrace] array of a report: a causal frame. *)
Record trace : Type := {
  message : string;
  trace_stacktrace : list stack_line
}.

(** The JSON object of an inbound report: the [stacktrace] array and the
    other keys, each with its value as [format] prints it. *)
Record json_data : Type := {
  stacktrace : list trace;
  details : list (string * string)
}.

(** An element of [issues] in a search response, with the fields read:
    [issue['key']], [issue['fields']['status']['name']],
    [issue['fields']['environment']] (which may be [None]) and
    [issue['fields']['description']]. *)
Record issue : Type := {
  key : string;
  status_name : string;
  environment : option string;
  description : string
}.

(** The requests sent to Jira. *)
Inductive request : Type :=
| SearchOpen
| Search (jql : string) (startAt : Z)
| Create (summary : string) (description : string)
| Update (issue_id : string) (environment : string)
| Transition (issue_id : string) (transition_id : string).

(** A response: the status code and the fields of its JSON body. *)
Record response : Type := {
  status_code : Z;
  maxResults : Z;
  total : Z;
  issues : list issue;
  created_key : string
}.

(** The world a request is served in: the requests made so far, latest
    first. *)
Definition world : Type := list request.

(** A computation that may send requests and may raise. *)
Definition io (A : Type) : Type := world -> result A * world.

Definition io_ret {A : Type} (x : A) : io A := fun w => (Ok x, w).

Definition io_raise {A : Type} (e : exn) : io A := fun w => (Raise e, w).

Definition io_bind {A B : Type} (c : io A) (k : A -> io B) : io B :=
  fun w =>
    match c w with
    | (Ok x, w') => k x w'
    | (Raise e, w') => (Raise e, w')
    end.

Definition io_lift {A : Type} (r : result A) : io A := fun w => (r, w).

Notation "'let!' x ':=' c 'in' k" := (io_bind c (fun x => k))
  (at level 10, x name, c at level 100, k at level 200).

(** ** The constants of [server.py] *)

Definition newline : string := String (ascii_of_nat 10) EmptyString.

Definition tab : string := String (ascii_of_nat 9) EmptyString.

Definition _JIRA_TRANSITION_REOPEN_ID : string := "3".

(** ** The functions of [server.py] that do not talk to Jira *)

Definition is_issue_closed (status : string) : bool :=
  String.eqb (Py.lower status) "closed" || String.eqb (Py.lower status) "resolved".

(** [now] is what [datetime.now()] prints at the call. *)
Definition calculate_issue_occurrence_count (now : string) (existing_count : option string)
    : result string :=
  let? count := match existing_count with
           | Some text =>
               if 0 <? Z.of_nat (String.length text) then
                 match REGEX_COUNT_match text with
                 | Some group1 => let? n := Py.int group1 in Ok (n + 1)
                 | None => Ok 1
                 end
               else Ok 1
           | None => Ok 1
           end in
  let? count_text := Py.str_int count in
  Ok ("Count: " ++ count_text ++ newline ++ "Last: " ++ now).

Definition sanitize_jql_query (raw_jql : string) : string :=
  "project=HAMISTIRF&issuetype=Bevinding&summary ~ '" ++ raw_jql ++ "'".

Definition get_stacktrace_from_issue (i : issue) : string :=
  let description_blocks := Py.split "{noformat}" (description i) in
  if 3 <=? Z.of_nat (length description_blocks)
  then nth 1 description_blocks EmptyString
  else EmptyString.

Definition first_line_caused_by_from_printed_stacktrace (printed_stacktrace : string)
    : result string :=
  let lines := Py.splitlines printed_stacktrace in
  let loc_last_causedby_line :=
    fold_left (fun loc i =>
                 if REGEX_CAUSED_BY_match (nth i lines EmptyString) then Z.of_nat i else loc)
              (seq 0 (length lines)) (-1) in
  let? line := Py.getitem lines (loc_last_causedby_line + 1) in
  Ok (Py.partition_head ":" line).

Definition matches_exception_throw_location (new_stacktrace issue_stacktrace : string)
    : result bool :=
  let? line_new_stacktrace := first_line_caused_by_from_printed_stacktrace new_stacktrace in
  let? line_issue_stacktrace := first_line_caused_by_from_printed_stacktrace issue_stacktrace in
  Ok (String.eqb line_new_stacktrace line_issue_stacktrace).

Definition create_details_string_from_json (data : json_data) : string :=
  fold_left (fun output kv => output ++ "  " ++ fst kv ++ ": " ++ snd kv ++ newline)
            (details data) EmptyString.

Definition get_summary_from_message (data : json_data) : result string :=
  let stacks := stacktrace data in
  let? last_trace := Py.getitem stacks (Z.of_nat (length stacks) - 1) in
  Ok (message last_trace).

(** [output.write(s)] on the [io.StringIO] buffer. *)
Definition write (output : string) (s : string) : string := output ++ s.

Definition get_stacktrace_from_message (data : json_data) : string :=
  let traces := stacktrace data in
  fold_left
    (fun output t =>
       let output := write output ("Caused by: " ++ message t ++ newline) in
       fold_left
         (fun output line =>
            if negb (nativeMethod line) then
              write output (tab ++ "at " ++ className line ++ "." ++ methodName line
                            ++ "(" ++ fileName line ++ ":" ++ Py.decimal (lineNumber line)
                            ++ ")" ++ newline)
            else output)
         (trace_stacktrace t) output)
    traces EmptyString.

(** The [isjunk] argument of the matcher:
    [lambda x: x == ' ' or x == '\n' or x == '\t']. *)
Definition isjunk (x : ascii) : bool :=
  Ascii.eqb x " " || Ascii.eqb x (ascii_of_nat 10) || Ascii.eqb x (ascii_of_nat 9).

(** [x > y] on the rationals that stand for the floats. *)
Definition Qgtb (x y : Q) : bool := negb (Qle_bool x y).

(** [match_ratio = s.ratio() if s.real_quick_ratio() > 0.6 else 0]. *)
Definition match_ratio (new_stacktrace issue_stacktrace : string) : Q :=
  let s := SequenceMatcher.init isjunk (list_ascii_of_string new_stacktrace)
             (list_ascii_of_string issue_stacktrace) in
  if Qgtb (SequenceMatcher.real_quick_ratio s) (6 # 10) then SequenceMatcher.ratio s else 0%Q.

(** The test of the [if] in the loop of [determine_if_duplicate]:
    [match_ratio > 0.95 and matches_exception_throw_location(...)]. *)
Definition is_match (new_stacktrace issue_stacktrace : string) : result bool :=
  if Qgtb (match_ratio new_stacktrace issue_stacktrace) (95 # 100)
  then matches_exception_throw_location new_stacktrace issue_stacktrace
  else Ok false.

(** What [determine_if_duplicate] returns: the tuple
    [(True, key, status, environment)] or [(False, '')]. *)
Inductive decision : Type :=
| Duplicate (target_key : string) (status : string) (prior_annotation : option string)
| New.

(** The loop [for issue in issue_list] of [determine_if_duplicate]. *)
Fixpoint scan_issues (new_stacktrace : string) (issue_list : list issue) : result decision :=
  match issue_list with
  | [] => Ok New
  | i :: rest =>
      let issue_stacktrace := get_stacktrace_from_issue i in
      let? matched := is_match new_stacktrace issue_stacktrace in
      if matched then Ok (Duplicate (key i) (status_name i) (environment i))
      else scan_issues new_stacktrace rest
  end.

(** ** The functions of [server.py] that talk to Jira *)

Section Service.

(** Jira, as the response to a request given the requests made before it. *)
Variable jira : world -> request -> response.

(** What [datetime.now()] prints. *)
Variable now : string.

(** [requests.post] and [requests.put]. *)
Definition send (r : request) : io response :=
  fun w => (Ok (jira w r), r :: w).

(** [depth] is the number of Python frames left before the interpreter
    raises [RecursionError]. *)
Fixpoint find_existing_jira_issues (depth : nat) (exception_summary : string) (start_at : Z)
    : io (list issue) :=
  match depth with
  | O => io_raise RecursionError
  | S depth' =>
      let! resp := send (Search (sanitize_jql_query exception_summary) start_at) in
      if negb (status_code resp =? 200) then
        io_raise (InternalError
                    ("Could not query Jira issues, cancel processing issue. Resp code; "
                     ++ Py.decimal (status_code resp)))
      else
        let max_results := maxResults resp in
        let total_results := total resp in
        let! issue_list := (if start_at + max_results <? total_results
                       then find_existing_jira_issues depth' exception_summary
                              (start_at + max_results)
                       else io_ret []) in
        io_ret (issue_list ++ issues resp)%list
  end.

Definition determine_if_duplicate (depth : nat) (data : json_data) : io decision :=
  let! exception_summary := io_lift (get_summary_from_message data) in
  let! issue_list := find_existing_jira_issues depth exception_summary 0 in
  let new_stacktrace := get_stacktrace_from_message data in
  io_lift (scan_issues new_stacktrace issue_list).

Definition show_all_open_issues : io (list issue) :=
  let! resp := send SearchOpen in
  if negb (status_code resp =? 200) then
    io_raise (InternalError ("Could not get open Jira issues, resp code; "
                             ++ Py.decimal (status_code resp)))
  else io_ret (issues resp).

Definition add_to_jira (summary details stacktrace : string) : io string :=
  let title := "HaMIS Exception: " ++ summary in
  let description :=
    summary ++ newline ++ newline ++ "Details:" ++ newline ++ details ++ newline ++ newline
    ++ "Stacktrace:" ++ newline ++ "{noformat}" ++ stacktrace ++ "{noformat}" in
  let! resp := send (Create title description) in
  if negb (status_code resp =? 201) then
    io_raise (InternalError ("Could not create new Jira issue, resp code; "
                             ++ Py.decimal (status_code resp)))
  else io_ret (created_key resp).

Definition update_to_jira (issue_id environment : string) (do_status_transition : bool)
    : io unit :=
  let! resp := send (Update issue_id environment) in
  if negb (status_code resp =? 204) then
    io_raise (InternalError ("Could not update existing Jira issue, resp code; "
                             ++ Py.decimal (status_code resp)))
  else if do_status_transition then
    let! _ := send (Transition issue_id _JIRA_TRANSITION_REOPEN_ID) in io_ret tt
  else io_ret tt.

(** The text and the status code of the HTTP answer. *)
Definition add_jira_exception (depth : nat) (data : json_data) : io (string * Z) :=
  let! is_duplicate := determine_if_duplicate depth data in
  match is_duplicate with
  | Duplicate target_key status prior_annotation =>
      let! annotation := io_lift (calculate_issue_occurrence_count now prior_annotation) in
      let! _ := update_to_jira target_key annotation (is_issue_closed status) in
      io_ret ("Jira issue already exists, updated: " ++ target_key, 200)
  | New =>
      let! summary := io_lift (get_summary_from_message data) in
      let! result_key := add_to_jira summary (create_details_string_from_json data)
                      (get_stacktrace_from_message data) in
      io_ret ("Jira issue added: " ++ result_key, 201)
  end.

(** [receive_exception] for a POST of a JSON report: the handler catches
    [InternalError] and nothing else. *)
Definition receive_exception (depth : nat) (data : json_data) : io (string * Z) :=
  fun w =>
    match add_jira_exception depth data w with
    | (Raise (InternalError err), w') =>
        (Ok ("Error during processing; " ++ newline ++ tab ++ err, 500), w')
    | other => other
    end.

End Service.

(** ** Definitions that follow the specification's words

    They are compared below with the functions embedded from the code. *)

(** The line of one stack line. *)
Definition spec_stack_line (line : stack_line) : string :=
  tab ++ "at " ++ className line ++ "." ++ methodName line ++ "(" ++ fileName line ++ ":"
  ++ Py.decimal (lineNumber line) ++ ")" ++ newline.

(** The lines of one causal frame: the caused-by line, then one line for
    each stack line that is not native. *)
Definition spec_frame (t : trace) : string :=
  "Caused by: " ++ message t ++ newline
  ++ String.concat "" (map spec_stack_line
                         (List.filter (fun line => negb (nativeMethod line))
                            (trace_stacktrace t))).

(** The printed stacktrace of a report: its frames in their order. *)
Definition spec_printed_stacktrace (data : json_data) : string :=
  String.concat "" (map spec_frame (stacktrace data)).

(** The exact ratio and the quick estimate of two texts, with the junk
    policy of the service. *)
Definition exact_ratio (new_stacktrace issue_stacktrace : string) : Q :=
  SequenceMatcher.ratio
    (SequenceMatcher.init isjunk (list_ascii_of_string new_stacktrace)
       (list_ascii_of_string issue_stacktrace)).

Definition quick_estimate (new_stacktrace issue_stacktrace : string) : Q :=
  SequenceMatcher.real_quick_ratio
    (SequenceMatcher.init isjunk (list_ascii_of_string new_stacktrace)
       (list_ascii_of_string issue_stacktrace)).

(** The similarity test without the quick-ratio gate. *)
Definition ungated_match (new_stacktrace issue_stacktrace : string) : result bool :=
  if Qgtb (exact_ratio new_stacktrace issue_stacktrace) (95 # 100)
  then matches_exception_throw_location new_stacktrace issue_stacktrace
  else Ok false.

(** The pages of a result list, for a page size [m]: [fuel] bounds the
    number of pages. *)
Fixpoint spec_pages (fuel : nat) (m : nat) (all : list issue) : list (list issue) :=
  match fuel with
  | O => []
  | S fuel' =>
      match all with
      | [] => []
      | _ => firstn m all :: spec_pages fuel' m (skipn m all)
      end
  end.

Definition pages (m : nat) (all : list issue) : list (list issue) :=
  spec_pages (length all) m all.

(** The log of [n] searches for [jql] at the offsets [o], [o + m], ...,
    latest first. *)
Fixpoint spec_search_log (jql : string) (m : nat) (o : nat) (n : nat) : list request :=
  match n with
  | O => []
  | S n' => (spec_search_log jql m (o + m) n' ++ [Search jql (Z.of_nat o)])%list
  end.

(** A tracker that holds the records [all] and serves them in pages of
    [page_size] records, whatever was asked before. *)
Definition paged_jira (all : list issue) (page_size : nat) : world -> request -> response :=
  fun _ r =>
    match r with
    | Search _ start_at =>
        {| status_code := 200;
           maxResults := Z.of_nat page_size;
           total := Z.of_nat (length all);
           issues := firstn page_size (skipn (Z.to_nat start_at) all);
           created_key := "" |}
    | _ =>
        {| status_code := 404; maxResults := 0; total := 0; issues := []; created_key := "" |}
    end.

(** The annotation text for a count and a timestamp. *)
Definition spec_annotation (n : Z) (now : string) : string :=
  "Count: " ++ Py.decimal n ++ newline ++ "Last: " ++ now.

Fixpoint string_forall (p : ascii -> bool) (s : string) : bool :=
  match s with
  | EmptyString => true
  | String c s' => p c && string_forall p s'
  end.

Definition starts_with_digit (s : string) : bool :=
  match s with
  | EmptyString => false
  | String c _ => Re.is_digit c
  end.

(** [text] is some leading text on one line, then "count:" in any case,
    then whitespace, then the digits [digits], which end there. *)
Definition count_pattern (text digits : string) : Prop :=
  exists leading keyword spaces rest,
    text = leading ++ keyword ++ spaces ++ digits ++ rest
    /\ string_forall Re.dot leading = true
    /\ Py.lower keyword = "count:"
    /\ spaces <> "" /\ string_forall Re.is_space spaces = true
    /\ digits <> "" /\ string_forall Re.is_digit digits = true
    /\ starts_with_digit rest = false.

(** The same without the condition that the leading text is on one line. *)
Definition loose_count_pattern (text digits : string) : Prop :=
  exists leading keyword spaces rest,
    text = leading ++ keyword ++ spaces ++ digits ++ rest
    /\ Py.lower keyword = "count:"
    /\ spaces <> "" /\ string_forall Re.is_space spaces = true
    /\ digits <> "" /\ string_forall Re.is_digit digits = true
    /\ starts_with_digit rest = false.

(** What follows the leading text in [REGEX_COUNT]. *)
Definition count_tail : string -> option string :=
  Re.lit_ci "count:" (Re.plus Re.is_space (Re.plus_group_end Re.is_digit)).

(** ** Invariants of the matcher, used in the proofs *)

Module MatcherInvariants.

Import SequenceMatcher.

Local Close Scope string_scope.

(** A block that lies in the window [alo, ahi) x [blo, bhi). *)
Definition in_window (alo ahi blo bhi : Z) (x : block) : Prop :=
  let '(i, j, k) := x in
  alo <= i /\ blo <= j /\ 0 <= k /\ i + k <= ahi /\ j + k <= bhi.

(** The entries of [j2len] once the row of [a[i]] is done. *)
Definition row_entries (alo blo bhi i : Z) (j2len : gmap Z Z) : Prop :=
  forall j k, j2len !! j = Some k ->
    1 <= k /\ k <= i - alo + 1 /\ k <= j - blo + 1 /\ j < bhi.

(** The sum of the sizes of a list of blocks. *)
Definition total_size (bl : list block) : Z := fold_right Z.add 0 (map size bl).

(** The total length of the windows of a queue, in [a] and in [b], and
    the measure that decreases at every turn of the loop. *)
Definition queue_span_a (queue : list (Z * Z * Z * Z)) : Z :=
  fold_right Z.add 0 (map (fun q : Z * Z * Z * Z => let '(alo, ahi, _, _) := q in ahi - alo) queue).

Definition queue_span_b (queue : list (Z * Z * Z * Z)) : Z :=
  fold_right Z.add 0 (map (fun q : Z * Z * Z * Z => let '(_, _, blo, bhi) := q in bhi - blo) queue).

Definition queue_weight (queue : list (Z * Z * Z * Z)) : Z :=
  fold_right Z.add 0
    (map (fun q : Z * Z * Z * Z => let '(alo, ahi, _, _) := q in 2 * (ahi - alo) + 1) queue).

(** The windows of a queue are well formed. *)
Definition queue_ok (queue : list (Z * Z * Z * Z)) : Prop :=
  Forall (fun q : Z * Z * Z * Z => let '(alo, ahi, blo, bhi) := q in alo <= ahi /\ blo <= bhi)
    queue.

(** The indices of [x] in [l], counted from [o]. *)
Fixpoint positions_from (o : Z) (x : ascii) (l : list ascii) : list Z :=
  match l with
  | [] => []
  | c :: l' => (if Ascii.eqb c x then [o] else []) ++ positions_from (o + 1) x l'
  end.

(** [x] is a key of [b2j]: it occurs in [b] and is neither junk nor popular. *)
Definition keyed (s : t) (x : ascii) : Prop := is_Some (b2j s !! x).

(** The [k] elements of [b] that end at index [i] are keys, and start at
    [lo] or after. *)
Definition run (s : t) (lo i k : Z) : Prop :=
  0 <= k /\ lo <= i - k + 1 /\ forall d, 0 <= d < k -> keyed s (item (b s) (i - d)).

(** [k] is the length of the longest such run. *)
Definition longest_run (s : t) (lo i k : Z) : Prop :=
  run s lo i k /\ forall k', run s lo i k' -> k' <= k.

(** The state of the inner loop of [find_longest_match] on the window
    [lo, hi) of a text compared with itself, in the row [i], with the indices
    [js] left to visit. *)
Definition diagonal_row (s : t) (lo hi i : Z) (js : list Z) (st : search_state) : Prop :=
  let '(newj2len, (besti, bestj, bestsize)) := st in
  besti = bestj /\ lo <= besti /\ 0 <= bestsize /\ besti + bestsize <= hi
  /\ (bestsize = 0 -> besti = lo)
  /\ (forall i' k, lo <= i' < i -> run s lo i' k -> k <= bestsize)
  /\ (i ∉ js -> forall k, run s lo i k -> k <= bestsize)
  /\ (forall j k, newj2len !! j = Some k -> 1 <= k /\ run s lo i k /\ run s lo j k /\ lo <= j)
  /\ (i ∉ js -> longest_run s lo i (default 0 (newj2len !! i))).

(** The windows of a queue are the same in [a] and in [b] and lie in a
    text of [n] elements. *)
Definition diagonal_queue (n : Z) (queue : list (Z * Z * Z * Z)) : Prop :=
  Forall (fun q : Z * Z * Z * Z =>
            let '(alo, ahi, blo, bhi) := q in
            alo = blo /\ ahi = bhi /\ 0 <= alo <= ahi /\ ahi <= n) queue.

End MatcherInvariants.

(** ** Reports, issues and trackers used as examples *)

Definition line_db : stack_line :=
  {| className := "svc.Db"; methodName := "run"; fileName := "Db.java";
     lineNumber := 42; nativeMethod := false |}.

(** Two reports that differ in their message only. *)
Definition report_tide : json_data :=
  {| stacktrace := [ {| message := "tide"; trace_stacktrace := [line_db] |} ];
     details := [] |}.

Definition report_diet : json_data :=
  {| stacktrace := [ {| message := "diet"; trace_stacktrace := [line_db] |} ];
     details := [] |}.

(** A report whose only frame has no stack line: its printed stacktrace is
    the single line [Caused by: m]. *)
Definition report_bare : json_data :=
  {| stacktrace := [ {| message := "m"; trace_stacktrace := [] |} ]; details := [] |}.

Definition report_empty : json_data := {| stacktrace := []; details := [] |}.

(** An open issue that embeds a printed stacktrace the way [add_to_jira]
    writes it. *)
Definition issue_with (issue_key : string) (printed : string) : issue :=
  {| key := issue_key;
     status_name := "Open";
     environment := None;
     description := "Stacktrace:" ++ newline ++ "{noformat}" ++ printed ++ "{noformat}" |}.

(** The issues that the requests of a log have created, oldest first. *)
Fixpoint created_issues (w : world) : list issue :=
  match w with
  | [] => []
  | Create _ text :: w' =>
      (created_issues w' ++ [ {| key := "HAMISTIRF-1"; status_name := "Open";
                                 environment := None; description := text |} ])%list
  | _ :: w' => created_issues w'
  end.

(** A tracker that answers every request with success and finds, in one
    page, the issues created so far. *)
Definition recording_jira : world -> request -> response :=
  fun w r =>
    match r with
    | Create _ _ =>
        {| status_code := 201; maxResults := 0; total := 0; issues := [];
           created_key := "HAMISTIRF-1" |}
    | Update _ _ =>
        {| status_code := 204; maxResults := 0; total := 0; issues := []; created_key := "" |}
    | _ =>
        {| status_code := 200; maxResults := 50;
           total := Z.of_nat (length (created_issues w));
           issues := created_issues w; created_key := "" |}
    end.

(** A report with two frames and a native stack line. *)
Definition report_nested : json_data :=
  {| stacktrace :=
       [ {| message := "outer";
            trace_stacktrace :=
              [ {| className := "app.Main"; methodName := "main"; fileName := "Main.java";
                   lineNumber := 7; nativeMethod := false |};
                {| className := "sun.Native"; methodName := "invoke0"; fileName := "Native.java";
                   lineNumber := -2; nativeMethod := true |} ] |};
         {| message := "root"; trace_stacktrace := [line_db] |} ];
     details := [("host", "h1")] |}.

(** The candidates of the example of the scan: the issue filed for
    [report_tide]; *)
Definition issue_tide : issue := issue_with "T-2" (get_stacktrace_from_message report_tide).

(** the issue filed for [report_nested]; and an issue whose embedded text
    is the same followed by a line that is a caused-by line, so that the
    throw location of that text cannot be computed. *)
Definition issue_nested : issue :=
  issue_with "N-4" (get_stacktrace_from_message report_nested).

Definition issue_trailing : issue :=
  issue_with "R-5" (get_stacktrace_from_message report_nested ++ "Caused by").

Definition issue_a : issue := issue_with "A-1" "a".

Definition issue_b : issue := issue_with "B-2" "b".

Definition issue_c : issue := issue_with "C-3" "c".

(** A report whose only frame has no stack line, from the host [host]. *)
Definition report_refused (host : string) : json_data :=
  {| stacktrace := [ {| message := "connection refused by the database host " ++ host;
                        trace_stacktrace := [] |} ];
     details := [] |}.

(** A count of 4301 digits, one more than the interpreter converts. *)
Definition long_count : string := string_of_list_ascii (repeat "1"%char 4301).

(** ** Definitions for the properties of the whole service *)

(** [sep in s]. *)
Fixpoint str_contains (sep s : string) : bool :=
  String.prefix sep s
  || match s with
     | EmptyString => false
     | String _ s' => str_contains sep s'
     end.

(** The characters of a string after the first one. *)
Definition tail_chars (s : string) : list ascii :=
  match s with
  | EmptyString => []
  | String _ s' => list_ascii_of_string s'
  end.

(** A separator whose first character does not occur again in it: no
    occurrence of it overlaps another one. *)
Definition unbordered (sep : string) : Prop :=
  match sep with
  | EmptyString => False
  | String c _ => ~ In c (tail_chars sep)
  end.

(** The marker that delimits the stacktrace in a description. *)
Definition noformat : string := "{noformat}".

(** The description that [add_to_jira] writes. *)
Definition filed_description (summary details stacktrace : string) : string :=
  summary ++ newline ++ newline ++ "Details:" ++ newline ++ details ++ newline ++ newline
  ++ "Stacktrace:" ++ newline ++ "{noformat}" ++ stacktrace ++ "{noformat}".

(** The length of a text, as the matcher counts it. *)
Definition text_length (s : string) : Z := Z.of_nat (String.length s).

(** The annotation after the occurrences seen at the times [nows], one
    call of the counter for each, starting from the annotation [prior]. *)
Fixpoint count_occurrences (nows : list string) (prior : option string)
    : result (option string) :=
  match nows with
  | [] => Ok prior
  | now :: later =>
      let? annotation := calculate_issue_occurrence_count now prior in
      count_occurrences later (Some annotation)
  end.

(** A request is a search. *)
Definition is_search (r : request) : Prop := exists jql start_at, r = Search jql start_at.

(** A tracker that answers every search with success and a page of 50
    results, and declares one page more than it has been asked for. *)
Definition endless_jira : world -> request -> response :=
  fun _ r =>
    match r with
    | Search _ start_at =>
        {| status_code := 200; maxResults := 50; total := start_at + 51; issues := [];
           created_key := "" |}
    | _ =>
        {| status_code := 404; maxResults := 0; total := 0; issues := []; created_key := "" |}
    end.

(** A tracker that holds one resolved issue, filed for [report_nested] and
    seen four times: it answers searches with that issue, accepts updates,
    and answers everything else with 404. *)
Definition resolved_jira : world -> request -> response :=
  fun _ r =>
    match r with
    | Search _ _ =>
        {| status_code := 200; maxResults := 50; total := 1;
           issues := [ {| key := "N-4"; status_name := "Resolved";
                          environment := Some ("Count: 4" ++ newline ++ "Last: then");
                          description := description issue_nested |} ];
           created_key := "" |}
    | Update _ _ =>
        {| status_code := 204; maxResults := 0; total := 0; issues := []; created_key := "" |}
    | _ =>
        {| status_code := 404; maxResults := 0; total := 0; issues := []; created_key := "" |}
    end.

(** * Properties *)

(** ** Strings *)

Lemma append_nil_r (s : string) : s ++ "" = s.
Proof.
  induction s as [|c s IH]; [reflexivity|].
  change (String c (s ++ "") = String c s). now f_equal.
Qed.

Lemma append_assoc (s1 s2 s3 : string) : (s1 ++ s2) ++ s3 = s1 ++ (s2 ++ s3).
Proof.
  induction s1 as [|c s1 IH]; [reflexivity|].
  change (String c ((s1 ++ s2) ++ s3) = String c (s1 ++ (s2 ++ s3))). now f_equal.
Qed.

Lemma concat_nil_cons (s : string) (l : list string) :
  String.concat "" (s :: l) = s ++ String.concat "" l.
Proof.
  destruct l as [|s' l].
  - cbn. symmetry. apply append_nil_r.
  - reflexivity.
Qed.

(** ** The formatter *)

Lemma write_lines (lines : list stack_line) (output : string) :
  fold_left
    (fun output line =>
       if negb (nativeMethod line) then
         write output (tab ++ "at " ++ className line ++ "." ++ methodName line
                       ++ "(" ++ fileName line ++ ":" ++ Py.decimal (lineNumber line)
                       ++ ")" ++ newline)
       else output) lines output
  = output ++ String.concat "" (map spec_stack_line
                                  (List.filter (fun line => negb (nativeMethod line)) lines)).
Proof.
  revert output. induction lines as [|line lines IH]; intros output.
  - simpl. now rewrite append_nil_r.
  - cbn [fold_left List.filter]. rewrite IH. destruct (negb (nativeMethod line)).
    + cbn [map]. rewrite concat_nil_cons. unfold write.
      rewrite append_assoc. reflexivity.
    + reflexivity.
Qed.

Lemma write_frames (traces : list trace) (output : string) :
  fold_left
    (fun output t =>
       let output := write output ("Caused by: " ++ message t ++ newline) in
       fold_left
         (fun output line =>
            if negb (nativeMethod line) then
              write output (tab ++ "at " ++ className line ++ "." ++ methodName line
                            ++ "(" ++ fileName line ++ ":" ++ Py.decimal (lineNumber line)
                            ++ ")" ++ newline)
            else output)
         (trace_stacktrace t) output) traces output
  = output ++ String.concat "" (map spec_frame traces).
Proof.
  revert output. induction traces as [|t traces IH]; intros output.
  - simpl. now rewrite append_nil_r.
  - cbn [fold_left map]. rewrite IH. cbv zeta. rewrite write_lines.
    rewrite concat_nil_cons. unfold write, spec_frame.
    rewrite !append_assoc. reflexivity.
Qed.

(** C9. For every report with at least one causal frame, the formatter
    outputs, for each frame in the report's order, the line
    [Caused by: message] followed by one [\tat class.method(file:line)] line
    for each stack line that is not native, in order; native stack lines
    produce nothing.  (The equation holds for the empty report as well.) *)
Theorem formatter_prints_frames_in_order (data : json_data) :
  stacktrace data <> [] ->
  get_stacktrace_from_message data = spec_printed_stacktrace data.
Proof.
  intros _. unfold get_stacktrace_from_message, spec_printed_stacktrace.
  rewrite write_frames. reflexivity.
Qed.

Lemma formatter_prints_frames_in_order_witness :
  stacktrace report_nested <> []
  /\ get_stacktrace_from_message report_nested = spec_printed_stacktrace report_nested
  /\ spec_printed_stacktrace report_nested
     = "Caused by: outer" ++ newline ++ tab ++ "at app.Main.main(Main.java:7)" ++ newline
       ++ "Caused by: root" ++ newline ++ tab ++ "at svc.Db.run(Db.java:42)" ++ newline.
Proof.
  split; [discriminate|]. split; [|reflexivity].
  apply (formatter_prints_frames_in_order report_nested). discriminate.
Defined.

(** ** The scan of the candidates *)

Lemma scan_issues_first_match (new_stacktrace : string) (before : list issue) (c : issue)
    (after : list issue) :
  Forall (fun i => is_match new_stacktrace (get_stacktrace_from_issue i) = Ok false) before ->
  is_match new_stacktrace (get_stacktrace_from_issue c) = Ok true ->
  scan_issues new_stacktrace (before ++ c :: after)
  = Ok (Duplicate (key c) (status_name c) (environment c)).
Proof.
  intros Hbefore Hc. induction Hbefore as [|i before Hi _ IH].
  - cbn [app scan_issues]. rewrite Hc. reflexivity.
  - cbn [app scan_issues]. rewrite Hi. exact IH.
Qed.

Lemma scan_issues_no_match (new_stacktrace : string) (issue_list : list issue) :
  Forall (fun i => is_match new_stacktrace (get_stacktrace_from_issue i) = Ok false)
    issue_list ->
  scan_issues new_stacktrace issue_list = Ok New.
Proof.
  induction 1 as [|i l Hi _ IH]; [reflexivity|].
  cbn [scan_issues]. rewrite Hi. exact IH.
Qed.

(** As long as no test raises, the engine tests the candidates in
    retrieval order and returns [Duplicate] with the key, the status and the
    environment annotation of the first candidate whose similarity test
    passes, the candidates before it having failed the test; the candidates
    after it have no part in the result.  When every candidate fails the test
    the engine returns [New]. *)
Theorem triage_returns_first_match (jira : world -> request -> response) (depth : nat)
    (data : json_data) (summary : string) (issue_list : list issue) (w w' : world) :
  get_summary_from_message data = Ok summary ->
  find_existing_jira_issues jira depth summary 0 w = (Ok issue_list, w') ->
  (forall before c after,
      issue_list = (before ++ c :: after)%list ->
      Forall (fun i => is_match (get_stacktrace_from_message data)
                         (get_stacktrace_from_issue i) = Ok false) before ->
      is_match (get_stacktrace_from_message data) (get_stacktrace_from_issue c) = Ok true ->
      determine_if_duplicate jira depth data w
      = (Ok (Duplicate (key c) (status_name c) (environment c)), w'))
  /\ (Forall (fun i => is_match (get_stacktrace_from_message data)
                         (get_stacktrace_from_issue i) = Ok false) issue_list ->
      determine_if_duplicate jira depth data w = (Ok New, w')).
Proof.
  intros Hsummary Hfind.
  assert (Hrun : determine_if_duplicate jira depth data w
                 = (scan_issues (get_stacktrace_from_message data) issue_list, w')).
  { unfold determine_if_duplicate, io_bind, io_lift. rewrite Hsummary, Hfind. reflexivity. }
  split.
  - intros before c after -> Hbefore Hc. rewrite Hrun.
    now rewrite (scan_issues_first_match _ before c after Hbefore Hc).
  - intros Hall. rewrite Hrun. now rewrite (scan_issues_no_match _ _ Hall).
Qed.

Lemma triage_returns_first_match_witness :
  get_summary_from_message report_nested = Ok "root"
  /\ find_existing_jira_issues (paged_jira [issue_tide; issue_nested; issue_trailing] 50) 9
       "root" 0 []
     = (Ok [issue_tide; issue_nested; issue_trailing], [Search (sanitize_jql_query "root") 0])
  /\ is_match (get_stacktrace_from_message report_nested)
       (get_stacktrace_from_issue issue_tide) = Ok false
  /\ is_match (get_stacktrace_from_message report_nested)
       (get_stacktrace_from_issue issue_nested) = Ok true
  /\ is_match (get_stacktrace_from_message report_nested)
       (get_stacktrace_from_issue issue_trailing) = Raise IndexError
  /\ determine_if_duplicate (paged_jira [issue_tide; issue_nested; issue_trailing] 50) 9
       report_nested []
     = (Ok (Duplicate "N-4" "Open" None), [Search (sanitize_jql_query "root") 0]).
Proof.
  assert (H1 : get_summary_from_message report_nested = Ok "root") by reflexivity.
  assert (H2 : find_existing_jira_issues
                 (paged_jira [issue_tide; issue_nested; issue_trailing] 50) 9 "root" 0 []
               = (Ok [issue_tide; issue_nested; issue_trailing],
                  [Search (sanitize_jql_query "root") 0])) by reflexivity.
  assert (H3 : is_match (get_stacktrace_from_message report_nested)
                 (get_stacktrace_from_issue issue_tide) = Ok false)
    by (vm_compute; reflexivity).
  assert (H4 : is_match (get_stacktrace_from_message report_nested)
                 (get_stacktrace_from_issue issue_nested) = Ok true)
    by (vm_compute; reflexivity).
  assert (H5 : is_match (get_stacktrace_from_message report_nested)
                 (get_stacktrace_from_issue issue_trailing) = Raise IndexError)
    by (vm_compute; reflexivity).
  split; [exact H1|]. split; [exact H2|]. split; [exact H3|]. split; [exact H4|].
  split; [exact H5|].
  apply (proj1 (triage_returns_first_match _ 9 report_nested "root" _ [] _ H1 H2)
           [issue_tide] issue_nested [issue_trailing]).
  - reflexivity.
  - constructor; [exact H3 | constructor].
  - exact H4.
Defined.

(** C5, where the code fails.  The candidates retrieved for
    [report_nested] are [issue_trailing], whose embedded text ends with a
    caused-by line, and then [issue_nested], the issue filed for the report.
    The first candidate does not pass the test: its ratio is above 0.95, but
    it has no throw location, where the report has one.  The second passes.
    The engine returns neither [Duplicate] with the second candidate nor
    [New]: the test of the first candidate raises [IndexError], and the scan
    ends there. *)
Theorem triage_raises_before_the_first_match :
  let new_stacktrace := get_stacktrace_from_message report_nested in
  Qgtb (exact_ratio new_stacktrace (get_stacktrace_from_issue issue_trailing)) (95 # 100)
  = true
  /\ first_line_caused_by_from_printed_stacktrace new_stacktrace
     = Ok (tab ++ "at svc.Db.run(Db.java")
  /\ first_line_caused_by_from_printed_stacktrace (get_stacktrace_from_issue issue_trailing)
     = Raise IndexError
  /\ is_match new_stacktrace (get_stacktrace_from_issue issue_trailing) = Raise IndexError
  /\ is_match new_stacktrace (get_stacktrace_from_issue issue_nested) = Ok true
  /\ determine_if_duplicate (paged_jira [issue_trailing; issue_nested] 50) 9 report_nested []
     = (Raise IndexError, [Search (sanitize_jql_query "root") 0]).
Proof. vm_compute. repeat split; reflexivity. Qed.

(** ** The empty report *)

(** C4 (amended). A report whose list of causal frames is empty makes the
    engine fail before any formatting or retrieval: the summary extraction
    raises [IndexError] on the empty list, no request has been sent, and the
    request handler, which catches [InternalError] only, lets the error
    through. *)
Theorem empty_report_raises_index_error (jira : world -> request -> response) (now : string)
    (depth : nat) (data : json_data) (w : world) :
  stacktrace data = [] ->
  get_summary_from_message data = Raise IndexError
  /\ add_jira_exception jira now depth data w = (Raise IndexError, w)
  /\ receive_exception jira now depth data w = (Raise IndexError, w).
Proof.
  intros Hempty.
  assert (Hsummary : get_summary_from_message data = Raise IndexError).
  { unfold get_summary_from_message. rewrite Hempty. reflexivity. }
  assert (Hadd : add_jira_exception jira now depth data w = (Raise IndexError, w)).
  { unfold add_jira_exception, determine_if_duplicate, io_bind, io_lift.
    rewrite Hsummary. reflexivity. }
  repeat split; try assumption.
  unfold receive_exception. rewrite Hadd. reflexivity.
Qed.

Lemma empty_report_raises_index_error_witness :
  stacktrace report_empty = []
  /\ add_jira_exception recording_jira "now" 100 report_empty [] = (Raise IndexError, []).
Proof.
  split; [reflexivity|].
  apply (empty_report_raises_index_error recording_jira "now" 100 report_empty []).
  reflexivity.
Defined.

(** C4, as the specification states it, fails: on the empty report the error raised
    is not the error class of the service, whatever its message, and the
    handler returns no error response for it. *)
Lemma empty_report_is_not_rejected_by_the_service :
  ~ (exists reason : string,
       fst (add_jira_exception recording_jira "now" 100 report_empty [])
       = Raise (InternalError reason))
  /\ ~ (exists answer : string * Z,
          fst (receive_exception recording_jira "now" 100 report_empty []) = Ok answer).
Proof.
  split; intros [x Hx]; vm_compute in Hx; discriminate Hx.
Qed.

(** ** The throw location *)

(** The index that the loop of [first_line_caused_by_from_printed_stacktrace]
    leaves in [loc_last_causedby_line], for [n] lines tested by [f]. *)
Lemma last_causedby_step (f : nat -> bool) (n : nat) :
  fold_left (fun loc i => if f i then Z.of_nat i else loc) (seq 0 (S n)) (-1)
  = if f n then Z.of_nat n
    else fold_left (fun loc i => if f i then Z.of_nat i else loc) (seq 0 n) (-1).
Proof. rewrite seq_S, fold_left_app. reflexivity. Qed.

Lemma last_causedby_bounds (f : nat -> bool) (n : nat) :
  -1 <= fold_left (fun loc i => if f i then Z.of_nat i else loc) (seq 0 n) (-1) < Z.of_nat n.
Proof.
  induction n as [|n IH].
  - cbn. lia.
  - rewrite last_causedby_step. destruct (f n); lia.
Qed.

Lemma last_causedby_is_last (f : nat -> bool) (n : nat) :
  fold_left (fun loc i => if f i then Z.of_nat i else loc) (seq 0 n) (-1) + 1 = Z.of_nat n
  <-> n = O \/ f (Nat.pred n) = true.
Proof.
  destruct n as [|n].
  - cbn. split; [now left | reflexivity].
  - rewrite last_causedby_step. cbn [Nat.pred].
    pose proof (last_causedby_bounds f n) as Hb. destruct (f n); split.
    + now right.
    + lia.
    + lia.
    + intros [H|H]; discriminate H.
Qed.

Lemma getitem_in_range {A : Type} (l : list A) (i : Z) :
  0 <= i < Z.of_nat (length l) -> exists x, Py.getitem l i = Ok x.
Proof.
  intros Hi. unfold Py.getitem.
  destruct (Z.ltb_spec i 0) as [|_]; [lia|].
  destruct (Z.ltb_spec i 0) as [|_]; [lia|].
  destruct (Z.leb_spec (Z.of_nat (length l)) i) as [|_]; [lia|]. cbn.
  destruct (nth_error l (Z.to_nat i)) as [x|] eqn:Hx; [now exists x|].
  apply nth_error_None in Hx. lia.
Qed.

Lemma getitem_past_end {A : Type} (l : list A) (i : Z) :
  Z.of_nat (length l) <= i -> Py.getitem l i = Raise IndexError.
Proof.
  intros Hi. unfold Py.getitem.
  destruct (Z.ltb_spec i 0) as [|_]; [lia|].
  destruct (Z.ltb_spec i 0) as [|_]; [lia|].
  destruct (Z.leb_spec (Z.of_nat (length l)) i) as [_|]; [reflexivity | lia].
Qed.

Lemma last_nth_pred (lines : list string) :
  nth (Nat.pred (length lines)) lines "" = List.last lines "".
Proof.
  induction lines as [|x [|y lines] IH]; try reflexivity.
  exact IH.
Qed.

(** The extractor raises [IndexError] exactly when the text has no line, or
    when its last line is a caused-by line; otherwise it returns a
    fingerprint. *)
Lemma throw_location_raises_iff (printed_stacktrace : string) :
  let lines := Py.splitlines printed_stacktrace in
  (first_line_caused_by_from_printed_stacktrace printed_stacktrace = Raise IndexError
   <-> lines = [] \/ REGEX_CAUSED_BY_match (List.last lines "") = true)
  /\ (first_line_caused_by_from_printed_stacktrace printed_stacktrace = Raise IndexError
      \/ exists fingerprint,
           first_line_caused_by_from_printed_stacktrace printed_stacktrace = Ok fingerprint).
Proof.
  intros lines. unfold first_line_caused_by_from_printed_stacktrace. fold lines.
  set (f := fun i : nat => REGEX_CAUSED_BY_match (nth i lines "")).
  change (fold_left _ (seq 0 (length lines)) (-1))
    with (fold_left (fun loc i => if f i then Z.of_nat i else loc) (seq 0 (length lines)) (-1)).
  pose proof (last_causedby_bounds f (length lines)) as Hb.
  pose proof (last_causedby_is_last f (length lines)) as Hl.
  set (loc := fold_left _ _ _) in *.
  assert (Hf : f (Nat.pred (length lines)) = REGEX_CAUSED_BY_match (List.last lines "")).
  { unfold f. now rewrite last_nth_pred. }
  rewrite Hf in Hl.
  assert (Hnil : length lines = O <-> lines = []).
  { destruct lines; split; intros H; try reflexivity; discriminate H. }
  destruct (Z.eq_dec (loc + 1) (Z.of_nat (length lines))) as [Heq|Hne].
  - rewrite (getitem_past_end lines (loc + 1)) by lia. cbn. split; [|now left].
    split; [|reflexivity]. intros _. apply Hl in Heq. tauto.
  - destruct (getitem_in_range lines (loc + 1)) as [x Hx]; [lia|].
    rewrite Hx. cbn. split; [|right; eauto].
    split; [intros H; discriminate H|]. intros H. exfalso. apply Hne, Hl. tauto.
Qed.

(** C3, where the code fails.  On the empty text, and on the printed
    stacktrace of a report whose last frame has no stack line, the extractor
    raises [IndexError]; and the second submission of such a report, once the
    first has filed its issue, dies of that error. *)
Theorem throw_location_raises_index_error :
  first_line_caused_by_from_printed_stacktrace "" = Raise IndexError
  /\ get_stacktrace_from_message report_bare = "Caused by: m" ++ newline
  /\ first_line_caused_by_from_printed_stacktrace (get_stacktrace_from_message report_bare)
     = Raise IndexError
  /\ (let first := add_jira_exception recording_jira "now" 100 report_bare [] in
      fst first = Ok ("Jira issue added: HAMISTIRF-1", 201)
      /\ fst (receive_exception recording_jira "now" 100 report_bare (snd first))
         = Raise IndexError).
Proof. vm_compute. repeat split; reflexivity. Qed.

(** C7, where the code fails.  The printed stacktrace of [report_bare],
    compared with itself, passes the ratio test, and then the comparison of
    the throw locations raises [IndexError]: the match has no truth value. *)
Theorem self_match_raises_index_error :
  Qgtb (match_ratio (get_stacktrace_from_message report_bare)
          (get_stacktrace_from_message report_bare)) (95 # 100) = true
  /\ is_match (get_stacktrace_from_message report_bare)
       (get_stacktrace_from_message report_bare) = Raise IndexError.
Proof. vm_compute. split; reflexivity. Qed.

(** ** The order of the arguments of the match *)

(** C8, as the specification states it, fails.  The printed stacktraces of
    [report_tide] and [report_diet] have the same throw location; the exact
    ratio is 80/86 in one order, which is below 0.95, and 82/86 in the other,
    which is above. *)
Lemma match_is_not_symmetric :
  let a := get_stacktrace_from_message report_tide in
  let b := get_stacktrace_from_message report_diet in
  exact_ratio a b = (80 # 86)%Q /\ exact_ratio b a = (82 # 86)%Q
  /\ matches_exception_throw_location a b = Ok true
  /\ is_match a b = Ok false /\ is_match b a = Ok true
  /\ is_match a b <> is_match b a.
Proof. vm_compute. repeat split; try reflexivity. intros H; discriminate H. Qed.

(** ** The matcher: the best match lies in its window, the loop of
    [get_matching_blocks] ends, and the matches counted are at most the
    length of the shorter text *)

Module SequenceMatcherFacts.

Import SequenceMatcher MatcherInvariants.

Local Close Scope string_scope.

Lemma range_nil (lo hi : Z) : hi <= lo -> range lo hi = [].
Proof. intros H. unfold range. replace (Z.to_nat (hi - lo)) with O by lia. reflexivity. Qed.

Lemma range_cons (lo hi : Z) : lo < hi -> range lo hi = lo :: range (lo + 1) hi.
Proof.
  intros H. unfold range.
  replace (Z.to_nat (hi - lo)) with (S (Z.to_nat (hi - (lo + 1)))) by lia.
  cbn [seq map]. f_equal; [lia|].
  rewrite <- seq_shift, map_map. apply map_ext. intros n. lia.
Qed.

Section Bounds.

Variable self : t.

Lemma row_in_window (alo ahi blo bhi i : Z) (j2len : gmap Z Z) (js : list Z)
    (st : search_state) :
  alo <= i < ahi ->
  row_entries alo blo bhi (i - 1) j2len ->
  row_entries alo blo bhi i (fst st) ->
  in_window alo ahi blo bhi (snd st) ->
  row_entries alo blo bhi i (fst (row blo bhi j2len i js st))
  /\ in_window alo ahi blo bhi (snd (row blo bhi j2len i js st)).
Proof.
  intros Hi Hprev. revert st. induction js as [|j js IH]; intros st Hnew Hbest.
  - now split.
  - cbn [row]. destruct (Z.ltb_spec j blo) as [|Hlo]; [now apply IH|].
    destruct (Z.leb_spec bhi j) as [|Hhi]; [now split|].
    destruct st as [newj2len [[besti bestj] bestsize]]. cbn [fst snd] in *.
    assert (Hk : 1 <= default 0 (j2len !! (j - 1)) + 1
                 /\ default 0 (j2len !! (j - 1)) + 1 <= i - alo + 1
                 /\ default 0 (j2len !! (j - 1)) + 1 <= j - blo + 1).
    { destruct (j2len !! (j - 1)) as [k'|] eqn:Hk'; cbn.
      - apply Hprev in Hk'. lia.
      - lia. }
    apply IH; cbn [fst snd].
    + intros j' k' Hj'. destruct (decide (j' = j)) as [->|Hne].
      * rewrite lookup_insert_eq in Hj'. injection Hj' as <-. lia.
      * rewrite lookup_insert_ne in Hj' by congruence. now apply Hnew.
    + destruct (Z.ltb_spec bestsize (default 0 (j2len !! (j - 1)) + 1)); [|exact Hbest].
      cbn. lia.
Qed.

Lemma rows_in_window (alo ahi blo bhi : Z) (lo : Z) (st : search_state) :
  alo <= lo ->
  row_entries alo blo bhi (lo - 1) (fst st) ->
  in_window alo ahi blo bhi (snd st) ->
  in_window alo ahi blo bhi (snd (fold_left (rows_step self blo bhi) (range lo ahi) st)).
Proof.
  intros Hlo. remember (Z.to_nat (ahi - lo)) as n eqn:Hn.
  revert lo st Hlo Hn. induction n as [|n IH]; intros lo st Hlo Hn Hrow Hbest.
  - rewrite range_nil by lia. exact Hbest.
  - rewrite range_cons by lia. cbn [fold_left].
    destruct st as [j2len best]. cbn [fst snd] in *.
    pose proof (row_in_window alo ahi blo bhi lo j2len
                  (default [] (b2j self !! item (a self) lo)) (∅, best)) as Hr.
    destruct Hr as [Hr1 Hr2]; cbn [fst snd]; try lia; try assumption.
    { intros j k Hjk. rewrite lookup_empty in Hjk. discriminate Hjk. }
    apply IH; try lia.
    + unfold rows_step. replace (lo + 1 - 1) with lo by lia. exact Hr1.
    + exact Hr2.
Qed.

Lemma longest_junk_free_in_window (alo ahi blo bhi : Z) :
  alo <= ahi -> blo <= bhi ->
  in_window alo ahi blo bhi (longest_junk_free self alo ahi blo bhi).
Proof.
  intros Ha Hb. unfold longest_junk_free. apply rows_in_window; cbn [fst snd].
  - lia.
  - intros j k Hjk. rewrite lookup_empty in Hjk. discriminate Hjk.
  - cbn. lia.
Qed.

Lemma extend_back_in_window (junk : bool) (alo ahi blo bhi : Z) (fuel : nat) (x : block) :
  in_window alo ahi blo bhi x ->
  in_window alo ahi blo bhi (extend_back self junk alo blo fuel x).
Proof.
  revert x. induction fuel as [|fuel IH]; intros [[i j] k] Hx; [exact Hx|].
  cbn [extend_back]. destruct ((alo <? i) && (blo <? j) && _ && _) eqn:Hc; [|exact Hx].
  apply IH. repeat (apply andb_prop in Hc; destruct Hc as [Hc ?]).
  cbn in *. lia.
Qed.

Lemma extend_forward_in_window (junk : bool) (alo ahi blo bhi : Z) (fuel : nat) (x : block) :
  in_window alo ahi blo bhi x ->
  in_window alo ahi blo bhi (extend_forward self junk ahi bhi fuel x).
Proof.
  revert x. induction fuel as [|fuel IH]; intros [[i j] k] Hx; [exact Hx|].
  cbn [extend_forward]. destruct ((i + k <? ahi) && (j + k <? bhi) && _ && _) eqn:Hc; [|exact Hx].
  apply IH. repeat (apply andb_prop in Hc; destruct Hc as [Hc ?]).
  cbn in *. lia.
Qed.

Lemma find_longest_match_in_window (alo ahi blo bhi : Z) :
  alo <= ahi -> blo <= bhi ->
  in_window alo ahi blo bhi (find_longest_match self alo ahi blo bhi).
Proof.
  intros Ha Hb. unfold find_longest_match.
  apply extend_forward_in_window, extend_back_in_window, extend_forward_in_window,
    extend_back_in_window, longest_junk_free_in_window; assumption.
Qed.

End Bounds.

Lemma total_size_cons (x : block) (l : list block) :
  total_size (x :: l) = size x + total_size l.
Proof. reflexivity. Qed.

Lemma total_size_app (l1 l2 : list block) :
  total_size (l1 ++ l2) = total_size l1 + total_size l2.
Proof.
  unfold total_size. induction l1 as [|x l1 IH]; cbn [app map fold_right]; lia.
Qed.

Section Loop.

Variable self : t.

Lemma queue_weight_nonneg (queue : list (Z * Z * Z * Z)) :
  queue_ok queue -> 0 <= queue_weight queue.
Proof.
  induction 1 as [|[[[alo ahi] blo] bhi] q Hq _ IHq]; cbn; [lia|].
  unfold queue_weight in IHq. lia.
Qed.

Lemma matching_blocks_loop_returns (fuel : nat) (queue : list (Z * Z * Z * Z))
    (acc : list block) :
  queue_ok queue ->
  queue_weight queue < Z.of_nat fuel ->
  exists res,
    matching_blocks_loop self fuel queue acc = Some res
    /\ total_size acc <= total_size res
    /\ total_size res <= total_size acc + queue_span_a queue
    /\ total_size res <= total_size acc + queue_span_b queue.
Proof.
  revert queue acc. induction fuel as [|fuel IH]; intros queue acc Hok Hw.
  - pose proof (queue_weight_nonneg queue Hok). lia.
  - destruct queue as [|[[[alo ahi] blo] bhi] queue].
    + exists acc. cbn. repeat split; lia.
    + inversion Hok as [|? ? Hq Hok']; subst. cbn in Hq. destruct Hq as [Ha Hb].
      cbn [matching_blocks_loop].
      pose proof (find_longest_match_in_window self alo ahi blo bhi Ha Hb) as Hwin.
      destruct (find_longest_match self alo ahi blo bhi) as [[i j] k].
      cbn in Hwin. cbn [queue_weight queue_span_a queue_span_b map fold_right] in *.
      fold (queue_weight queue) in *. fold (queue_span_a queue). fold (queue_span_b queue).
      destruct (Z.eqb_spec k 0) as [->|Hk].
      * destruct (IH queue acc Hok') as (res & Hres & H1 & H2 & H3); [lia|].
        exists res. repeat split; try assumption; lia.
      * set (q1 := if (alo <? i) && (blo <? j) then (alo, i, blo, j) :: queue else queue).
        set (q2 := if (i + k <? ahi) && (j + k <? bhi) then (i + k, ahi, j + k, bhi) :: q1
                   else q1).
        assert (H1 : queue_ok q1 /\ queue_weight q1 <= queue_weight queue + 2 * (i - alo) + 1
                     /\ queue_span_a q1 <= queue_span_a queue + (i - alo)
                     /\ queue_span_b q1 <= queue_span_b queue + (j - blo)).
        { unfold q1. destruct ((alo <? i) && (blo <? j)).
          - split; [constructor; [lia | assumption]|]. cbn.
            fold (queue_weight queue). fold (queue_span_a queue). fold (queue_span_b queue). lia.
          - split; [assumption | lia]. }
        destruct H1 as (Hok1 & Hw1 & Ha1 & Hb1).
        assert (H2 : queue_ok q2
                     /\ queue_weight q2 <= queue_weight q1 + 2 * (ahi - (i + k)) + 1
                     /\ queue_span_a q2 <= queue_span_a q1 + (ahi - (i + k))
                     /\ queue_span_b q2 <= queue_span_b q1 + (bhi - (j + k))).
        { unfold q2. destruct ((i + k <? ahi) && (j + k <? bhi)).
          - split; [constructor; [lia | assumption]|]. cbn.
            fold (queue_weight q1). fold (queue_span_a q1). fold (queue_span_b q1). lia.
          - split; [assumption | lia]. }
        destruct H2 as (Hok2 & Hw2 & Ha2 & Hb2).
        destruct (IH q2 (acc ++ [(i, j, k)]) Hok2) as (res & Hres & R1 & R2 & R3); [lia|].
        exists res. rewrite total_size_app, total_size_cons in R1, R2, R3.
        cbn [snd size] in R1, R2, R3. change (total_size []) with 0 in R1, R2, R3.
        repeat split; try assumption; lia.
Qed.

Lemma collapse_step_total (l : list block) (st : block * list block) :
  size (fst (fold_left collapse_step l st)) + total_size (snd (fold_left collapse_step l st))
  = size (fst st) + total_size (snd st) + total_size l.
Proof.
  revert st. induction l as [|[[i2 j2] k2] l IH]; intros [[[i1 j1] k1] non_adjacent].
  - cbn. lia.
  - cbn [fold_left]. rewrite IH, total_size_cons. unfold collapse_step.
    destruct ((i1 + k1 =? i2) && (j1 + k1 =? j2)).
    + cbn [fst snd size]. lia.
    + destruct (Z.eqb_spec k1 0) as [->|Hk]; cbn [fst snd size].
      * lia.
      * rewrite total_size_app, total_size_cons. cbn [fst snd size].
        change (total_size []) with 0. lia.
Qed.

Lemma collapse_total (l : list block) : total_size (collapse self l) = total_size l.
Proof.
  unfold collapse. pose proof (collapse_step_total l ((0, 0, 0), [])) as H.
  destruct (fold_left collapse_step l ((0, 0, 0), [])) as [[[i1 j1] k1] non_adjacent].
  cbn [fst snd size] in H. change (total_size []) with 0 in H.
  rewrite total_size_app, total_size_cons. cbn [snd size]. change (total_size []) with 0.
  destruct (Z.eqb_spec k1 0) as [->|Hk].
  - lia.
  - rewrite total_size_app, total_size_cons. cbn [snd size].
    change (total_size []) with 0. lia.
Qed.

Lemma total_size_Permutation (l1 l2 : list block) :
  Permutation l1 l2 -> total_size l1 = total_size l2.
Proof.
  unfold total_size. induction 1; cbn [map fold_right]; lia.
Qed.

(** The loop of [get_matching_blocks] ends within [loop_fuel] turns. *)
Lemma raw_matching_blocks_returns :
  exists res, raw_matching_blocks self = Some res
    /\ 0 <= total_size res <= Z.min (len (a self)) (len (b self)).
Proof.
  unfold raw_matching_blocks.
  destruct (matching_blocks_loop_returns (loop_fuel self)
              [(0, len (a self), 0, len (b self))] []) as (res & Hres & H1 & H2 & H3).
  - constructor; [unfold len; lia | constructor].
  - unfold loop_fuel, len. cbn. lia.
  - exists res. split; [exact Hres|]. cbn in *. lia.
Qed.

(** The number of matches that [ratio] counts. *)
Lemma matches_bounds :
  0 <= total_size (get_matching_blocks self) <= Z.min (len (a self)) (len (b self)).
Proof.
  unfold get_matching_blocks.
  destruct raw_matching_blocks_returns as (res & -> & Hres).
  rewrite collapse_total.
  rewrite (total_size_Permutation _ res); [exact Hres|].
  apply merge_sort_Permutation.
Qed.

End Loop.

End SequenceMatcherFacts.

(** ** The similarity test *)

(** The exact ratio never exceeds the quick estimate. *)
Lemma ratio_le_real_quick_ratio (s : SequenceMatcher.t) :
  (SequenceMatcher.ratio s <= SequenceMatcher.real_quick_ratio s)%Q.
Proof.
  unfold SequenceMatcher.ratio, SequenceMatcher.real_quick_ratio,
    SequenceMatcher._calculate_ratio.
  pose proof (SequenceMatcherFacts.matches_bounds s) as Hm.
  unfold MatcherInvariants.total_size in Hm.
  destruct (Z.eqb_spec (SequenceMatcher.len (SequenceMatcher.a s)
                        + SequenceMatcher.len (SequenceMatcher.b s)) 0) as [_|_].
  - apply Qle_refl.
  - unfold Qle. cbn [Qnum Qden]. apply Z.mul_le_mono_nonneg_r; lia.
Qed.

(** A pair that passes the exact test passes the gate. *)
Lemma ratio_passes_gate (s : SequenceMatcher.t) :
  Qgtb (SequenceMatcher.ratio s) (95 # 100) = true ->
  Qgtb (SequenceMatcher.real_quick_ratio s) (6 # 10) = true.
Proof.
  unfold SequenceMatcher.ratio, SequenceMatcher.real_quick_ratio,
    SequenceMatcher._calculate_ratio, Qgtb, Qle_bool.
  pose proof (SequenceMatcherFacts.matches_bounds s) as Hm.
  unfold MatcherInvariants.total_size in Hm.
  destruct (Z.eqb_spec (SequenceMatcher.len (SequenceMatcher.a s)
                        + SequenceMatcher.len (SequenceMatcher.b s)) 0) as [_|_].
  - intros _. reflexivity.
  - cbn [Qnum Qden]. intros H. apply negb_true_iff in H. apply negb_true_iff.
    apply Z.leb_gt in H. apply Z.leb_gt. lia.
Qed.

Lemma is_match_ungated (a b : string) : is_match a b = ungated_match a b.
Proof.
  unfold is_match, ungated_match, match_ratio, exact_ratio.
  set (s := SequenceMatcher.init isjunk (list_ascii_of_string a) (list_ascii_of_string b)).
  destruct (Qgtb (SequenceMatcher.real_quick_ratio s) (6 # 10)) eqn:Hgate; [reflexivity|].
  destruct (Qgtb (SequenceMatcher.ratio s) (95 # 100)) eqn:Hexact.
  - apply ratio_passes_gate in Hexact. congruence.
  - reflexivity.
Qed.

Lemma throw_location_ok_or_index_error (s : string) :
  first_line_caused_by_from_printed_stacktrace s = Raise IndexError
  \/ exists fingerprint, first_line_caused_by_from_printed_stacktrace s = Ok fingerprint.
Proof. apply (throw_location_raises_iff s). Qed.

Lemma matches_exception_throw_location_true (a b : string) :
  matches_exception_throw_location a b = Ok true
  <-> exists fa fb,
        first_line_caused_by_from_printed_stacktrace a = Ok fa
        /\ first_line_caused_by_from_printed_stacktrace b = Ok fb
        /\ fa = fb.
Proof.
  unfold matches_exception_throw_location. split.
  - destruct (first_line_caused_by_from_printed_stacktrace a) as [fa|e]; [|discriminate].
    destruct (first_line_caused_by_from_printed_stacktrace b) as [fb|e]; [|discriminate].
    cbn. intros H. injection H as H. apply String.eqb_eq in H. now exists fa, fb.
  - intros (fa & fb & -> & -> & ->). cbn. now rewrite String.eqb_refl.
Qed.

Lemma matches_exception_throw_location_sym (a b : string) :
  matches_exception_throw_location a b = matches_exception_throw_location b a.
Proof.
  unfold matches_exception_throw_location.
  destruct (throw_location_ok_or_index_error a) as [-> | [fa ->]];
    destruct (throw_location_ok_or_index_error b) as [-> | [fb ->]]; cbn; try reflexivity.
  now rewrite String.eqb_sym.
Qed.

(** The matcher accepts the candidate [b] for the report [a] exactly
    when the exact ratio exceeds 0.95 and both throw locations are computed
    and are the same string; and when the quick estimate is at most 0.6 the
    ratio used is 0 and the pair is not accepted. *)
Theorem match_accepts_iff (a b : string) :
  (is_match a b = Ok true
   <-> Qgtb (exact_ratio a b) (95 # 100) = true
       /\ exists fa fb,
            first_line_caused_by_from_printed_stacktrace a = Ok fa
            /\ first_line_caused_by_from_printed_stacktrace b = Ok fb
            /\ fa = fb)
  /\ (Qgtb (quick_estimate a b) (6 # 10) = false ->
      match_ratio a b = 0%Q /\ is_match a b = Ok false).
Proof.
  split.
  - rewrite is_match_ungated. unfold ungated_match.
    destruct (Qgtb (exact_ratio a b) (95 # 100)).
    + rewrite matches_exception_throw_location_true. tauto.
    + split; [discriminate | intros [H _]; discriminate H].
  - unfold quick_estimate, is_match, match_ratio. intros ->. split; reflexivity.
Qed.

Lemma match_accepts_iff_witness :
  Qgtb (quick_estimate "ab" "abcdefgh") (6 # 10) = false
  /\ match_ratio "ab" "abcdefgh" = 0%Q /\ is_match "ab" "abcdefgh" = Ok false.
Proof.
  split; [vm_compute; reflexivity|].
  apply (match_accepts_iff "ab" "abcdefgh"). vm_compute. reflexivity.
Defined.

(** C2, where the code fails.  Two reports whose only frame has no stack
    line, with messages that differ in one character: the exact ratio of
    their printed stacktraces is 106/110, above 0.95, and neither text has a
    line after its caused-by line, so that neither has a throw location to
    tell them apart.  The matcher does not accept the pair: the extraction of
    the throw location raises [IndexError]. *)
Theorem match_raises_on_texts_without_throw_location :
  let a := get_stacktrace_from_message (report_refused "db2") in
  let b := get_stacktrace_from_message (report_refused "db1") in
  a = "Caused by: connection refused by the database host db2" ++ newline
  /\ b = "Caused by: connection refused by the database host db1" ++ newline
  /\ exact_ratio a b = (106 # 110)%Q
  /\ Qgtb (exact_ratio a b) (95 # 100) = true
  /\ first_line_caused_by_from_printed_stacktrace a = Raise IndexError
  /\ first_line_caused_by_from_printed_stacktrace b = Raise IndexError
  /\ is_match a b = Raise IndexError.
Proof. vm_compute. repeat split; reflexivity. Qed.

(** C10. The gate on the quick ratio changes no decision: the exact ratio
    never exceeds the quick estimate, so the gated test gives, for every pair
    of texts, the answer of the test that always computes the exact ratio. *)
Theorem quick_ratio_gate_changes_nothing (a b : string) :
  (exact_ratio a b <= quick_estimate a b)%Q
  /\ is_match a b = ungated_match a b.
Proof.
  split.
  - apply ratio_le_real_quick_ratio.
  - apply is_match_ungated.
Qed.

Lemma real_quick_ratio_sym (a b : string) : quick_estimate a b = quick_estimate b a.
Proof.
  unfold quick_estimate, SequenceMatcher.real_quick_ratio. cbn [SequenceMatcher.init
    SequenceMatcher.a SequenceMatcher.b].
  now rewrite Z.min_comm, Z.add_comm.
Qed.

(** C8 (amended). The quick estimate and the comparison of the throw
    locations do not depend on the order of the two texts; the match does not
    either whenever the exact ratio is on the same side of 0.95 in both
    orders. *)
Theorem match_symmetric_when_ratio_agrees (a b : string) :
  quick_estimate a b = quick_estimate b a
  /\ matches_exception_throw_location a b = matches_exception_throw_location b a
  /\ (Qgtb (exact_ratio a b) (95 # 100) = Qgtb (exact_ratio b a) (95 # 100) ->
      is_match a b = is_match b a).
Proof.
  split; [apply real_quick_ratio_sym|]. split; [apply matches_exception_throw_location_sym|].
  intros H. rewrite !is_match_ungated. unfold ungated_match. rewrite H.
  now rewrite matches_exception_throw_location_sym.
Qed.

Lemma match_symmetric_when_ratio_agrees_witness :
  Qgtb (exact_ratio "Caused by: x" "caused by: y") (95 # 100)
  = Qgtb (exact_ratio "caused by: y" "Caused by: x") (95 # 100)
  /\ is_match "Caused by: x" "caused by: y" = is_match "caused by: y" "Caused by: x".
Proof.
  split; [vm_compute; reflexivity|].
  apply (match_symmetric_when_ratio_agrees "Caused by: x" "caused by: y").
  vm_compute. reflexivity.
Defined.

(** ** The retrieval of the candidates *)

Lemma spec_pages_fuel (m : nat) (f1 f2 : nat) (l : list issue) :
  (0 < m)%nat -> (length l <= f1)%nat -> (length l <= f2)%nat ->
  spec_pages f1 m l = spec_pages f2 m l.
Proof.
  intros Hm. revert f2 l. induction f1 as [|f1 IH]; intros f2 l H1 H2.
  - destruct l; [|cbn in H1; lia]. destruct f2; reflexivity.
  - destruct l as [|x l]; [destruct f2; reflexivity|].
    destruct f2 as [|f2]; [cbn in H2; lia|].
    cbn [spec_pages]. f_equal.
    apply IH; rewrite length_skipn; cbn [length] in *; lia.
Qed.

Lemma concat_spec_pages (m : nat) (f : nat) (l : list issue) :
  (0 < m)%nat -> (length l <= f)%nat -> concat (spec_pages f m l) = l.
Proof.
  intros Hm. revert l. induction f as [|f IH]; intros l Hf.
  - destruct l; [reflexivity | cbn in Hf; lia].
  - destruct l as [|x l]; [reflexivity|].
    cbn [spec_pages concat]. rewrite IH.
    + apply firstn_skipn.
    + rewrite length_skipn. cbn [length] in *. lia.
Qed.

Lemma concat_rev_Permutation (ps : list (list issue)) :
  Permutation (concat (rev ps)) (concat ps).
Proof.
  induction ps as [|p ps IH]; [reflexivity|].
  cbn [rev concat]. rewrite concat_app. cbn [concat]. rewrite app_nil_r.
  rewrite Permutation_app_comm. now apply Permutation_app_head.
Qed.

Lemma find_existing_jira_issues_paged (all : list issue) (m : nat)
    (exception_summary : string) (depth : nat) :
  (0 < m)%nat ->
  forall (o : nat) (w : world),
    (Nat.max 1 (length (pages m (skipn o all))) <= depth)%nat ->
    find_existing_jira_issues (paged_jira all m) depth exception_summary (Z.of_nat o) w
    = (Ok (concat (rev (pages m (skipn o all)))),
       (spec_search_log (sanitize_jql_query exception_summary) m o
          (Nat.max 1 (length (pages m (skipn o all)))) ++ w)%list).
Proof.
  intros Hm. induction depth as [|depth IH]; intros o w Hdepth; [lia|].
  cbn [find_existing_jira_issues]. unfold io_bind at 1, send at 1.
  cbn [paged_jira status_code maxResults total issues].
  change (negb (200 =? 200)) with false. cbv iota.
  rewrite Nat2Z.id.
  assert (Hlen : length (skipn o all) = (length all - o)%nat) by apply length_skipn.
  assert (Hskip : skipn m (skipn o all) = skipn (o + m) all).
  { rewrite skipn_skipn. f_equal. lia. }
  remember (skipn o all) as rest eqn:Hrest.
  destruct (Z.ltb_spec (Z.of_nat o + Z.of_nat m) (Z.of_nat (length all))) as [Hmore|Hlast].
  - assert (Hpages : pages m rest = firstn m rest :: pages m (skipn m rest)).
    { unfold pages. destruct rest as [|x rest']; [cbn in Hlen; lia|].
      cbn [length spec_pages]. f_equal.
      apply spec_pages_fuel; [exact Hm | | lia].
      rewrite length_skipn. cbn [length]. lia. }
    assert (Hnext : (1 <= length (pages m (skipn m rest)))%nat).
    { unfold pages. destruct (skipn m rest) as [|y l] eqn:Hy.
      - apply (f_equal (@length issue)) in Hy. rewrite length_skipn in Hy. cbn in Hy. lia.
      - cbn. lia. }
    rewrite Hpages in *. cbn [length] in Hdepth.
    replace (Z.of_nat o + Z.of_nat m) with (Z.of_nat (o + m)) by lia.
    unfold io_bind. rewrite IH; rewrite <- Hskip; [|lia].
    unfold io_ret. cbn [rev length]. rewrite concat_app. cbn [concat]. rewrite app_nil_r.
    replace (Nat.max 1 (S (length (pages m (skipn m rest)))))
      with (S (Nat.max 1 (length (pages m (skipn m rest))))) by lia.
    cbn [spec_search_log]. rewrite <- app_assoc. reflexivity.
  - assert (Hpages : concat (rev (pages m rest)) = firstn m rest
                     /\ Nat.max 1 (length (pages m rest)) = 1%nat).
    { unfold pages. destruct rest as [|x rest']; [now destruct m|].
      assert (Hnil : skipn m (x :: rest') = []).
      { apply skipn_all2. lia. }
      cbn [length spec_pages]. rewrite Hnil.
      destruct (length rest'); cbn [spec_pages rev app concat length];
        now rewrite app_nil_r. }
    destruct Hpages as [-> ->]. unfold io_bind, io_ret. cbn. reflexivity.
Qed.

(** C1 (amended). For a tracker that holds the records [all] and serves
    them in pages of [m] records, and a recursion depth that the number of
    pages does not exceed, the retriever asks for the pages at the offsets 0,
    [m], [2 m], ... in that order and returns their concatenation with the
    page of the highest offset first and the page of offset 0 last: every
    record appears exactly once, and the length is the declared total. *)
Theorem retrieval_returns_pages_last_first (all : list issue) (m : nat)
    (exception_summary : string) (depth : nat) (w : world) :
  (0 < m)%nat ->
  (Nat.max 1 (length (pages m all)) <= depth)%nat ->
  find_existing_jira_issues (paged_jira all m) depth exception_summary 0 w
  = (Ok (concat (rev (pages m all))),
     (spec_search_log (sanitize_jql_query exception_summary) m 0
        (Nat.max 1 (length (pages m all))) ++ w)%list)
  /\ concat (pages m all) = all
  /\ Permutation (concat (rev (pages m all))) all
  /\ Z.of_nat (length (concat (rev (pages m all))))
     = total (paged_jira all m w (Search (sanitize_jql_query exception_summary) 0)).
Proof.
  intros Hm Hdepth.
  assert (Hall : concat (pages m all) = all) by now apply concat_spec_pages.
  assert (Hperm : Permutation (concat (rev (pages m all))) all).
  { rewrite concat_rev_Permutation, Hall. reflexivity. }
  repeat split; try assumption.
  - apply (find_existing_jira_issues_paged all m exception_summary depth Hm 0%nat w Hdepth).
  - cbn [paged_jira total]. now rewrite (Permutation_length Hperm).
Qed.

Lemma retrieval_returns_pages_last_first_witness :
  (0 < 2)%nat
  /\ (Nat.max 1 (length (pages 2 [issue_a; issue_b; issue_c])) <= 5)%nat
  /\ find_existing_jira_issues (paged_jira [issue_a; issue_b; issue_c] 2) 5 "x" 0 []
     = (Ok [issue_c; issue_a; issue_b],
        [Search (sanitize_jql_query "x") 2; Search (sanitize_jql_query "x") 0]).
Proof.
  split; [lia|]. split; [cbn; lia|].
  apply (retrieval_returns_pages_last_first [issue_a; issue_b; issue_c] 2 "x" 5 []).
  - lia.
  - cbn. lia.
Defined.

(** C1, as the specification states it, fails: with three records served in pages
    of two, the page of offset 2 comes first in the result, which is not the
    concatenation of the pages in ascending order of offset. *)
Lemma retrieval_is_not_in_ascending_order :
  fst (find_existing_jira_issues (paged_jira [issue_a; issue_b; issue_c] 2) 5 "x" 0 [])
  = Ok [issue_c; issue_a; issue_b]
  /\ concat (pages 2 [issue_a; issue_b; issue_c]) = [issue_a; issue_b; issue_c]
  /\ fst (find_existing_jira_issues (paged_jira [issue_a; issue_b; issue_c] 2) 5 "x" 0 [])
     <> Ok (concat (pages 2 [issue_a; issue_b; issue_c])).
Proof.
  repeat split; try (vm_compute; reflexivity).
  vm_compute. intros H. discriminate H.
Qed.

(** ** The two patterns and the decimal numbers *)

Lemma star_sound {A : Type} (p : ascii -> bool) (k : string -> option A) (s : string) (r : A) :
  Re.star p k s = Some r ->
  exists pre post, s = pre ++ post /\ string_forall p pre = true /\ k post = Some r.
Proof.
  induction s as [|c s IH]; cbn [Re.star]; intros H.
  - exists "", "". auto.
  - destruct (p c) eqn:Hc.
    + destruct (Re.star p k s) as [r'|] eqn:Hs.
      * injection H as ->. destruct (IH eq_refl) as (pre & post & -> & Hpre & Hk).
        exists (String c pre), post. cbn [string_forall]. rewrite Hc. auto.
      * exists "", (String c s). auto.
    + exists "", (String c s). auto.
Qed.

Lemma star_found {A : Type} (p : ascii -> bool) (k : string -> option A) (pre post : string)
    (r : A) :
  string_forall p pre = true -> k post = Some r ->
  exists r', Re.star p k (pre ++ post) = Some r'.
Proof.
  intros Hpre Hk. induction pre as [|c pre IH].
  - change ("" ++ post) with post. destruct post as [|c post]; cbn [Re.star].
    + eauto.
    + destruct (p c); [|eauto]. destruct (Re.star p k post); eauto.
  - cbn [string_forall] in Hpre. apply andb_prop in Hpre as [Hc Hpre].
    change (String c pre ++ post) with (String c (pre ++ post)). cbn [Re.star].
    rewrite Hc. destruct (IH Hpre) as [r' ->]. eauto.
Qed.

Lemma star_greedy {A : Type} (p : ascii -> bool) (k : string -> option A) (pre post : string)
    (r : A) :
  string_forall p pre = true -> Re.star p k post = Some r ->
  Re.star p k (pre ++ post) = Some r.
Proof.
  intros Hpre Hk. induction pre as [|c pre IH]; [exact Hk|].
  cbn [string_forall] in Hpre. apply andb_prop in Hpre as [Hc Hpre].
  change (String c pre ++ post) with (String c (pre ++ post)). cbn [Re.star].
  now rewrite Hc, (IH Hpre).
Qed.

Lemma lit_ci_sound {A : Type} (pat : string) (k : string -> option A) (s : string) (r : A) :
  Re.lit_ci pat k s = Some r ->
  exists kw rest, s = kw ++ rest /\ Py.lower kw = Py.lower pat /\ k rest = Some r.
Proof.
  revert s. induction pat as [|q pat IH]; intros s H.
  - exists "", s. auto.
  - cbn [Re.lit_ci] in H. destruct s as [|c s]; [discriminate|].
    destruct (Ascii.eqb_spec (Py.lower_char c) (Py.lower_char q)) as [Hc|]; [|discriminate].
    destruct (IH s H) as (kw & rest & -> & Hkw & Hk).
    exists (String c kw), rest. cbn [Py.lower]. rewrite Hc, Hkw. auto.
Qed.

Lemma lit_ci_found {A : Type} (pat : string) (k : string -> option A) (kw rest : string) :
  Py.lower kw = Py.lower pat -> Re.lit_ci pat k (kw ++ rest) = k rest.
Proof.
  revert kw. induction pat as [|q pat IH]; intros kw H.
  - destruct kw; [reflexivity | discriminate H].
  - destruct kw as [|c kw]; [discriminate H|]. cbn [Py.lower] in H. injection H as Hc Hkw.
    change (String c kw ++ rest) with (String c (kw ++ rest)). cbn [Re.lit_ci].
    rewrite Hc, Ascii.eqb_refl. now apply IH.
Qed.

Lemma group_plus_end_split (p : ascii -> bool) (s : string) :
  exists rest, s = Re.group_plus_end p s ++ rest
               /\ string_forall p (Re.group_plus_end p s) = true
               /\ match rest with EmptyString => true | String c _ => negb (p c) end = true.
Proof.
  induction s as [|c s IH].
  - exists "". auto.
  - cbn [Re.group_plus_end]. destruct (p c) eqn:Hc.
    + destruct IH as (rest & Hs & Hall & Hrest). exists rest.
      change (String c (Re.group_plus_end p s) ++ rest)
        with (String c (Re.group_plus_end p s ++ rest)).
      cbn [string_forall]. rewrite Hc, <- Hs. auto.
    + exists (String c s). rewrite Hc. auto.
Qed.

Lemma group_plus_end_found (p : ascii -> bool) (ds rest : string) :
  string_forall p ds = true ->
  match rest with EmptyString => true | String c _ => negb (p c) end = true ->
  Re.group_plus_end p (ds ++ rest) = ds.
Proof.
  intros Hds Hrest. induction ds as [|c ds IH].
  - change ("" ++ rest) with rest. destruct rest as [|c rest]; [reflexivity|].
    cbn [Re.group_plus_end]. now destruct (p c).
  - cbn [string_forall] in Hds. apply andb_prop in Hds as [Hc Hds].
    change (String c ds ++ rest) with (String c (ds ++ rest)). cbn [Re.group_plus_end].
    now rewrite Hc, (IH Hds).
Qed.

Lemma starts_with_digit_negb (rest : string) :
  match rest with EmptyString => true | String c _ => negb (Re.is_digit c) end = true
  <-> starts_with_digit rest = false.
Proof. destruct rest as [|c rest]; cbn; [tauto|]. now rewrite negb_true_iff. Qed.

Lemma count_tail_sound (s digits : string) :
  count_tail s = Some digits ->
  exists keyword spaces rest,
    s = keyword ++ spaces ++ digits ++ rest
    /\ Py.lower keyword = "count:"
    /\ spaces <> "" /\ string_forall Re.is_space spaces = true
    /\ digits <> "" /\ string_forall Re.is_digit digits = true
    /\ starts_with_digit rest = false.
Proof.
  unfold count_tail. intros H.
  apply lit_ci_sound in H as (kw & s1 & -> & Hkw & H).
  unfold Re.plus in H. destruct s1 as [|c s1]; [discriminate|].
  destruct (Re.is_space c) eqn:Hc; [|discriminate].
  apply star_sound in H as (ws & s2 & -> & Hws & H).
  unfold Re.plus_group_end in H. destruct s2 as [|d s2]; [discriminate|].
  destruct (Re.is_digit d) eqn:Hd; [|discriminate]. injection H as <-.
  destruct (group_plus_end_split Re.is_digit (String d s2)) as (rest & Hs & Hall & Hrest).
  exists kw, (String c ws), rest. rewrite Hs at 1.
  repeat split; try assumption.
  - discriminate.
  - cbn [string_forall]. now rewrite Hc.
  - cbn [Re.group_plus_end]. rewrite Hd. discriminate.
  - now apply starts_with_digit_negb.
Qed.

Lemma digit_not_space (c : ascii) : Re.is_digit c = true -> Re.is_space c = false.
Proof.
  destruct c as [[|] [|] [|] [|] [|] [|] [|] [|]]; vm_compute; congruence.
Qed.

Lemma count_tail_found (keyword spaces digits rest : string) :
  Py.lower keyword = "count:" ->
  spaces <> "" -> string_forall Re.is_space spaces = true ->
  digits <> "" -> string_forall Re.is_digit digits = true ->
  starts_with_digit rest = false ->
  count_tail (keyword ++ spaces ++ digits ++ rest) = Some digits.
Proof.
  intros Hkw Hne Hws Hnd Hds Hrest. unfold count_tail.
  rewrite lit_ci_found by exact Hkw.
  destruct spaces as [|c ws]; [congruence|].
  cbn [string_forall] in Hws. apply andb_prop in Hws as [Hc Hws].
  change (String c ws ++ digits ++ rest) with (String c (ws ++ digits ++ rest)).
  unfold Re.plus. rewrite Hc. apply star_greedy; [exact Hws|].
  destruct digits as [|d ds]; [congruence|].
  pose proof Hds as Hds'. cbn [string_forall] in Hds'. apply andb_prop in Hds' as [Hd _].
  change (String d ds ++ rest) with (String d (ds ++ rest)). cbn [Re.star].
  rewrite (digit_not_space d Hd). unfold Re.plus_group_end. rewrite Hd.
  f_equal. change (String d (ds ++ rest)) with (String d ds ++ rest).
  apply group_plus_end_found; [exact Hds|]. now apply starts_with_digit_negb.
Qed.

Lemma REGEX_COUNT_match_sound (text digits : string) :
  REGEX_COUNT_match text = Some digits -> count_pattern text digits.
Proof.
  unfold REGEX_COUNT_match. intros H.
  apply star_sound in H as (leading & post & -> & Hlead & H).
  apply count_tail_sound in H as (kw & ws & rest & -> & H).
  exists leading, kw, ws, rest. tauto.
Qed.

Lemma REGEX_COUNT_match_found (text digits : string) :
  count_pattern text digits -> exists digits', REGEX_COUNT_match text = Some digits'.
Proof.
  intros (leading & kw & ws & rest & -> & Hlead & Hkw & Hne & Hws & Hnd & Hds & Hrest).
  unfold REGEX_COUNT_match.
  apply (star_found Re.dot _ leading _ digits Hlead).
  now apply count_tail_found.
Qed.

Lemma string_of_uint_length (u : Decimal.uint) :
  String.length (NilEmpty.string_of_uint u) = Decimal.nb_digits u.
Proof. induction u; cbn [NilEmpty.string_of_uint String.length Decimal.nb_digits]; congruence. Qed.

Lemma usize_nb_digits (u : Decimal.uint) :
  DecimalPos.Unsigned.usize u = N.of_nat (Decimal.nb_digits u).
Proof.
  induction u; cbn [DecimalPos.Unsigned.usize Decimal.nb_digits];
    rewrite ?IHu, ?Nat2N.inj_succ; reflexivity.
Qed.

(** The value of a numeral read from its most significant digit: the
    first digit weighs ten to the number of digits that follow. *)
Lemma of_uint_bounds (u : Decimal.uint) :
  (Pos.of_uint u < 10 ^ DecimalPos.Unsigned.usize u)%N
  /\ (Decimal.nzhead u = u -> u <> Decimal.Nil ->
      10 ^ (DecimalPos.Unsigned.usize u - 1) <= Pos.of_uint u)%N.
Proof.
  rewrite DecimalPos.Unsigned.of_uint_alt.
  induction u as [|u IH|u IH|u IH|u IH|u IH|u IH|u IH|u IH|u IH|u IH];
    [split; [reflexivity | congruence]|..];
    unfold Decimal.rev; cbn [Decimal.revapp]; rewrite DecimalPos.Unsigned.of_lu_revapp;
    fold (Decimal.rev u); cbn [DecimalPos.Unsigned.of_lu DecimalPos.Unsigned.usize];
    rewrite N.pow_succ_r', N.sub_1_r, N.pred_succ;
    destruct IH as [IH _];
    (split; [lia | intros Hnz _; try lia]).
  exfalso. cbn [Decimal.nzhead] in Hnz. now apply (DecimalFacts.nzhead_nonzero u u).
Qed.

Lemma to_uint_normal (p : positive) : Decimal.nzhead (Pos.to_uint p) = Pos.to_uint p.
Proof.
  pose proof (DecimalPos.Unsigned.to_of (Pos.to_uint p)) as H.
  rewrite DecimalPos.Unsigned.of_to in H. cbn [N.to_uint] in H.
  destruct (Decimal.nzhead (Pos.to_uint p)) eqn:Hnz;
    try (rewrite DecimalFacts.unorm_nzhead in H by (rewrite Hnz; discriminate); congruence).
  exfalso. apply (DecimalPos.Unsigned.to_uint_nonzero p). rewrite H.
  apply DecimalFacts.unorm_0. exact Hnz.
Qed.

(** A natural number has at most [k] decimal digits exactly when it is
    below ten to the [k]. *)
Lemma digits_le (n k : Z) :
  0 <= n -> 1 <= k -> (Py.digits n <= k <-> n < 10 ^ k).
Proof.
  intros Hn Hk. unfold Py.digits. rewrite Z.abs_eq by exact Hn.
  destruct n as [|p|p]; [| |lia].
  - change (Py.decimal 0) with "0". cbn [String.length].
    pose proof (Z.pow_pos_nonneg 10 k). lia.
  - unfold Py.decimal. cbn [Z.to_int NilEmpty.string_of_int]. rewrite string_of_uint_length.
    destruct (of_uint_bounds (Pos.to_uint p)) as [Hup Hlow].
    specialize (Hlow (to_uint_normal p) (DecimalPos.Unsigned.to_uint_nonnil p)).
    rewrite DecimalPos.Unsigned.of_to, usize_nb_digits in Hup, Hlow.
    set (L := Decimal.nb_digits (Pos.to_uint p)) in *.
    assert (HL : (1 <= L)%nat).
    { subst L. pose proof (DecimalPos.Unsigned.to_uint_nonnil p).
      destruct (Pos.to_uint p); cbn; try lia. congruence. }
    assert (Hup' : Z.pos p < 10 ^ Z.of_nat L).
    { apply N2Z.inj_lt in Hup. rewrite N2Z.inj_pow, nat_N_Z in Hup. exact Hup. }
    assert (Hlow' : 10 ^ (Z.of_nat L - 1) <= Z.pos p).
    { apply N2Z.inj_le in Hlow. rewrite N2Z.inj_pow, N2Z.inj_sub, nat_N_Z in Hlow by lia.
      exact Hlow. }
    split.
    + intros HLk. eapply Z.lt_le_trans; [exact Hup'|]. apply Z.pow_le_mono_r; lia.
    + intros Hlt. assert (H : 10 ^ (Z.of_nat L - 1) < 10 ^ k) by lia.
      apply Z.pow_lt_mono_r_iff in H; lia.
Qed.

Lemma digits_positive (n : Z) : 1 <= Py.digits n.
Proof.
  unfold Py.digits. destruct (Z.abs n) as [|p|p] eqn:Hn.
  - change (Py.decimal 0) with "0". cbn [String.length]. lia.
  - unfold Py.decimal. cbn [Z.to_int NilEmpty.string_of_int]. rewrite string_of_uint_length.
    pose proof (DecimalPos.Unsigned.to_uint_nonnil p).
    destruct (Pos.to_uint p); cbn [Decimal.nb_digits]; try lia. congruence.
  - pose proof (Z.abs_nonneg n). lia.
Qed.

Lemma digits_mono (n m : Z) : 0 <= n <= m -> Py.digits n <= Py.digits m.
Proof.
  intros [Hn Hm]. apply digits_le; [exact Hn | apply digits_positive|].
  eapply Z.le_lt_trans; [exact Hm|].
  apply digits_le; [lia | apply digits_positive | lia].
Qed.

Lemma str_int_within (n : Z) :
  Py.digits n <= Py.max_str_digits -> Py.str_int n = Ok (Py.decimal n).
Proof.
  intros H. unfold Py.str_int.
  destruct (Z.ltb_spec Py.max_str_digits (Py.digits n)); [lia | reflexivity].
Qed.

Lemma str_int_beyond (n : Z) :
  Py.max_str_digits < Py.digits n -> Py.str_int n = Raise ValueError.
Proof.
  intros H. unfold Py.str_int.
  destruct (Z.ltb_spec Py.max_str_digits (Py.digits n)); [reflexivity | lia].
Qed.

(** [int] reads a non-empty string of at most 4300 digits, and refuses a
    longer one. *)
Lemma int_of_digits (digits : string) :
  digits <> "" -> string_forall Re.is_digit digits = true ->
  (Z.of_nat (String.length digits) <= Py.max_str_digits ->
   exists n, Py.int digits = Ok n /\ 0 <= n)
  /\ (Py.max_str_digits < Z.of_nat (String.length digits) ->
      Py.int digits = Raise ValueError).
Proof.
  intros Hne Hds. unfold Py.int.
  assert (Hu : exists u, NilEmpty.uint_of_string digits = Some u).
  { clear Hne. induction digits as [|d ds IH]; [now exists Decimal.Nil|].
    cbn [string_forall] in Hds. apply andb_prop in Hds as [Hd Hds].
    destruct (IH Hds) as [u Hu]. cbn [NilEmpty.uint_of_string]. rewrite Hu.
    revert Hd. destruct d as [[|] [|] [|] [|] [|] [|] [|] [|]]; vm_compute; try congruence;
      eauto. }
  destruct Hu as [u Hu]. destruct digits as [|d ds]; [congruence|]. rewrite Hu.
  destruct (Z.ltb_spec Py.max_str_digits (Z.of_nat (String.length (String d ds)))).
  - split; [lia | reflexivity].
  - split; [|lia]. intros _. eexists. split; [reflexivity | lia].
Qed.

Lemma string_of_uint_digits (u : Decimal.uint) :
  string_forall Re.is_digit (NilEmpty.string_of_uint u) = true.
Proof. induction u; cbn [NilEmpty.string_of_uint string_forall]; try rewrite IHu; reflexivity. Qed.

(** The decimal numeral of a natural number is a non-empty string of
    digits, which [int] reads back when they are at most 4300. *)
Lemma decimal_digits (n : Z) :
  0 <= n ->
  Py.decimal n <> "" /\ string_forall Re.is_digit (Py.decimal n) = true
  /\ (Py.digits n <= Py.max_str_digits -> Py.int (Py.decimal n) = Ok n).
Proof.
  intros Hn. unfold Py.digits. rewrite Z.abs_eq by exact Hn.
  unfold Py.decimal. destruct n as [|p|p]; [now vm_compute | | lia].
  cbn [Z.to_int NilEmpty.string_of_int].
  assert (Hne : NilEmpty.string_of_uint (Pos.to_uint p) <> "").
  { intros H. apply (DecimalPos.Unsigned.to_uint_nonnil p).
    destruct (Pos.to_uint p); try discriminate H. reflexivity. }
  split; [exact Hne|]. split; [apply string_of_uint_digits|].
  intros Hlen. unfold Py.int. rewrite NilEmpty.usu.
  destruct (NilEmpty.string_of_uint (Pos.to_uint p)) as [|c t] eqn:Htext; [congruence|].
  destruct (Z.ltb_spec Py.max_str_digits (Z.of_nat (String.length (String c t)))); [lia|].
  unfold N.of_uint. now rewrite DecimalPos.Unsigned.of_to.
Qed.

Lemma star_none_cons {A : Type} (p : ascii -> bool) (k : string -> option A) (c : ascii)
    (s : string) :
  Re.star p k s = None -> Re.star p k (String c s) = k (String c s).
Proof. intros H. cbn [Re.star]. rewrite H. now destruct (p c). Qed.

Lemma digit_not_c (d : ascii) :
  Re.is_digit d = true -> Ascii.eqb (Py.lower_char d) (Py.lower_char "c") = false.
Proof. destruct d as [[|] [|] [|] [|] [|] [|] [|] [|]]; vm_compute; congruence. Qed.

Lemma no_count_in_digits (digits rest : string) :
  string_forall Re.is_digit digits = true ->
  Re.star Re.dot count_tail (digits ++ newline ++ rest) = None.
Proof.
  intros Hds. induction digits as [|d ds IH].
  - reflexivity.
  - cbn [string_forall] in Hds. apply andb_prop in Hds as [Hd Hds].
    change (String d ds ++ newline ++ rest) with (String d (ds ++ newline ++ rest)).
    rewrite star_none_cons by now apply IH.
    unfold count_tail. cbn [Re.lit_ci]. now rewrite (digit_not_c d Hd).
Qed.

Lemma REGEX_COUNT_match_annotation (n : Z) (now : string) :
  0 <= n -> REGEX_COUNT_match (spec_annotation n now) = Some (Py.decimal n).
Proof.
  intros Hn. destruct (decimal_digits n Hn) as (Hne & Hds & _).
  unfold REGEX_COUNT_match, spec_annotation. fold count_tail.
  change ("Count: " ++ Py.decimal n ++ newline ++ "Last: " ++ now)
    with (String "C" (String "o" (String "u" (String "n" (String "t" (String ":" (String " "
            (Py.decimal n ++ newline ++ "Last: " ++ now)))))))).
  pose proof (no_count_in_digits (Py.decimal n) ("Last: " ++ now) Hds) as H0.
  rewrite star_none_cons; [|rewrite star_none_cons; [reflexivity|]].
  2: { do 5 (rewrite star_none_cons; [reflexivity|]). exact H0. }
  change (String "C" (String "o" (String "u" (String "n" (String "t" (String ":" (String " "
            (Py.decimal n ++ newline ++ "Last: " ++ now))))))))
    with ("Count:" ++ " " ++ Py.decimal n ++ (newline ++ "Last: " ++ now)).
  apply count_tail_found; try assumption; try reflexivity. discriminate.
Qed.

(** ** The occurrence counter *)

Lemma calculate_issue_occurrence_count_read (now text digits : string) (n : Z) :
  REGEX_COUNT_match text = Some digits -> Py.int digits = Ok n ->
  calculate_issue_occurrence_count now (Some text)
  = (let? count_text := Py.str_int (n + 1) in
     Ok ("Count: " ++ count_text ++ newline ++ "Last: " ++ now)).
Proof.
  intros Hm Hn. unfold calculate_issue_occurrence_count.
  destruct (Z.ltb_spec 0 (Z.of_nat (String.length text))) as [_|Hlen].
  - rewrite Hm, Hn. reflexivity.
  - destruct text; [vm_compute in Hm; discriminate Hm | cbn [String.length] in Hlen; lia].
Qed.

Lemma calculate_issue_occurrence_count_matched (now text digits : string) (n : Z) :
  REGEX_COUNT_match text = Some digits -> Py.int digits = Ok n ->
  Py.digits (n + 1) <= Py.max_str_digits ->
  calculate_issue_occurrence_count now (Some text) = Ok (spec_annotation (n + 1) now).
Proof.
  intros Hm Hn Hlen. rewrite (calculate_issue_occurrence_count_read now text digits n Hm Hn).
  now rewrite (str_int_within _ Hlen).
Qed.

Lemma calculate_issue_occurrence_count_overflow (now text digits : string) (n : Z) :
  REGEX_COUNT_match text = Some digits -> Py.int digits = Ok n ->
  Py.max_str_digits < Py.digits (n + 1) ->
  calculate_issue_occurrence_count now (Some text) = Raise ValueError.
Proof.
  intros Hm Hn Hlen. rewrite (calculate_issue_occurrence_count_read now text digits n Hm Hn).
  now rewrite (str_int_beyond _ Hlen).
Qed.

Lemma calculate_issue_occurrence_count_unread (now text digits : string) (e : exn) :
  REGEX_COUNT_match text = Some digits -> Py.int digits = Raise e ->
  calculate_issue_occurrence_count now (Some text) = Raise e.
Proof.
  intros Hm Hn. unfold calculate_issue_occurrence_count.
  destruct (Z.ltb_spec 0 (Z.of_nat (String.length text))) as [_|Hlen].
  - rewrite Hm, Hn. reflexivity.
  - destruct text; [vm_compute in Hm; discriminate Hm | cbn [String.length] in Hlen; lia].
Qed.

Lemma calculate_issue_occurrence_count_unmatched (now text : string) :
  REGEX_COUNT_match text = None ->
  calculate_issue_occurrence_count now (Some text) = Ok (spec_annotation 1 now).
Proof.
  intros Hm. unfold calculate_issue_occurrence_count.
  destruct (0 <? Z.of_nat (String.length text)); [rewrite Hm|]; reflexivity.
Qed.

(** C6 (amended). When the prior annotation is some leading text without
    a line feed, then "count:" in any case, then whitespace, then digits, the
    pattern captures digits of that form; when they are at most 4300, of value
    [n], and [n + 1] has at most 4300 digits, the counter outputs the
    annotation whose count is [n + 1]; beyond either limit the conversion
    between text and integer raises [ValueError].  When the prior annotation
    is absent, empty, or not of that form, the count is 1.  Every output is
    [Count: n], a line feed, and [Last: timestamp]. *)
Theorem occurrence_count_increments (now : string) :
  (forall text,
      (exists digits, count_pattern text digits) ->
      exists digits,
        REGEX_COUNT_match text = Some digits
        /\ count_pattern text digits
        /\ (Z.of_nat (String.length digits) <= Py.max_str_digits ->
            exists n,
              Py.int digits = Ok n /\ 0 <= n
              /\ (Py.digits (n + 1) <= Py.max_str_digits ->
                  calculate_issue_occurrence_count now (Some text)
                  = Ok (spec_annotation (n + 1) now))
              /\ (Py.max_str_digits < Py.digits (n + 1) ->
                  calculate_issue_occurrence_count now (Some text) = Raise ValueError))
        /\ (Py.max_str_digits < Z.of_nat (String.length digits) ->
            calculate_issue_occurrence_count now (Some text) = Raise ValueError))
  /\ (forall text,
         ~ (exists digits, count_pattern text digits) ->
         calculate_issue_occurrence_count now (Some text) = Ok (spec_annotation 1 now))
  /\ calculate_issue_occurrence_count now None = Ok (spec_annotation 1 now)
  /\ calculate_issue_occurrence_count now (Some "") = Ok (spec_annotation 1 now).
Proof.
  split; [|split; [|split; reflexivity]].
  - intros text [digits0 Hpat].
    destruct (REGEX_COUNT_match_found text digits0 Hpat) as [digits Hm].
    pose proof (REGEX_COUNT_match_sound text digits Hm) as Hpat'.
    destruct Hpat' as (leading & kw & ws & rest & Htext & Hlead & Hkw & Hne & Hws & Hnd & Hds
                       & Hrest).
    destruct (int_of_digits digits Hnd Hds) as [Hshort Hlong].
    exists digits. split; [exact Hm|]. split; [|split].
    + exists leading, kw, ws, rest. tauto.
    + intros Hlen. destruct (Hshort Hlen) as (n & Hn & Hpos).
      exists n. split; [exact Hn|]. split; [exact Hpos|]. split.
      * exact (calculate_issue_occurrence_count_matched now text digits n Hm Hn).
      * exact (calculate_issue_occurrence_count_overflow now text digits n Hm Hn).
    + intros Hlen.
      exact (calculate_issue_occurrence_count_unread now text digits _ Hm (Hlong Hlen)).
  - intros text Hno. apply calculate_issue_occurrence_count_unmatched.
    destruct (REGEX_COUNT_match text) as [digits|] eqn:Hm; [|reflexivity].
    exfalso. apply Hno. exists digits. now apply REGEX_COUNT_match_sound.
Qed.

Lemma occurrence_count_increments_witness :
  (exists digits, count_pattern ("Seen. COUNT:  41" ++ newline ++ "Last: then") digits)
  /\ calculate_issue_occurrence_count "now"
       (Some ("Seen. COUNT:  41" ++ newline ++ "Last: then"))
     = Ok (spec_annotation 42 "now").
Proof.
  assert (H : exists digits,
             count_pattern ("Seen. COUNT:  41" ++ newline ++ "Last: then") digits).
  { exists "41", "Seen. ", "COUNT:", "  ", (newline ++ "Last: then").
    repeat split; try reflexivity; discriminate. }
  split; [exact H|].
  destruct (proj1 (occurrence_count_increments "now") _ H) as (digits & Hm & _ & Hshort & _).
  assert (Hdigits : digits = "41") by (vm_compute in Hm; congruence).
  rewrite Hdigits in Hshort.
  destruct (Hshort ltac:(vm_compute; discriminate)) as (n & Hn & _ & Hcount & _).
  assert (Hvalue : n = 41) by (vm_compute in Hn; congruence).
  rewrite Hvalue in Hcount. apply Hcount. vm_compute. discriminate.
Defined.

(** The annotation that the counter writes is read back by the counter:
    the count goes up by exactly one, as long as it has at most 4300
    digits. *)
Lemma occurrence_count_round_trip (n : Z) (before now : string) :
  0 <= n -> Py.digits (n + 1) <= Py.max_str_digits ->
  calculate_issue_occurrence_count now (Some (spec_annotation n before))
  = Ok (spec_annotation (n + 1) now).
Proof.
  intros Hn Hlen. apply calculate_issue_occurrence_count_matched with (Py.decimal n).
  - now apply REGEX_COUNT_match_annotation.
  - apply decimal_digits; [exact Hn|].
    pose proof (digits_mono n (n + 1)). lia.
  - exact Hlen.
Qed.

(** C6, as the specification states it, fails in two ways.  An annotation
    whose count line comes after a line of other text is leading text,
    "Count:", a space and the digit 4, and the counter answers with the count
    1, not 5.  An annotation that is "Count:", a space and 4301 digits makes
    the counter raise [ValueError]: it outputs no annotation. *)
Lemma count_after_line_feed_is_not_read :
  (let text := "x" ++ newline ++ "Count: 4" in
   loose_count_pattern text "4"
   /\ Py.int "4" = Ok 4
   /\ calculate_issue_occurrence_count "now" (Some text) = Ok (spec_annotation 1 "now")
   /\ calculate_issue_occurrence_count "now" (Some text) <> Ok (spec_annotation (4 + 1) "now"))
  /\ (let text := "Count: " ++ long_count in
      count_pattern text long_count
      /\ String.length long_count = 4301%nat
      /\ calculate_issue_occurrence_count "now" (Some text) = Raise ValueError).
Proof.
  split.
  - repeat split; try reflexivity.
    + exists ("x" ++ newline), "Count:", " ", "". repeat split; try reflexivity; discriminate.
    + vm_compute. intros H. discriminate H.
  - cbv zeta. split; [|split; vm_compute; reflexivity].
    exists "", "Count:", " ", "". split; [now rewrite append_nil_r|].
    split; [reflexivity|]. split; [reflexivity|]. split; [discriminate|].
    split; [reflexivity|]. split; [vm_compute; discriminate|].
    split; [vm_compute; reflexivity | reflexivity].
Qed.

(** ** The matcher on a text compared with itself: every element is
    matched *)

Module SelfMatchFacts.

Import SequenceMatcher MatcherInvariants SequenceMatcherFacts.

Local Close Scope string_scope.

Ltac split_row :=
  refine (conj _ (conj _ (conj _ (conj _ (conj _ (conj _ (conj _ (conj _ _)))))))).

Lemma item_cons (c : ascii) (l : list ascii) (j : Z) :
  0 < j -> item (c :: l) j = item l (j - 1).
Proof.
  intros Hj. unfold item. replace (Z.to_nat j) with (S (Z.to_nat (j - 1))) by lia.
  reflexivity.
Qed.

Lemma elem_of_positions_from (o : Z) (x : ascii) (l : list ascii) (j : Z) :
  j ∈ positions_from o x l <-> o <= j < o + len l /\ item l (j - o) = x.
Proof.
  revert o. induction l as [|c l IH]; intros o; cbn [positions_from].
  - unfold len. cbn. rewrite elem_of_nil. lia.
  - rewrite elem_of_app, IH. unfold len. cbn [length]. fold (len l).
    destruct (Ascii.eqb_spec c x) as [->|Hc].
    + rewrite list_elem_of_singleton. split.
      * intros [->|[Hj Hx]].
        -- split; [unfold len; lia|]. replace (o - o) with 0 by lia. reflexivity.
        -- split; [unfold len in *; lia|]. rewrite item_cons by lia.
           now replace (j - o - 1) with (j - (o + 1)) by lia.
      * intros [Hj Hx]. destruct (Z.eq_dec j o) as [->|Hne]; [now left|right].
        split; [unfold len in *; lia|]. rewrite item_cons in Hx by lia.
        now replace (j - o - 1) with (j - (o + 1)) in Hx by lia.
    + rewrite elem_of_nil. split.
      * intros [[]|[Hj Hx]]. split; [unfold len in *; lia|]. rewrite item_cons by lia.
        now replace (j - o - 1) with (j - (o + 1)) by lia.
      * intros [Hj Hx]. right. destruct (Z.eq_dec j o) as [->|Hne].
        -- replace (o - o) with 0 in Hx by lia. change (c = x) in Hx. congruence.
        -- split; [unfold len in *; lia|]. rewrite item_cons in Hx by lia.
           now replace (j - o - 1) with (j - (o + 1)) in Hx by lia.
Qed.

Lemma positions_from_sorted (o : Z) (x : ascii) (l : list ascii) :
  StronglySorted Z.lt (positions_from o x l).
Proof.
  revert o. induction l as [|c l IH]; intros o; cbn [positions_from]; [constructor|].
  destruct (Ascii.eqb c x); [|apply IH]. cbn [app]. constructor; [apply IH|].
  apply Forall_forall. intros j Hj. apply elem_of_positions_from in Hj. lia.
Qed.

Lemma enumerate_from_cons (o : Z) (c : ascii) (l : list ascii) :
  combine (range o (o + len (c :: l))) (c :: l)
  = (o, c) :: combine (range (o + 1) (o + 1 + len l)) l.
Proof.
  rewrite range_cons by (unfold len; cbn [length]; lia). cbn [combine]. do 3 f_equal.
  unfold len. cbn [length]. lia.
Qed.

Lemma b2j_fold_positions (l : list ascii) (o : Z) (m : gmap ascii (list Z)) (x : ascii) :
  default [] (fold_left (fun (b2j : gmap ascii (list Z)) (ie : Z * ascii) =>
                           <[snd ie := default [] (b2j !! snd ie) ++ [fst ie]]> b2j)
                (combine (range o (o + len l)) l) m !! x)
  = default [] (m !! x) ++ positions_from o x l.
Proof.
  revert o m. induction l as [|c l IH]; intros o m.
  - cbn [positions_from]. rewrite range_nil by (unfold len; cbn; lia). cbn.
    now rewrite app_nil_r.
  - rewrite enumerate_from_cons. cbn [fold_left fst snd positions_from]. rewrite IH.
    destruct (Ascii.eqb_spec c x) as [->|Hc].
    + rewrite lookup_insert_eq. cbn. now rewrite <- app_assoc.
    + rewrite lookup_insert_ne by congruence. reflexivity.
Qed.

(** A list that [b2j] holds for [x] is the list of the indices of [x] in
    [b], in ascending order. *)
Lemma b2j_get (isjunk : ascii -> bool) (seq_a seq_b : list ascii) (x : ascii) (js : list Z) :
  b2j (init isjunk seq_a seq_b) !! x = Some js -> js = positions_from 0 x seq_b.
Proof.
  cbn [init b2j]. intros Hx.
  unfold chain_b2j in Hx. apply map_lookup_filter_Some in Hx as [Hx _].
  unfold b2j_nojunk in Hx. apply map_lookup_filter_Some in Hx as [Hx _].
  pose proof (b2j_fold_positions seq_b 0 ∅ x) as H.
  unfold b2j_all, enumerate in Hx. replace (0 + len seq_b) with (len seq_b) in H by lia.
  rewrite Hx in H. rewrite lookup_empty in H. exact H.
Qed.

Section Diagonal.

Variable junk : ascii -> bool.
Variable l : list ascii.

Local Abbreviation s := (init junk l l).

Lemma run_zero (lo i : Z) : lo <= i + 1 -> run s lo i 0.
Proof. intros H. repeat split; try lia. Qed.

Lemma run_succ (lo i k : Z) :
  keyed s (item l i) -> lo <= i -> run s lo (i - 1) k -> run s lo i (k + 1).
Proof.
  intros Hi Hlo (Hk & Hstart & Hrun). repeat split; try lia.
  intros d Hd. destruct (Z.eq_dec d 0) as [->|Hne].
  - now replace (i - 0) with i by lia.
  - replace (i - d) with (i - 1 - (d - 1)) by lia. apply Hrun. lia.
Qed.

Lemma run_keyed (lo i k : Z) : run s lo i k -> 1 <= k -> keyed s (item l i).
Proof.
  intros (_ & _ & Hrun) Hk. specialize (Hrun 0). replace (i - 0) with i in Hrun by lia.
  apply Hrun. lia.
Qed.

Lemma run_pred (lo i k : Z) : run s lo i k -> 1 <= k -> run s lo (i - 1) (k - 1).
Proof.
  intros (Hk & Hstart & Hrun) H1. repeat split; try lia.
  intros d Hd. replace (i - 1 - d) with (i - (d + 1)) by lia. apply Hrun. lia.
Qed.

Lemma longest_run_unkeyed (lo i : Z) :
  ~ keyed s (item l i) -> lo <= i + 1 -> longest_run s lo i 0.
Proof.
  intros Hi Hlo. split; [now apply run_zero|].
  intros k' Hk'. destruct (Z_le_gt_dec k' 0) as [|Hpos]; [assumption|].
  exfalso. apply Hi. apply (run_keyed lo i k' Hk'). lia.
Qed.

Lemma longest_run_succ (lo i k : Z) :
  keyed s (item l i) -> lo <= i -> longest_run s lo (i - 1) k -> longest_run s lo i (k + 1).
Proof.
  intros Hi Hlo [Hrun Hmax]. split; [now apply run_succ|].
  intros k' Hk'. destruct (Z_le_gt_dec k' 0) as [|Hpos].
  - destruct Hrun as (Hk & _). lia.
  - assert (k' - 1 <= k); [|lia]. apply Hmax. apply run_pred; [assumption | lia].
Qed.

Lemma longest_run_before (lo : Z) : longest_run s lo (lo - 1) 0.
Proof.
  split; [apply run_zero; lia|]. intros k' (Hk & Hstart & _). lia.
Qed.

Lemma diagonal_row_done (lo hi i : Z) (prev : gmap Z Z) (js : list Z) (st : search_state) :
  lo <= i < hi ->
  (forall j k, prev !! j = Some k ->
               1 <= k /\ run s lo (i - 1) k /\ run s lo j k /\ lo <= j) ->
  longest_run s lo (i - 1) (default 0 (prev !! (i - 1))) ->
  StronglySorted Z.lt js ->
  (forall j, j ∈ js -> item l j = item l i /\ keyed s (item l i)) ->
  diagonal_row s lo hi i js st ->
  diagonal_row s lo hi i [] (row lo hi prev i js st).
Proof.
  intros Hi Hprev Hdiag. revert st. induction js as [|j js IH]; intros st Hsorted Hjs Hst.
  - exact Hst.
  - apply StronglySorted_inv in Hsorted as [Hsorted Hlt]. rewrite Forall_forall in Hlt.
    assert (Hjs' : forall j', j' ∈ js -> item l j' = item l i /\ keyed s (item l i)).
    { intros j' Hj'. apply Hjs. now right. }
    destruct (Hjs j) as [Hitem Hkey]; [now left|].
    assert (Hskip : j <> i -> (i ∉ js -> i ∉ j :: js)).
    { intros Hne Hnot Hin. apply elem_of_cons in Hin as [->|Hin]; [congruence | tauto]. }
    assert (Hpast : i < j -> i ∉ j :: js).
    { intros Hij Hin. apply elem_of_cons in Hin as [->|Hin]; [lia|].
      apply Hlt in Hin. lia. }
    destruct st as [newj2len [[besti bestj] bestsize]].
    destruct Hst as (H1 & H2 & H3 & H4 & H5 & H6 & H7 & H8 & H9).
    cbn [row]. destruct (Z.ltb_spec j lo) as [Hlow|Hlow].
    { apply IH; try assumption. split_row; try assumption.
      - intros Hnot. apply H7, Hskip; [lia | assumption].
      - intros Hnot. apply H9, Hskip; [lia | assumption]. }
    destruct (Z.leb_spec hi j) as [Hhigh|Hhigh].
    { assert (Hnot : i ∉ j :: js) by (apply Hpast; lia).
      split_row; try assumption.
      - intros _. now apply H7.
      - intros _. now apply H9. }
    set (k := default 0 (prev !! (j - 1)) + 1).
    assert (Hkey_j : keyed s (item l j)) by now rewrite Hitem.
    assert (Hk : 1 <= k /\ run s lo i k /\ run s lo j k).
    { unfold k. destruct (prev !! (j - 1)) as [k'|] eqn:Hk'; cbn [default from_option id].
      - destruct (Hprev _ _ Hk') as (Hk1 & Hri & Hrj & Hlo').
        split; [lia|]. split.
        + apply run_succ; [assumption | lia | assumption].
        + apply run_succ; [assumption | lia | assumption].
      - split; [lia|]. split.
        + apply (run_succ lo i 0); [assumption | lia | apply run_zero; lia].
        + apply (run_succ lo j 0); [assumption | lia | apply run_zero; lia]. }
    destruct Hk as (Hk1 & Hrun_i & Hrun_j).
    assert (Hlongest : j = i -> longest_run s lo i k).
    { intros ->. unfold k. apply longest_run_succ; [assumption | lia | exact Hdiag]. }
    assert (Hsame : bestsize < k -> j = i).
    { intros Hbig. destruct (Z.lt_trichotomy j i) as [Hji|[Hji|Hji]]; [|assumption|].
      - specialize (H6 j k ltac:(lia) Hrun_j). lia.
      - specialize (H7 (Hpast Hji) k Hrun_i). lia. }
    assert (Hentries : forall j0 k0, <[j := k]> newj2len !! j0 = Some k0 ->
                                     1 <= k0 /\ run s lo i k0 /\ run s lo j0 k0 /\ lo <= j0).
    { intros j0 k0 H. destruct (decide (j0 = j)) as [->|Hne].
      - rewrite lookup_insert_eq in H. injection H as <-.
        split; [assumption|]. split; [assumption|]. split; assumption.
      - rewrite lookup_insert_ne in H by congruence. now apply H8. }
    assert (Hdiagonal : i ∉ js -> longest_run s lo i (default 0 (<[j := k]> newj2len !! i))).
    { intros Hnot. destruct (Z.eq_dec j i) as [Heq|Hne].
      - rewrite Heq, lookup_insert_eq. cbn [default from_option id]. now apply Hlongest.
      - rewrite lookup_insert_ne by congruence. apply H9. now apply Hskip. }
    apply IH; try assumption.
    destruct (Z.ltb_spec bestsize k) as [Hbig|Hsmall].
    + specialize (Hsame Hbig). specialize (Hlongest Hsame). subst j.
      destruct Hrun_i as (_ & Hstart & _).
      split_row; try assumption; try lia.
      * intros i' k' Hi' Hk'. specialize (H6 i' k' Hi' Hk'). lia.
      * intros _ k' Hk'. now apply Hlongest.
    + split_row; try assumption.
      intros Hnot k' Hk'. destruct (Z.eq_dec j i) as [Heq|Hne].
      * apply Hlongest in Heq. destruct Heq as [_ Hmax]. specialize (Hmax k' Hk'). lia.
      * apply H7; [now apply Hskip | assumption].
Qed.

End Diagonal.

Section DiagonalMatch.

Variable junk : ascii -> bool.
Variable l : list ascii.

Local Abbreviation s := (init junk l l).

Lemma diagonal_row_start (lo hi : Z) :
  lo <= hi -> diagonal_row s lo hi (lo - 1) [] (∅, (lo, lo, 0)).
Proof.
  intros Hhi. split_row.
  - reflexivity.
  - lia.
  - lia.
  - lia.
  - reflexivity.
  - intros i' k Hi'. lia.
  - intros _ k (Hk & Hstart & _). lia.
  - intros j k H. rewrite lookup_empty in H. discriminate H.
  - intros _. rewrite lookup_empty. apply longest_run_before.
Qed.

Lemma diagonal_row_next (lo hi i : Z) (st : search_state) :
  0 <= lo -> lo <= i < hi -> hi <= len l ->
  diagonal_row s lo hi (i - 1) [] st ->
  diagonal_row s lo hi i [] (rows_step s lo hi st i).
Proof.
  intros Hlo Hi Hhi Hst. destruct st as [j2len [[besti bestj] bestsize]].
  destruct Hst as (H1 & H2 & H3 & H4 & H5 & H6 & H7 & H8 & H9).
  assert (Hnil : i - 1 ∉ @nil Z) by apply not_elem_of_nil.
  specialize (H7 Hnil). specialize (H9 Hnil).
  unfold rows_step.
  assert (Hjs : forall j, j ∈ default [] (b2j s !! item (a s) i) ->
                          item l j = item l i /\ keyed s (item l i)).
  { intros j Hj. destruct (b2j s !! item (a s) i) as [js|] eqn:Hget;
      [|cbn in Hj; now apply elem_of_nil in Hj].
    cbn [default from_option id] in Hj. rewrite (b2j_get _ _ _ _ _ Hget) in Hj.
    apply elem_of_positions_from in Hj as [_ Hj]. replace (j - 0) with j in Hj by lia.
    split; [exact Hj|]. unfold keyed. change (item (a s) i) with (item l i) in Hget.
    rewrite Hget. eauto. }
  assert (Hin : keyed s (item l i) -> i ∈ default [] (b2j s !! item (a s) i)).
  { intros [js Hget]. change (item (a s) i) with (item l i). rewrite Hget.
    cbn [default from_option id]. rewrite (b2j_get _ _ _ _ _ Hget).
    apply elem_of_positions_from. replace (i - 0) with i by lia. split; [lia | reflexivity]. }
  apply diagonal_row_done; try assumption.
  - destruct (b2j s !! item (a s) i) as [js|] eqn:Hget; [|constructor].
    cbn [default from_option id]. rewrite (b2j_get _ _ _ _ _ Hget).
    apply positions_from_sorted.
  - split_row; try assumption.
    + intros i' k Hi' Hk. destruct (Z.eq_dec i' (i - 1)) as [->|Hne].
      * now apply H7.
      * apply (H6 i' k); [lia | assumption].
    + intros Hnot k Hk. destruct (Z_le_gt_dec k 0) as [|Hpos]; [lia|].
      exfalso. apply Hnot, Hin. apply (run_keyed junk l lo i k Hk). lia.
    + intros j k H. rewrite lookup_empty in H. discriminate H.
    + intros Hnot. rewrite lookup_empty. apply longest_run_unkeyed; [|lia].
      intros Hkey. apply Hnot, Hin, Hkey.
Qed.

Lemma diagonal_rows (lo hi i : Z) (st : search_state) :
  0 <= lo -> lo <= i <= hi -> hi <= len l ->
  diagonal_row s lo hi (i - 1) [] st ->
  diagonal_row s lo hi (hi - 1) [] (fold_left (rows_step s lo hi) (range i hi) st).
Proof.
  intros Hlo Hi Hhi. remember (Z.to_nat (hi - i)) as n eqn:Hn.
  revert i st Hi Hn. induction n as [|n IH]; intros i st Hi Hn Hst.
  - rewrite range_nil by lia. assert (i = hi) as Heq by lia. rewrite Heq in Hst. exact Hst.
  - rewrite range_cons by lia. cbn [fold_left]. apply IH; try lia.
    replace (i + 1 - 1) with i by lia. apply diagonal_row_next; try assumption; lia.
Qed.

Lemma longest_junk_free_diagonal (lo hi : Z) :
  0 <= lo <= hi -> hi <= len l ->
  let '(i, j, k) := longest_junk_free s lo hi lo hi in
  i = j /\ lo <= i /\ 0 <= k /\ i + k <= hi /\ (k = 0 -> i = lo).
Proof.
  intros Hlo Hhi. unfold longest_junk_free.
  pose proof (diagonal_rows lo hi lo (∅, (lo, lo, 0))) as H.
  destruct (fold_left (rows_step s lo hi) (range lo hi) (∅, (lo, lo, 0)))
    as [j2len [[i j] k]].
  destruct H as (H1 & H2 & H3 & H4 & H5 & _); try lia.
  - apply diagonal_row_start. lia.
  - cbn [snd]. auto.
Qed.

Lemma extend_back_diagonal (jk : bool) (lo : Z) (fuel : nat) (x : block) :
  fst (fst x) = snd (fst x) ->
  fst (fst (extend_back s jk lo lo fuel x)) = snd (fst (extend_back s jk lo lo fuel x))
  /\ size x <= size (extend_back s jk lo lo fuel x).
Proof.
  revert x. induction fuel as [|fuel IH]; intros [[i j] k] Hx; [split; [exact Hx | apply Z.le_refl]|].
  cbn [extend_back]. destruct (_ && _ && _ && _); [|split; [exact Hx | apply Z.le_refl]].
  cbn [fst snd] in Hx. subst j.
  destruct (IH (i - 1, i - 1, k + 1) eq_refl) as [Hd Hs]. split; [exact Hd|].
  cbn [size snd] in *. lia.
Qed.

Lemma extend_forward_diagonal (jk : bool) (hi : Z) (fuel : nat) (x : block) :
  fst (fst x) = snd (fst x) ->
  fst (fst (extend_forward s jk hi hi fuel x)) = snd (fst (extend_forward s jk hi hi fuel x))
  /\ size x <= size (extend_forward s jk hi hi fuel x).
Proof.
  revert x. induction fuel as [|fuel IH]; intros [[i j] k] Hx; [split; [exact Hx | apply Z.le_refl]|].
  cbn [extend_forward]. destruct (_ && _ && _ && _); [|split; [exact Hx | apply Z.le_refl]].
  cbn [fst snd] in Hx. subst j.
  destruct (IH (i, i, k + 1) eq_refl) as [Hd Hs]. split; [exact Hd|].
  cbn [size snd] in *. lia.
Qed.

Lemma extend_forward_first (jk : bool) (lo hi : Z) :
  lo < hi -> isbjunk s (item l lo) = jk ->
  1 <= size (extend_forward s jk hi hi (forward_fuel hi (lo, lo, 0)) (lo, lo, 0)).
Proof.
  intros Hlo Hjunk. unfold forward_fuel. cbn [fst snd].
  replace (Z.to_nat (hi - (lo + 0))) with (S (Z.to_nat (hi - lo - 1))) by lia.
  cbn [extend_forward]. replace (lo + 0) with lo by lia.
  change (b s) with l. change (a s) with l.
  rewrite Hjunk, Bool.eqb_reflx, Ascii.eqb_refl.
  destruct (Z.ltb_spec lo hi) as [_|]; [|lia]. cbn [andb].
  destruct (extend_forward_diagonal jk hi (Z.to_nat (hi - lo - 1)) (lo, lo, 0 + 1) eq_refl)
    as [_ Hs].
  cbn [size snd] in *. lia.
Qed.

(** On a window of a text compared with itself that is not empty, the best
    match lies on the diagonal and is not empty. *)
Lemma find_longest_match_diagonal (lo hi : Z) :
  0 <= lo < hi -> hi <= len l ->
  let '(i, j, k) := find_longest_match s lo hi lo hi in
  i = j /\ lo <= i /\ 1 <= k /\ i + k <= hi.
Proof.
  intros Hlo Hhi.
  pose proof (find_longest_match_in_window s lo hi lo hi ltac:(lia) ltac:(lia)) as Hwin.
  unfold find_longest_match in *.
  pose proof (longest_junk_free_diagonal lo hi ltac:(lia) Hhi) as H0.
  set (x0 := longest_junk_free s lo hi lo hi) in *.
  set (x1 := extend_back s false lo lo (back_fuel lo x0) x0) in *.
  set (x2 := extend_forward s false hi hi (forward_fuel hi x1) x1) in *.
  set (x3 := extend_back s true lo lo (back_fuel lo x2) x2) in *.
  set (x4 := extend_forward s true hi hi (forward_fuel hi x3) x3) in *.
  assert (Hd0 : fst (fst x0) = snd (fst x0)).
  { destruct x0 as [[i j] k]. cbn. tauto. }
  destruct (extend_back_diagonal false lo (back_fuel lo x0) x0 Hd0) as [Hd1 Hs1].
  fold x1 in Hd1, Hs1.
  destruct (extend_forward_diagonal false hi (forward_fuel hi x1) x1 Hd1) as [Hd2 Hs2].
  fold x2 in Hd2, Hs2.
  destruct (extend_back_diagonal true lo (back_fuel lo x2) x2 Hd2) as [Hd3 Hs3].
  fold x3 in Hd3, Hs3.
  destruct (extend_forward_diagonal true hi (forward_fuel hi x3) x3 Hd3) as [Hd4 Hs4].
  fold x4 in Hd4, Hs4.
  assert (Hsize : 1 <= size x4).
  { destruct (Z_le_gt_dec 1 (size x0)) as [|Hzero]; [lia|].
    assert (Hx0 : x0 = (lo, lo, 0)).
    { destruct x0 as [[i j] k]. cbn [size snd] in Hzero.
      destruct H0 as (-> & ? & ? & ? & Hk). assert (k = 0) as -> by lia.
      now rewrite (Hk eq_refl). }
    assert (Hx1 : x1 = (lo, lo, 0)).
    { unfold x1. rewrite Hx0. unfold back_fuel. cbn [fst].
      replace (Z.to_nat (lo - lo)) with O by lia. reflexivity. }
    destruct (isbjunk s (item l lo)) eqn:Hjunk.
    - assert (Hx2 : x2 = (lo, lo, 0)).
      { unfold x2. rewrite Hx1. unfold forward_fuel. cbn [fst snd].
        destruct (Z.to_nat (hi - (lo + 0))); [reflexivity|]. cbn [extend_forward].
        replace (lo + 0) with lo by lia. change (b s) with l. rewrite Hjunk.
        cbn [Bool.eqb]. now rewrite !andb_false_r. }
      assert (Hx3 : x3 = (lo, lo, 0)).
      { unfold x3. rewrite Hx2. unfold back_fuel. cbn [fst].
        replace (Z.to_nat (lo - lo)) with O by lia. reflexivity. }
      unfold x4. rewrite Hx3. apply extend_forward_first; [lia | exact Hjunk].
    - assert (1 <= size x2); [|lia].
      unfold x2. rewrite Hx1. apply extend_forward_first; [lia | exact Hjunk]. }
  destruct x4 as [[i j] k]. cbn [fst snd size] in *. unfold in_window in Hwin. lia.
Qed.

Lemma diagonal_queue_ok (n : Z) (queue : list (Z * Z * Z * Z)) :
  diagonal_queue n queue -> queue_ok queue.
Proof.
  unfold diagonal_queue, queue_ok.
  induction 1 as [|[[[alo ahi] blo] bhi] q Hq _ IH]; constructor; [lia | exact IH].
Qed.

Lemma matching_blocks_loop_diagonal (fuel : nat) (queue : list (Z * Z * Z * Z))
    (acc : list block) :
  diagonal_queue (len l) queue ->
  queue_weight queue < Z.of_nat fuel ->
  exists res,
    matching_blocks_loop s fuel queue acc = Some res
    /\ total_size res = total_size acc + queue_span_a queue.
Proof.
  revert queue acc. induction fuel as [|fuel IH]; intros queue acc Hok Hw.
  - pose proof (queue_weight_nonneg queue (diagonal_queue_ok _ _ Hok)). lia.
  - destruct queue as [|[[[alo ahi] blo] bhi] queue].
    + exists acc. cbn. split; [reflexivity | lia].
    + inversion Hok as [|? ? Hq Hok']; subst. cbn in Hq.
      destruct Hq as (<- & <- & Ha & Hn).
      cbn [matching_blocks_loop].
      cbn [queue_weight queue_span_a map fold_right] in *.
      fold (queue_weight queue) in *. fold (queue_span_a queue).
      destruct (Z.eq_dec alo ahi) as [Hempty|Hne].
      * pose proof (find_longest_match_in_window s alo ahi alo ahi ltac:(lia) ltac:(lia))
          as Hwin.
        destruct (find_longest_match s alo ahi alo ahi) as [[i j] k]. cbn in Hwin.
        assert (k = 0) as -> by lia. cbn [Z.eqb].
        destruct (IH queue acc Hok') as (res & Hres & H1); [lia|].
        exists res. split; [exact Hres | lia].
      * pose proof (find_longest_match_diagonal alo ahi ltac:(lia) Hn) as Hd.
        destruct (find_longest_match s alo ahi alo ahi) as [[i j] k].
        destruct Hd as (<- & Hi & Hk & Hik).
        destruct (Z.eqb_spec k 0) as [|_]; [lia|].
        set (q1 := if (alo <? i) && (alo <? i) then (alo, i, alo, i) :: queue else queue).
        set (q2 := if (i + k <? ahi) && (i + k <? ahi) then (i + k, ahi, i + k, ahi) :: q1
                   else q1).
        assert (H1 : diagonal_queue (len l) q1
                     /\ queue_weight q1 <= queue_weight queue + 2 * (i - alo) + 1
                     /\ queue_span_a q1 = queue_span_a queue + (i - alo)).
        { unfold q1. destruct (Z.ltb_spec alo i); cbn [andb].
          - split; [constructor; [lia | assumption]|]. cbn.
            fold (queue_weight queue). fold (queue_span_a queue). lia.
          - split; [assumption | lia]. }
        destruct H1 as (Hok1 & Hw1 & Ha1).
        assert (H2 : diagonal_queue (len l) q2
                     /\ queue_weight q2 <= queue_weight q1 + 2 * (ahi - (i + k)) + 1
                     /\ queue_span_a q2 = queue_span_a q1 + (ahi - (i + k))).
        { unfold q2. destruct (Z.ltb_spec (i + k) ahi); cbn [andb].
          - split; [constructor; [lia | assumption]|]. cbn.
            fold (queue_weight q1). fold (queue_span_a q1). lia.
          - split; [assumption | lia]. }
        destruct H2 as (Hok2 & Hw2 & Ha2).
        destruct (IH q2 (acc ++ [(i, i, k)]) Hok2) as (res & Hres & R1); [lia|].
        exists res. rewrite total_size_app, total_size_cons in R1.
        cbn [snd size] in R1. change (total_size []) with 0 in R1.
        split; [exact Hres | lia].
Qed.

(** Every element of a text compared with itself is matched. *)
Lemma matches_of_self : total_size (get_matching_blocks s) = len l.
Proof.
  unfold get_matching_blocks, raw_matching_blocks. change (a s) with l. change (b s) with l.
  destruct (matching_blocks_loop_diagonal (loop_fuel s) [(0, len l, 0, len l)] [])
    as (res & Hres & Htotal).
  - constructor; [|constructor]. unfold len. lia.
  - unfold loop_fuel, len. change (a s) with l. cbn. lia.
  - rewrite Hres, collapse_total.
    rewrite (total_size_Permutation _ res) by apply merge_sort_Permutation.
    rewrite Htotal. cbn. lia.
Qed.

End DiagonalMatch.

End SelfMatchFacts.

(** ** The match of a text with itself *)

Lemma self_ratio_is_one (junk : ascii -> bool) (l : list ascii) :
  (SequenceMatcher.ratio (SequenceMatcher.init junk l l) == 1)%Q
  /\ (SequenceMatcher.real_quick_ratio (SequenceMatcher.init junk l l) == 1)%Q.
Proof.
  unfold SequenceMatcher.ratio, SequenceMatcher.real_quick_ratio,
    SequenceMatcher._calculate_ratio.
  pose proof (SelfMatchFacts.matches_of_self junk l) as Hm.
  unfold MatcherInvariants.total_size in Hm. cbv zeta in Hm. rewrite Hm.
  cbn [SequenceMatcher.init SequenceMatcher.a SequenceMatcher.b].
  rewrite Z.min_id.
  destruct (Z.eqb_spec (SequenceMatcher.len l + SequenceMatcher.len l) 0) as [_|Hne].
  - split; reflexivity.
  - assert (Hpos : 0 < SequenceMatcher.len l + SequenceMatcher.len l).
    { unfold SequenceMatcher.len in *. lia. }
    unfold Qeq. cbn [Qnum Qden]. rewrite Z2Pos.id by exact Hpos. split; lia.
Qed.

Lemma throw_location_of_self (a : string) :
  matches_exception_throw_location a a
  = match first_line_caused_by_from_printed_stacktrace a with
    | Ok _ => Ok true
    | Raise e => Raise e
    end.
Proof.
  unfold matches_exception_throw_location.
  destruct (first_line_caused_by_from_printed_stacktrace a); cbn; [|reflexivity].
  now rewrite String.eqb_refl.
Qed.

(** The match of a printed stacktrace with itself: the exact ratio is 1,
    and the match is true as soon as the throw location of the text can be
    computed; otherwise the match raises what the extractor raises. *)
Theorem self_match_is_true_when_throw_location_exists (a : string) :
  (exact_ratio a a == 1)%Q
  /\ (forall fingerprint,
         first_line_caused_by_from_printed_stacktrace a = Ok fingerprint ->
         is_match a a = Ok true)
  /\ (first_line_caused_by_from_printed_stacktrace a = Raise IndexError ->
      is_match a a = Raise IndexError).
Proof.
  destruct (self_ratio_is_one isjunk (list_ascii_of_string a)) as [Hratio Hquick].
  assert (Hmatch : is_match a a = matches_exception_throw_location a a).
  { rewrite is_match_ungated. unfold ungated_match, exact_ratio, Qgtb.
    rewrite Hratio. reflexivity. }
  split; [exact Hratio|].
  rewrite Hmatch, throw_location_of_self.
  split; [intros fingerprint ->; reflexivity | intros ->; reflexivity].
Qed.

Lemma self_match_is_true_when_throw_location_exists_witness :
  first_line_caused_by_from_printed_stacktrace (get_stacktrace_from_message report_nested)
  = Ok (tab ++ "at svc.Db.run(Db.java")
  /\ is_match (get_stacktrace_from_message report_nested)
       (get_stacktrace_from_message report_nested) = Ok true.
Proof.
  assert (H : first_line_caused_by_from_printed_stacktrace
                (get_stacktrace_from_message report_nested)
              = Ok (tab ++ "at svc.Db.run(Db.java")) by reflexivity.
  split; [exact H|].
  exact (proj1 (proj2 (self_match_is_true_when_throw_location_exists
                         (get_stacktrace_from_message report_nested))) _ H).
Defined.

(** * The service as a whole *)

(** ** Splitting a text at a marker *)

Lemma prefix_cons (a b : ascii) (u v : string) :
  String.prefix (String a u) (String b v) = true <-> a = b /\ String.prefix u v = true.
Proof.
  cbn [String.prefix]. destruct (ascii_dec a b) as [Heq|Hne].
  - split; [intros H; now split | intros [_ H]; exact H].
  - split; [intros H; discriminate H | intros [H _]; contradiction].
Qed.

Lemma prefix_app_split (u v t : string) :
  String.prefix u (v ++ t) = true ->
  String.prefix u v = true
  \/ exists u2, u = v ++ u2 /\ u2 <> "" /\ String.prefix u2 t = true.
Proof.
  revert v. induction u as [|a u IH]; intros v H; [left; now destruct v|].
  destruct v as [|b v].
  - right. exists (String a u). repeat split; [discriminate | exact H].
  - change (String b v ++ t) with (String b (v ++ t)) in H.
    apply prefix_cons in H as [-> H]. destruct (IH v H) as [Hp | (u2 & -> & Hne & Hp)].
    + left. now apply prefix_cons.
    + right. exists u2. auto.
Qed.

Lemma tail_chars_app (v u2 : string) (c : ascii) (u2' : string) :
  v <> "" -> u2 = String c u2' -> In c (tail_chars (v ++ u2)).
Proof.
  intros Hv ->. destruct v as [|a v]; [congruence|].
  change (String a v ++ String c u2') with (String a (v ++ String c u2')).
  cbn [tail_chars]. clear Hv. induction v as [|b v IH].
  - change (In c (c :: list_ascii_of_string u2')). now left.
  - change (In c (b :: list_ascii_of_string (v ++ String c u2'))). right. exact IH.
Qed.

(** After a text in which the separator does not start, the separator does
    not start either when the text goes on with a character that the
    separator has only in the first place, or with none. *)
Lemma prefix_blocked (sep v t : string) :
  v <> "" -> String.prefix sep v = false ->
  match t with
  | EmptyString => sep <> ""
  | String c0 _ => ~ In c0 (tail_chars sep)
  end ->
  String.prefix sep (v ++ t) = false.
Proof.
  intros Hv Hp Ht. destruct (String.prefix sep (v ++ t)) eqn:H; [|reflexivity].
  apply prefix_app_split in H as [H | (u2 & Hsep & Hne & H)]; [congruence|].
  exfalso. destruct u2 as [|c u2']; [congruence|]. destruct t as [|c0 t'].
  - discriminate H.
  - apply prefix_cons in H as [-> _]. apply Ht. rewrite Hsep.
    now apply tail_chars_app with u2'.
Qed.

Lemma str_contains_tail (sep : string) (c : ascii) (s : string) :
  str_contains sep (String c s) = false ->
  String.prefix sep (String c s) = false /\ str_contains sep s = false.
Proof. cbn [str_contains]. apply orb_false_elim. Qed.

Lemma str_contains_app (sep s t : string) :
  str_contains sep s = false -> str_contains sep t = false ->
  match t with
  | EmptyString => True
  | String c0 _ => ~ In c0 (tail_chars sep)
  end ->
  str_contains sep (s ++ t) = false.
Proof.
  intros Hs Ht Hc. induction s as [|c s IH]; [exact Ht|].
  apply str_contains_tail in Hs as [Hp Hs].
  change (String c s ++ t) with (String c (s ++ t)). cbn [str_contains].
  rewrite (IH Hs), orb_false_r.
  change (String c (s ++ t)) with (String c s ++ t).
  apply prefix_blocked; [discriminate | exact Hp|].
  destruct t; [|exact Hc]. intros ->. destruct s; discriminate Hp.
Qed.

Section Split.

Variable sep : string.
Hypothesis sep_unbordered : unbordered sep.

Lemma sep_prefix_refl (rest : string) : String.prefix sep (sep ++ rest) = true.
Proof.
  clear sep_unbordered. induction sep as [|c s IH]; [now destruct rest|].
  change (String c s ++ rest) with (String c (s ++ rest)). now apply prefix_cons.
Qed.

Lemma split_from_skip (x rest cur : string) :
  Py.split_from sep (x ++ rest) (String.length x) cur = Py.split_from sep rest O cur.
Proof.
  induction x as [|c x IH]; [reflexivity|].
  change (String c x ++ rest) with (String c (x ++ rest)). cbn [String.length Py.split_from].
  exact IH.
Qed.

Lemma split_from_no_marker (d cur : string) :
  str_contains sep d = false -> Py.split_from sep d O cur = [cur ++ d].
Proof.
  revert cur. induction d as [|c d IH]; intros cur Hd.
  - cbn. now rewrite append_nil_r.
  - apply str_contains_tail in Hd as [Hp Hd]. cbn [Py.split_from]. rewrite Hp, (IH _ Hd).
    now rewrite append_assoc.
Qed.

Lemma split_from_marker (p rest cur : string) :
  str_contains sep p = false ->
  Py.split_from sep (p ++ sep ++ rest) O cur = (cur ++ p) :: Py.split_from sep rest O "".
Proof.
  revert cur. induction p as [|c p IH]; intros cur Hp.
  - change ("" ++ sep ++ rest) with (sep ++ rest). rewrite append_nil_r.
    pose proof (sep_prefix_refl rest) as Hpre. unfold unbordered in sep_unbordered.
    destruct sep as [|c0 sep'] eqn:Hsep; [contradiction|].
    change (String c0 sep' ++ rest) with (String c0 (sep' ++ rest)) in *.
    cbn [Py.split_from]. rewrite Hpre. f_equal. cbn [String.length].
    replace (S (String.length sep') - 1)%nat with (String.length sep') by lia.
    rewrite <- Hsep. apply split_from_skip.
  - pose proof Hp as Hp'. apply str_contains_tail in Hp' as [Hpre Hp'].
    change (String c p ++ sep ++ rest) with (String c (p ++ sep ++ rest)).
    cbn [Py.split_from].
    change (String c (p ++ sep ++ rest)) with (String c p ++ (sep ++ rest)).
    rewrite prefix_blocked.
    + rewrite (IH _ Hp'). now rewrite append_assoc.
    + discriminate.
    + exact Hpre.
    + unfold unbordered in sep_unbordered. destruct sep as [|c0 sep']; [contradiction|].
      exact sep_unbordered.
Qed.

End Split.


(** ** The stacktrace embedded in a description *)

Lemma noformat_unbordered : unbordered noformat.
Proof. cbn. intros H. repeat (destruct H as [H|H]; [discriminate H|]). exact H. Qed.

Lemma split_from_length (sep s : string) (skip : nat) (cur : string) :
  (1 <= length (Py.split_from sep s skip cur))%nat.
Proof.
  revert skip cur. induction s as [|c s IH]; intros skip cur; [cbn; lia|].
  cbn [Py.split_from]. destruct skip; [|apply IH].
  destruct (String.prefix sep (String c s)); [cbn [length]; lia | apply IH].
Qed.

Lemma str_contains_skip (c0 : ascii) (sep' u x : string) :
  string_forall (fun c => negb (Ascii.eqb c c0)) u = true ->
  str_contains (String c0 sep') (u ++ x) = str_contains (String c0 sep') x.
Proof.
  intros Hu. induction u as [|c u IH]; [reflexivity|].
  cbn [string_forall] in Hu. apply andb_prop in Hu as [Hc Hu].
  change (String c u ++ x) with (String c (u ++ x)). cbn [str_contains String.prefix].
  destruct (ascii_dec c0 c) as [->|_]; [now rewrite Ascii.eqb_refl in Hc|].
  now rewrite (IH Hu).
Qed.

Lemma marked_text_is_read_back (i : issue) (head text rest : string) :
  description i = head ++ noformat ++ text ++ noformat ++ rest ->
  str_contains noformat head = false ->
  str_contains noformat text = false ->
  get_stacktrace_from_issue i = text.
Proof.
  intros Hd Hhead Htext. unfold get_stacktrace_from_issue, Py.split. rewrite Hd.
  fold noformat.
  rewrite (split_from_marker noformat noformat_unbordered head _ "" Hhead).
  rewrite (split_from_marker noformat noformat_unbordered text _ "" Htext).
  pose proof (split_from_length noformat rest O "") as Hlen.
  cbn [length nth].
  destruct (Z.leb_spec 3 (Z.of_nat (S (S (length (Py.split_from noformat rest O ""))))));
    [reflexivity | lia].
Qed.

(** X1. A description of the form head, marker, text, marker, tail, where
    the marker occurs neither in the head nor in the text, gives back the
    text. *)
Theorem stacktrace_between_markers_is_read_back (i : issue) (head text rest : string) :
  description i = head ++ noformat ++ text ++ noformat ++ rest ->
  str_contains noformat head = false ->
  str_contains noformat text = false ->
  get_stacktrace_from_issue i = text.
Proof. apply marked_text_is_read_back. Qed.

Lemma stacktrace_between_markers_is_read_back_witness :
  description (issue_with "K-1" "Caused by: x") = "Stacktrace:" ++ newline ++ noformat
     ++ "Caused by: x" ++ noformat ++ ""
  /\ str_contains noformat ("Stacktrace:" ++ newline) = false
  /\ str_contains noformat "Caused by: x" = false
  /\ get_stacktrace_from_issue (issue_with "K-1" "Caused by: x") = "Caused by: x".
Proof.
  split; [reflexivity|]. split; [reflexivity|]. split; [reflexivity|].
  apply (stacktrace_between_markers_is_read_back (issue_with "K-1" "Caused by: x")
           ("Stacktrace:" ++ newline) "Caused by: x" ""); reflexivity.
Defined.

Lemma filed_description_head (summary details : string) :
  str_contains noformat summary = false ->
  str_contains noformat details = false ->
  str_contains noformat
    (summary ++ newline ++ newline ++ "Details:" ++ newline ++ details ++ newline ++ newline
     ++ "Stacktrace:" ++ newline) = false.
Proof.
  intros Hs Hd. apply str_contains_app; [exact Hs | |].
  - change (newline ++ newline ++ "Details:" ++ newline ++ details ++ newline ++ newline
            ++ "Stacktrace:" ++ newline)
      with ((newline ++ newline ++ "Details:" ++ newline)
            ++ (details ++ newline ++ newline ++ "Stacktrace:" ++ newline)).
    unfold noformat. rewrite str_contains_skip by reflexivity.
    apply str_contains_app; [exact Hd | reflexivity |].
    cbn. intros H. repeat (destruct H as [H|H]; [discriminate H|]). exact H.
  - cbn. intros H. repeat (destruct H as [H|H]; [discriminate H|]). exact H.
Qed.

Lemma filed_description_shape (summary details stacktrace : string) :
  filed_description summary details stacktrace
  = (summary ++ newline ++ newline ++ "Details:" ++ newline ++ details ++ newline ++ newline
     ++ "Stacktrace:" ++ newline) ++ noformat ++ stacktrace ++ noformat ++ "".
Proof.
  unfold filed_description, noformat. rewrite !append_assoc. reflexivity.
Qed.

(** X2. A description in which the marker does not occur, or occurs once,
    embeds no stacktrace: the text read from it is empty. *)
Theorem description_without_two_markers_has_no_stacktrace (i : issue) :
  (str_contains noformat (description i) = false -> get_stacktrace_from_issue i = "")
  /\ (forall head rest,
         description i = head ++ noformat ++ rest ->
         str_contains noformat head = false ->
         str_contains noformat rest = false ->
         get_stacktrace_from_issue i = "").
Proof.
  split.
  - intros Hd. unfold get_stacktrace_from_issue, Py.split. fold noformat.
    now rewrite (split_from_no_marker noformat _ "" Hd).
  - intros head rest Hd Hhead Hrest. unfold get_stacktrace_from_issue, Py.split.
    fold noformat. rewrite Hd.
    rewrite (split_from_marker noformat noformat_unbordered head _ "" Hhead).
    now rewrite (split_from_no_marker noformat _ "" Hrest).
Qed.

Lemma description_without_two_markers_has_no_stacktrace_witness :
  str_contains noformat (description (issue_with "K-1" "text")) = true
  /\ str_contains noformat "Seen on host h1" = false
  /\ get_stacktrace_from_issue
       {| key := "K-2"; status_name := "Open"; environment := None;
          description := "Seen on host h1" |} = "".
Proof.
  split; [reflexivity|]. split; [reflexivity|].
  apply (proj1 (description_without_two_markers_has_no_stacktrace
                  {| key := "K-2"; status_name := "Open"; environment := None;
                     description := "Seen on host h1" |})).
  reflexivity.
Defined.

Lemma add_to_jira_sends (jira : world -> request -> response) (summary details stacktrace : string)
    (w : world) :
  snd (add_to_jira jira summary details stacktrace w)
  = Create ("HaMIS Exception: " ++ summary) (filed_description summary details stacktrace) :: w.
Proof.
  unfold add_to_jira, io_bind, send, filed_description.
  destruct (negb (status_code (jira w _) =? 201)); reflexivity.
Qed.

(** X3. What [add_to_jira] files is read back by
    [get_stacktrace_from_issue]: when the marker occurs neither in the
    summary, nor in the details, nor in the stacktrace, the one request that
    [add_to_jira] sends creates an issue whose description gives back the
    stacktrace. *)
Theorem filed_stacktrace_is_read_back (jira : world -> request -> response)
    (summary details stacktrace : string) (w : world) :
  str_contains noformat summary = false ->
  str_contains noformat details = false ->
  str_contains noformat stacktrace = false ->
  exists title text,
    snd (add_to_jira jira summary details stacktrace w) = Create title text :: w
    /\ forall i, description i = text -> get_stacktrace_from_issue i = stacktrace.
Proof.
  intros Hs Hd Hst. exists ("HaMIS Exception: " ++ summary),
    (filed_description summary details stacktrace).
  split; [apply add_to_jira_sends|]. intros i Hi.
  eapply marked_text_is_read_back.
  - rewrite Hi. apply filed_description_shape.
  - now apply filed_description_head.
  - exact Hst.
Qed.

Lemma filed_stacktrace_is_read_back_witness :
  str_contains noformat "root" = false
  /\ str_contains noformat (create_details_string_from_json report_nested) = false
  /\ str_contains noformat (get_stacktrace_from_message report_nested) = false
  /\ exists title text,
       snd (add_to_jira recording_jira "root" (create_details_string_from_json report_nested)
              (get_stacktrace_from_message report_nested) [])
       = [Create title text]
       /\ forall i, description i = text ->
                    get_stacktrace_from_issue i = get_stacktrace_from_message report_nested.
Proof.
  split; [reflexivity|]. split; [reflexivity|]. split; [reflexivity|].
  apply (filed_stacktrace_is_read_back recording_jira "root"
           (create_details_string_from_json report_nested)
           (get_stacktrace_from_message report_nested) []); reflexivity.
Defined.

Lemma find_existing_jira_issues_single_page (jira : world -> request -> response)
    (depth : nat) (exception_summary : string) (w : world) :
  status_code (jira w (Search (sanitize_jql_query exception_summary) 0)) = 200 ->
  total (jira w (Search (sanitize_jql_query exception_summary) 0))
  <= maxResults (jira w (Search (sanitize_jql_query exception_summary) 0)) ->
  find_existing_jira_issues jira (S depth) exception_summary 0 w
  = (Ok (issues (jira w (Search (sanitize_jql_query exception_summary) 0))),
     Search (sanitize_jql_query exception_summary) 0 :: w).
Proof.
  intros Hstatus Htotal. cbn [find_existing_jira_issues]. unfold io_bind, send.
  rewrite Hstatus. change (negb (200 =? 200)) with false. cbv iota.
  destruct (Z.ltb_spec (0 + maxResults (jira w (Search (sanitize_jql_query exception_summary) 0)))
              (total (jira w (Search (sanitize_jql_query exception_summary) 0)))); [lia|].
  reflexivity.
Qed.

(** X4. A report is recognised in the issue that was filed for it: when the
    throw location of its printed stacktrace can be computed, the marker
    occurs in none of the texts filed, and the search answers with one page
    whose first issue carries the description that [add_to_jira] writes for
    the report, the engine decides [Duplicate] with that issue. *)
Theorem report_is_duplicate_of_its_issue (jira : world -> request -> response) (depth : nat)
    (data : json_data) (summary fingerprint : string) (i : issue) (more : list issue)
    (w : world) :
  get_summary_from_message data = Ok summary ->
  first_line_caused_by_from_printed_stacktrace (get_stacktrace_from_message data)
  = Ok fingerprint ->
  str_contains noformat summary = false ->
  str_contains noformat (create_details_string_from_json data) = false ->
  str_contains noformat (get_stacktrace_from_message data) = false ->
  status_code (jira w (Search (sanitize_jql_query summary) 0)) = 200 ->
  total (jira w (Search (sanitize_jql_query summary) 0))
  <= maxResults (jira w (Search (sanitize_jql_query summary) 0)) ->
  issues (jira w (Search (sanitize_jql_query summary) 0)) = i :: more ->
  description i = filed_description summary (create_details_string_from_json data)
                    (get_stacktrace_from_message data) ->
  determine_if_duplicate jira (S depth) data w
  = (Ok (Duplicate (key i) (status_name i) (environment i)),
     Search (sanitize_jql_query summary) 0 :: w).
Proof.
  intros Hsummary Hfp Hs Hd Hst Hstatus Htotal Hissues Hdesc.
  unfold determine_if_duplicate, io_bind, io_lift. rewrite Hsummary.
  rewrite (find_existing_jira_issues_single_page jira depth summary w Hstatus Htotal).
  rewrite Hissues. cbn [scan_issues].
  assert (Hread : get_stacktrace_from_issue i = get_stacktrace_from_message data).
  { eapply marked_text_is_read_back.
    - rewrite Hdesc. apply filed_description_shape.
    - now apply filed_description_head.
    - exact Hst. }
  rewrite Hread.
  rewrite (proj1 (proj2 (self_match_is_true_when_throw_location_exists
                           (get_stacktrace_from_message data))) fingerprint Hfp).
  reflexivity.
Qed.

Lemma report_is_duplicate_of_its_issue_witness :
  let w := snd (add_jira_exception recording_jira "then" 9 report_nested []) in
  fst (add_jira_exception recording_jira "then" 9 report_nested [])
  = Ok ("Jira issue added: HAMISTIRF-1", 201)
  /\ first_line_caused_by_from_printed_stacktrace (get_stacktrace_from_message report_nested)
     = Ok (tab ++ "at svc.Db.run(Db.java")
  /\ determine_if_duplicate recording_jira 9 report_nested w
     = (Ok (Duplicate "HAMISTIRF-1" "Open" None), Search (sanitize_jql_query "root") 0 :: w).
Proof.
  cbv zeta. split; [reflexivity|]. split; [reflexivity|].
  apply (report_is_duplicate_of_its_issue recording_jira 8 report_nested "root"
           (tab ++ "at svc.Db.run(Db.java")
           {| key := "HAMISTIRF-1"; status_name := "Open"; environment := None;
              description := filed_description "root"
                               (create_details_string_from_json report_nested)
                               (get_stacktrace_from_message report_nested) |} []);
    try reflexivity.
  vm_compute. discriminate.
Defined.


(** ** The lengths of matched texts, and the counter *)

Lemma len_list_ascii_of_string (s : string) :
  SequenceMatcher.len (list_ascii_of_string s) = text_length s.
Proof.
  unfold SequenceMatcher.len, text_length. f_equal.
  induction s as [|c s IH]; cbn [list_ascii_of_string length String.length]; congruence.
Qed.

Lemma quick_estimate_value (a b : string) :
  quick_estimate a b
  = SequenceMatcher._calculate_ratio (Z.min (text_length a) (text_length b))
      (text_length a + text_length b).
Proof.
  unfold quick_estimate, SequenceMatcher.real_quick_ratio.
  cbn [SequenceMatcher.init SequenceMatcher.a SequenceMatcher.b].
  now rewrite !len_list_ascii_of_string.
Qed.

Lemma gate_rejects_distant_lengths (a b : string) :
  0 < Z.max (text_length a) (text_length b) ->
  7 * Z.min (text_length a) (text_length b) <= 3 * Z.max (text_length a) (text_length b) ->
  match_ratio a b = 0%Q /\ is_match a b = Ok false.
Proof.
  intros Hpos Hfar.
  assert (Hgate : Qgtb (quick_estimate a b) (6 # 10) = false).
  { rewrite quick_estimate_value. unfold SequenceMatcher._calculate_ratio, Qgtb, Qle_bool.
    unfold text_length in *.
    destruct (Z.eqb_spec (Z.of_nat (String.length a) + Z.of_nat (String.length b)) 0) as [|Hne];
      [lia|].
    cbn [Qnum Qden]. apply negb_false_iff, Z.leb_le. rewrite Z2Pos.id by lia. lia. }
  unfold quick_estimate in Hgate. unfold is_match, match_ratio. rewrite Hgate.
  split; reflexivity.
Qed.

(** X5. Two texts of which one is not empty and the shorter has at most
    3/7 of the length of the longer are never matched: the test answers False
    without computing the exact ratio or a throw location, so it cannot
    raise. *)
Theorem texts_of_distant_lengths_do_not_match (a b : string) :
  0 < Z.max (text_length a) (text_length b) ->
  7 * Z.min (text_length a) (text_length b) <= 3 * Z.max (text_length a) (text_length b) ->
  match_ratio a b = 0%Q /\ is_match a b = Ok false.
Proof. apply gate_rejects_distant_lengths. Qed.

Lemma texts_of_distant_lengths_do_not_match_witness :
  0 < Z.max (text_length "Caused by: a long message") (text_length "short")
  /\ is_match "Caused by: a long message" "short" = Ok false.
Proof.
  split; [reflexivity|].
  apply (texts_of_distant_lengths_do_not_match "Caused by: a long message" "short").
  - reflexivity.
  - vm_compute. discriminate.
Defined.

Lemma empty_text_has_no_throw_location :
  first_line_caused_by_from_printed_stacktrace "" = Raise IndexError.
Proof. reflexivity. Qed.

(** X6. Two texts that are matched have close lengths: 19 times the
    longer length is less than 21 times the shorter. *)
Theorem matched_texts_have_close_lengths (a b : string) :
  is_match a b = Ok true ->
  19 * Z.max (text_length a) (text_length b) < 21 * Z.min (text_length a) (text_length b).
Proof.
  intros Hmatch. rewrite is_match_ungated in Hmatch. unfold ungated_match in Hmatch.
  destruct (Qgtb (exact_ratio a b) (95 # 100)) eqn:Hratio; [|discriminate Hmatch].
  unfold exact_ratio, SequenceMatcher.ratio, SequenceMatcher._calculate_ratio, Qgtb, Qle_bool
    in Hratio.
  pose proof (SequenceMatcherFacts.matches_bounds
                (SequenceMatcher.init isjunk (list_ascii_of_string a) (list_ascii_of_string b)))
    as Hm.
  unfold MatcherInvariants.total_size in Hm.
  cbn [SequenceMatcher.init SequenceMatcher.a SequenceMatcher.b] in Hm, Hratio.
  rewrite !len_list_ascii_of_string in Hm, Hratio. unfold text_length in *.
  destruct (Z.eqb_spec (Z.of_nat (String.length a) + Z.of_nat (String.length b)) 0)
    as [Hzero|Hne].
  - exfalso. destruct a; [|cbn [String.length] in Hzero; lia].
    unfold matches_exception_throw_location in Hmatch.
    rewrite empty_text_has_no_throw_location in Hmatch. discriminate Hmatch.
  - cbn [Qnum Qden] in Hratio. apply negb_true_iff, Z.leb_gt in Hratio.
    rewrite Z2Pos.id in Hratio by lia. lia.
Qed.

Lemma matched_texts_have_close_lengths_witness :
  is_match (get_stacktrace_from_message report_diet) (get_stacktrace_from_message report_tide)
  = Ok true
  /\ 19 * Z.max (text_length (get_stacktrace_from_message report_diet))
            (text_length (get_stacktrace_from_message report_tide))
     < 21 * Z.min (text_length (get_stacktrace_from_message report_diet))
              (text_length (get_stacktrace_from_message report_tide)).
Proof.
  assert (H : is_match (get_stacktrace_from_message report_diet)
                (get_stacktrace_from_message report_tide) = Ok true)
    by (vm_compute; reflexivity).
  split; [exact H|]. exact (matched_texts_have_close_lengths _ _ H).
Defined.

Lemma printed_stacktrace_starts (data : json_data) (t : trace) (ts : list trace) :
  stacktrace data = t :: ts ->
  exists rest, get_stacktrace_from_message data = "Caused by: " ++ message t ++ newline ++ rest.
Proof.
  intros Hst. unfold get_stacktrace_from_message. rewrite write_frames, Hst.
  cbn [map]. rewrite concat_nil_cons. unfold spec_frame.
  eexists. change ("" ++ ?x) with x. rewrite !append_assoc. reflexivity.
Qed.

(** X7. For a report with at least one causal frame, a candidate that
    embeds no stacktrace is passed over: it is not matched, its throw
    location is not computed, and the scan goes on with the next
    candidate. *)
Theorem candidate_without_stacktrace_is_skipped (data : json_data) (i : issue)
    (later : list issue) :
  stacktrace data <> [] ->
  get_stacktrace_from_issue i = "" ->
  is_match (get_stacktrace_from_message data) (get_stacktrace_from_issue i) = Ok false
  /\ scan_issues (get_stacktrace_from_message data) (i :: later)
     = scan_issues (get_stacktrace_from_message data) later.
Proof.
  intros Hframes Hnone.
  assert (Hskip : is_match (get_stacktrace_from_message data) (get_stacktrace_from_issue i)
                  = Ok false).
  { rewrite Hnone. destruct (stacktrace data) as [|t ts] eqn:Hst; [congruence|].
    destruct (printed_stacktrace_starts data t ts Hst) as [rest ->].
    assert (Hlen : 0 < text_length ("Caused by: " ++ message t ++ newline ++ rest)).
    { unfold text_length.
      change ("Caused by: " ++ message t ++ newline ++ rest)
        with (String "C" ("aused by: " ++ message t ++ newline ++ rest)).
      cbn [String.length]. lia. }
    apply gate_rejects_distant_lengths;
      change (text_length "") with 0; lia. }
  split; [exact Hskip|]. cbn [scan_issues]. now rewrite Hskip.
Qed.

Lemma candidate_without_stacktrace_is_skipped_witness :
  stacktrace report_bare <> []
  /\ get_stacktrace_from_issue
       {| key := "K-2"; status_name := "Open"; environment := None;
          description := "Seen on host h1" |} = ""
  /\ scan_issues (get_stacktrace_from_message report_bare)
       [ {| key := "K-2"; status_name := "Open"; environment := None;
            description := "Seen on host h1" |} ] = Ok New.
Proof.
  split; [discriminate|]. split; [reflexivity|].
  exact (proj2 (candidate_without_stacktrace_is_skipped report_bare
                  {| key := "K-2"; status_name := "Open"; environment := None;
                     description := "Seen on host h1" |} []
                  ltac:(discriminate) eq_refl)).
Defined.

Lemma counter_outcome (now : string) (prior : option string) :
  (exists n, 1 <= n /\ calculate_issue_occurrence_count now prior = Ok (spec_annotation n now))
  \/ (calculate_issue_occurrence_count now prior = Raise ValueError
      /\ exists text digits,
           prior = Some text
           /\ REGEX_COUNT_match text = Some digits
           /\ (Py.max_str_digits < Z.of_nat (String.length digits)
               \/ exists n, Py.int digits = Ok n /\ Py.max_str_digits < Py.digits (n + 1))).
Proof.
  destruct prior as [text|]; [|left; exists 1; split; [lia | reflexivity]].
  destruct (REGEX_COUNT_match text) as [digits|] eqn:Hm.
  - destruct (REGEX_COUNT_match_sound text digits Hm)
      as (leading & kw & ws & rest & _ & _ & _ & _ & _ & Hnd & Hds & _).
    destruct (int_of_digits digits Hnd Hds) as [Hshort Hlong].
    destruct (Z.le_gt_cases (Z.of_nat (String.length digits)) Py.max_str_digits)
      as [Hlen|Hlen].
    + destruct (Hshort Hlen) as (n & Hn & Hpos).
      destruct (Z.le_gt_cases (Py.digits (n + 1)) Py.max_str_digits) as [Hsucc|Hsucc].
      * left. exists (n + 1). split; [lia|].
        exact (calculate_issue_occurrence_count_matched now text digits n Hm Hn Hsucc).
      * right. split.
        -- exact (calculate_issue_occurrence_count_overflow now text digits n Hm Hn Hsucc).
        -- exists text, digits. split; [reflexivity|]. split; [exact Hm|]. right. now exists n.
    + right. split.
      * exact (calculate_issue_occurrence_count_unread now text digits _ Hm (Hlong Hlen)).
      * exists text, digits. split; [reflexivity|]. split; [exact Hm|]. now left.
  - left. exists 1. split; [lia|]. now apply calculate_issue_occurrence_count_unmatched.
Qed.

(** X8. The counter raises nothing but [ValueError], and only beyond the
    interpreter's limit of 4300 digits: whatever the prior annotation, absent
    or not, either it returns an annotation of the form [Count: n], line
    feed, [Last: now] with [n] at least 1, or it raises [ValueError] and the
    pattern has captured from the prior annotation more than 4300 digits, or
    digits whose value plus one has more than 4300 digits; and in both of
    these cases it does raise. *)
Theorem occurrence_counter_raises_only_beyond_the_digit_limit (now : string)
    (prior : option string) :
  ((exists n, 1 <= n
              /\ calculate_issue_occurrence_count now prior = Ok (spec_annotation n now))
   \/ (calculate_issue_occurrence_count now prior = Raise ValueError
       /\ exists text digits,
            prior = Some text
            /\ REGEX_COUNT_match text = Some digits
            /\ (Py.max_str_digits < Z.of_nat (String.length digits)
                \/ exists n, Py.int digits = Ok n
                             /\ Py.max_str_digits < Py.digits (n + 1))))
  /\ (forall text digits,
         prior = Some text ->
         REGEX_COUNT_match text = Some digits ->
         Py.max_str_digits < Z.of_nat (String.length digits)
         \/ (exists n, Py.int digits = Ok n /\ Py.max_str_digits < Py.digits (n + 1)) ->
         calculate_issue_occurrence_count now prior = Raise ValueError).
Proof.
  split; [apply counter_outcome|].
  intros text digits -> Hm [Hlen|(n & Hn & Hsucc)].
  - destruct (REGEX_COUNT_match_sound text digits Hm)
      as (leading & kw & ws & rest & _ & _ & _ & _ & _ & Hnd & Hds & _).
    destruct (int_of_digits digits Hnd Hds) as [_ Hlong].
    exact (calculate_issue_occurrence_count_unread now text digits _ Hm (Hlong Hlen)).
  - exact (calculate_issue_occurrence_count_overflow now text digits n Hm Hn Hsucc).
Qed.

Lemma occurrence_counter_raises_only_beyond_the_digit_limit_witness :
  REGEX_COUNT_match ("Count: " ++ long_count) = Some long_count
  /\ Py.max_str_digits < Z.of_nat (String.length long_count)
  /\ calculate_issue_occurrence_count "now" (Some ("Count: " ++ long_count))
     = Raise ValueError.
Proof.
  assert (Hm : REGEX_COUNT_match ("Count: " ++ long_count) = Some long_count)
    by (vm_compute; reflexivity).
  assert (Hlen : Py.max_str_digits < Z.of_nat (String.length long_count))
    by (vm_compute; reflexivity).
  split; [exact Hm|]. split; [exact Hlen|].
  apply (proj2 (occurrence_counter_raises_only_beyond_the_digit_limit "now"
                  (Some ("Count: " ++ long_count)))
           ("Count: " ++ long_count) long_count eq_refl Hm).
  left. exact Hlen.
Defined.

(** The counter on an annotation that it has written. *)
Lemma counter_on_annotation (n : Z) (before now : string) :
  0 <= n -> Py.digits n <= Py.max_str_digits ->
  calculate_issue_occurrence_count now (Some (spec_annotation n before))
  = if Py.max_str_digits <? Py.digits (n + 1) then Raise ValueError
    else Ok (spec_annotation (n + 1) now).
Proof.
  intros Hn Hlen.
  pose proof (REGEX_COUNT_match_annotation n before Hn) as Hm.
  destruct (decimal_digits n Hn) as (_ & _ & Hint). specialize (Hint Hlen).
  destruct (Z.ltb_spec Py.max_str_digits (Py.digits (n + 1))) as [Hsucc|Hsucc].
  - exact (calculate_issue_occurrence_count_overflow now _ _ n Hm Hint Hsucc).
  - exact (calculate_issue_occurrence_count_matched now _ _ n Hm Hint Hsucc).
Qed.

Lemma count_occurrences_from (later : list string) (n : Z) (before last : string) :
  0 <= n -> Py.digits n <= Py.max_str_digits ->
  count_occurrences (later ++ [last]) (Some (spec_annotation n before))
  = if Py.max_str_digits <? Py.digits (n + Z.of_nat (length later) + 1)
    then Raise ValueError
    else Ok (Some (spec_annotation (n + Z.of_nat (length later) + 1) last)).
Proof.
  revert n before. induction later as [|now later IH]; intros n before Hn Hlen.
  - cbn [app count_occurrences length]. rewrite counter_on_annotation by assumption.
    replace (n + Z.of_nat 0 + 1) with (n + 1) by lia.
    now destruct (Py.max_str_digits <? Py.digits (n + 1)).
  - cbn [app count_occurrences]. rewrite counter_on_annotation by assumption.
    replace (n + Z.of_nat (length (now :: later)) + 1)
      with (n + 1 + Z.of_nat (length later) + 1) by (cbn [length]; lia).
    destruct (Z.ltb_spec Py.max_str_digits (Py.digits (n + 1))) as [Hsucc|Hsucc].
    + cbn [result_bind].
      pose proof (digits_mono (n + 1) (n + 1 + Z.of_nat (length later) + 1)) as Hmono.
      destruct (Z.ltb_spec Py.max_str_digits
                  (Py.digits (n + 1 + Z.of_nat (length later) + 1))); [reflexivity | lia].
    + cbn [result_bind]. apply IH; lia.
Qed.

(** X9. The counter counts: starting from an issue without annotation,
    after one call for each occurrence, the annotation carries the number of
    occurrences and the time of the last one, as long as that number has at
    most 4300 digits; beyond, the counter has raised [ValueError]. *)
Theorem occurrences_are_counted (nows : list string) (last : string) :
  count_occurrences (nows ++ [last]) None
  = if Py.max_str_digits <? Py.digits (Z.of_nat (length nows) + 1) then Raise ValueError
    else Ok (Some (spec_annotation (Z.of_nat (length nows) + 1) last)).
Proof.
  destruct nows as [|now later]; [reflexivity|].
  cbn [app count_occurrences].
  change (calculate_issue_occurrence_count now None) with (Ok (spec_annotation 1 now)).
  cbn [result_bind].
  rewrite count_occurrences_from by (try lia; vm_compute; discriminate).
  replace (Z.of_nat (length (now :: later)) + 1) with (1 + Z.of_nat (length later) + 1)
    by (cbn [length]; lia).
  reflexivity.
Qed.

(** ** Throw location, summary and retrieval *)

Lemma partition_head_no_sep (sep : ascii) (s : string) :
  string_forall (fun c => negb (Ascii.eqb c sep)) (Py.partition_head sep s) = true.
Proof.
  induction s as [|c s IH]; [reflexivity|]. cbn [Py.partition_head].
  destruct (Ascii.eqb c sep) eqn:Hc; [reflexivity|]. cbn [string_forall].
  now rewrite Hc, IH.
Qed.

Lemma partition_head_prefix (sep : ascii) (s : string) :
  String.prefix (Py.partition_head sep s) s = true.
Proof.
  induction s as [|c s IH]; [reflexivity|]. cbn [Py.partition_head].
  destruct (Ascii.eqb c sep); [reflexivity|]. now apply prefix_cons.
Qed.

Lemma getitem_In {A : Type} (l : list A) (i : Z) (x : A) :
  Py.getitem l i = Ok x -> In x l.
Proof.
  unfold Py.getitem. destruct (_ || _); [discriminate|].
  destruct (nth_error l _) as [y|] eqn:Hy; [|discriminate].
  intros H. injection H as <-. now apply nth_error_In in Hy.
Qed.

(** X10. The throw location of a text: the extractor raises [IndexError]
    exactly when the text has no line or its last line is a caused-by line,
    and raises nothing else; a fingerprint that it returns contains no colon
    and is the beginning of one of the lines of the text. *)
Theorem throw_location_is_the_start_of_a_line (printed_stacktrace : string) :
  (first_line_caused_by_from_printed_stacktrace printed_stacktrace = Raise IndexError
   <-> Py.splitlines printed_stacktrace = []
       \/ REGEX_CAUSED_BY_match (List.last (Py.splitlines printed_stacktrace) "") = true)
  /\ (forall e, first_line_caused_by_from_printed_stacktrace printed_stacktrace = Raise e ->
                e = IndexError)
  /\ (forall fingerprint,
         first_line_caused_by_from_printed_stacktrace printed_stacktrace = Ok fingerprint ->
         string_forall (fun c => negb (Ascii.eqb c ":")) fingerprint = true
         /\ exists line, In line (Py.splitlines printed_stacktrace)
                         /\ String.prefix fingerprint line = true).
Proof.
  split; [apply (throw_location_raises_iff printed_stacktrace)|]. split.
  - intros e He. destruct (throw_location_ok_or_index_error printed_stacktrace) as [H|[f H]];
      congruence.
  - intros fingerprint. unfold first_line_caused_by_from_printed_stacktrace.
    destruct (Py.getitem _ _) as [line|e] eqn:Hline; [|discriminate].
    cbn [result_bind]. intros H. injection H as <-. split.
    + apply partition_head_no_sep.
    + exists line. split; [now apply getitem_In in Hline | apply partition_head_prefix].
Qed.

Lemma throw_location_is_the_start_of_a_line_witness :
  first_line_caused_by_from_printed_stacktrace (get_stacktrace_from_message report_nested)
  = Ok (tab ++ "at svc.Db.run(Db.java")
  /\ string_forall (fun c => negb (Ascii.eqb c ":")) (tab ++ "at svc.Db.run(Db.java") = true
  /\ exists line, In line (Py.splitlines (get_stacktrace_from_message report_nested))
                  /\ String.prefix (tab ++ "at svc.Db.run(Db.java") line = true.
Proof.
  split; [reflexivity|].
  exact (proj2 (proj2 (throw_location_is_the_start_of_a_line
                         (get_stacktrace_from_message report_nested))) _ eq_refl).
Defined.

(** X11. The summary of a report is the message of its last causal
    frame. *)
Theorem summary_is_message_of_last_frame (data : json_data) (outer : list trace) (t : trace) :
  stacktrace data = (outer ++ [t])%list ->
  get_summary_from_message data = Ok (message t).
Proof.
  intros Hst. unfold get_summary_from_message, Py.getitem. rewrite Hst.
  rewrite length_app. cbn [length].
  destruct (Z.ltb_spec (Z.of_nat (length outer + 1) - 1) 0) as [|_]; [lia|].
  destruct (Z.ltb_spec (Z.of_nat (length outer + 1) - 1) 0) as [|_]; [lia|].
  destruct (Z.leb_spec (Z.of_nat (length outer + 1)) (Z.of_nat (length outer + 1) - 1))
    as [|_]; [lia|].
  cbn [orb]. replace (Z.to_nat (Z.of_nat (length outer + 1) - 1)) with (length outer) by lia.
  rewrite nth_error_app2 by lia. rewrite Nat.sub_diag. reflexivity.
Qed.

Lemma summary_is_message_of_last_frame_witness :
  get_summary_from_message report_nested = Ok "root".
Proof.
  apply (summary_is_message_of_last_frame report_nested
           [ {| message := "outer";
                trace_stacktrace :=
                  [ {| className := "app.Main"; methodName := "main"; fileName := "Main.java";
                       lineNumber := 7; nativeMethod := false |};
                    {| className := "sun.Native"; methodName := "invoke0";
                       fileName := "Native.java"; lineNumber := -2; nativeMethod := true |} ] |} ]
           {| message := "root"; trace_stacktrace := [line_db] |}).
  reflexivity.
Defined.

Lemma find_existing_jira_issues_step (jira : world -> request -> response) (depth : nat)
    (exception_summary : string) (start_at : Z) (w : world) :
  find_existing_jira_issues jira (S depth) exception_summary start_at w
  = let q := Search (sanitize_jql_query exception_summary) start_at in
    let resp := jira w q in
    if negb (status_code resp =? 200) then
      (Raise (InternalError
                ("Could not query Jira issues, cancel processing issue. Resp code; "
                 ++ Py.decimal (status_code resp))), q :: w)
    else
      match (if start_at + maxResults resp <? total resp
             then find_existing_jira_issues jira depth exception_summary
                    (start_at + maxResults resp)
             else io_ret []) (q :: w) with
      | (Ok issue_list, w') => (Ok (issue_list ++ issues resp)%list, w')
      | (Raise e, w') => (Raise e, w')
      end.
Proof.
  cbn [find_existing_jira_issues]. unfold io_bind, send. cbv beta iota zeta.
  destruct (negb (status_code (jira w _) =? 200)); reflexivity.
Qed.

Lemma find_existing_jira_issues_outcome (jira : world -> request -> response) (depth : nat)
    (exception_summary : string) (start_at : Z) (w : world) :
  (exists sent,
      snd (find_existing_jira_issues jira depth exception_summary start_at w)
      = (sent ++ w)%list
      /\ (length sent <= depth)%nat
      /\ Forall (fun r => exists o, r = Search (sanitize_jql_query exception_summary) o) sent)
  /\ ((exists issue_list,
          fst (find_existing_jira_issues jira depth exception_summary start_at w)
          = Ok issue_list)
      \/ fst (find_existing_jira_issues jira depth exception_summary start_at w)
         = Raise RecursionError
      \/ exists code,
           code <> 200
           /\ fst (find_existing_jira_issues jira depth exception_summary start_at w)
              = Raise (InternalError
                         ("Could not query Jira issues, cancel processing issue. Resp code; "
                          ++ Py.decimal code))).
Proof.
  revert start_at w. induction depth as [|depth IH]; intros start_at w.
  - split; [exists []; repeat split; [cbn; lia | constructor] | right; left; reflexivity].
  - rewrite find_existing_jira_issues_step. cbv zeta.
    set (q := Search (sanitize_jql_query exception_summary) start_at).
    assert (Hq : Forall (fun r => exists o, r = Search (sanitize_jql_query exception_summary) o)
                   [q]).
    { constructor; [now exists start_at | constructor]. }
    destruct (Z.eqb_spec (status_code (jira w q)) 200) as [Hok|Hbad]; cbn [negb].
    + set (next := if start_at + maxResults (jira w q) <? total (jira w q)
                   then find_existing_jira_issues jira depth exception_summary
                          (start_at + maxResults (jira w q))
                   else io_ret []).
      assert (Hnext : (exists sent, snd (next (q :: w)) = (sent ++ q :: w)%list
                                    /\ (length sent <= depth)%nat
                                    /\ Forall (fun r => exists o,
                                                 r = Search (sanitize_jql_query
                                                               exception_summary) o) sent)
                      /\ ((exists l, fst (next (q :: w)) = Ok l)
                          \/ fst (next (q :: w)) = Raise RecursionError
                          \/ exists code,
                               code <> 200
                               /\ fst (next (q :: w))
                                  = Raise (InternalError
                                             ("Could not query Jira issues, cancel processing issue. Resp code; "
                                              ++ Py.decimal code)))).
      { unfold next. destruct (_ <? _); [apply IH|].
        split; [exists []; repeat split; [cbn; lia | constructor] | left; now exists []]. }
      destruct Hnext as [(sent & Hsent & Hlen & Hall) Hres].
      destruct (next (q :: w)) as [[l|e] w'] eqn:Hrun; cbn [fst snd] in *.
      * split.
        -- exists (sent ++ [q])%list. rewrite Hsent, <- app_assoc. repeat split.
           ++ rewrite length_app. cbn [length]. lia.
           ++ apply Forall_app. split; assumption.
        -- left. eexists. reflexivity.
      * split.
        -- exists (sent ++ [q])%list. rewrite Hsent, <- app_assoc. repeat split.
           ++ rewrite length_app. cbn [length]. lia.
           ++ apply Forall_app. split; assumption.
        -- destruct Hres as [[l Hl]|Hres]; [discriminate Hl|]. right. exact Hres.
    + split.
      * exists [q]. repeat split; [cbn; lia | exact Hq].
      * right. right. exists (status_code (jira w q)). split; [exact Hbad | reflexivity].
Qed.

(** X12. The retrieval only reads: whatever the tracker answers, it sends
    at most [depth] requests, all of them searches for the same query, and it
    ends with a list of issues, with [RecursionError], or with the
    [InternalError] that reports a status code other than 200. *)
Theorem retrieval_only_searches (jira : world -> request -> response) (depth : nat)
    (exception_summary : string) (start_at : Z) (w : world) :
  (exists sent,
      snd (find_existing_jira_issues jira depth exception_summary start_at w)
      = (sent ++ w)%list
      /\ (length sent <= depth)%nat
      /\ Forall (fun r => exists o, r = Search (sanitize_jql_query exception_summary) o) sent)
  /\ ((exists issue_list,
          fst (find_existing_jira_issues jira depth exception_summary start_at w)
          = Ok issue_list)
      \/ fst (find_existing_jira_issues jira depth exception_summary start_at w)
         = Raise RecursionError
      \/ exists code,
           code <> 200
           /\ fst (find_existing_jira_issues jira depth exception_summary start_at w)
              = Raise (InternalError
                         ("Could not query Jira issues, cancel processing issue. Resp code; "
                          ++ Py.decimal code))).
Proof. apply find_existing_jira_issues_outcome. Qed.

(** X13. A search that is answered with a status code other than 200
    ends the request with the answer 500 and the message of the error; one
    request has been sent, and nothing has been written to the tracker. *)
Theorem retrieval_failure_is_answered_with_500 (jira : world -> request -> response)
    (now : string) (depth : nat) (data : json_data) (summary : string) (w : world) :
  get_summary_from_message data = Ok summary ->
  status_code (jira w (Search (sanitize_jql_query summary) 0)) <> 200 ->
  receive_exception jira now (S depth) data w
  = (Ok ("Error during processing; " ++ newline ++ tab
         ++ "Could not query Jira issues, cancel processing issue. Resp code; "
         ++ Py.decimal (status_code (jira w (Search (sanitize_jql_query summary) 0))), 500),
     Search (sanitize_jql_query summary) 0 :: w).
Proof.
  intros Hsummary Hbad.
  unfold receive_exception, add_jira_exception, determine_if_duplicate, io_bind, io_lift.
  rewrite Hsummary. cbn [find_existing_jira_issues]. unfold io_bind, send, io_raise.
  destruct (Z.eqb_spec (status_code (jira w (Search (sanitize_jql_query summary) 0))) 200)
    as [|_]; [contradiction|].
  cbn [negb]. reflexivity.
Qed.

Lemma retrieval_failure_is_answered_with_500_witness :
  get_summary_from_message report_nested = Ok "root"
  /\ status_code (paged_jira [] 50 [] (Create "" "")) <> 200
  /\ receive_exception (fun w _ => paged_jira [] 50 w (Create "" "")) "now" 3 report_nested []
     = (Ok ("Error during processing; " ++ newline ++ tab
            ++ "Could not query Jira issues, cancel processing issue. Resp code; 404", 500),
        [Search (sanitize_jql_query "root") 0]).
Proof.
  split; [reflexivity|]. split; [discriminate|].
  apply (retrieval_failure_is_answered_with_500
           (fun w _ => paged_jira [] 50 w (Create "" "")) "now" 2 report_nested "root" []).
  - reflexivity.
  - discriminate.
Defined.

(** X14. A tracker that answers every search with success and declares
    at every page that more results follow makes the retrieval recurse until
    the interpreter gives up: it ends with [RecursionError] after [depth]
    requests, whatever the depth allowed. *)
Theorem endless_pages_exhaust_the_recursion (jira : world -> request -> response)
    (exception_summary : string) :
  (forall w start_at,
      status_code (jira w (Search (sanitize_jql_query exception_summary) start_at)) = 200
      /\ start_at + maxResults (jira w (Search (sanitize_jql_query exception_summary) start_at))
         < total (jira w (Search (sanitize_jql_query exception_summary) start_at))) ->
  forall depth start_at w,
    fst (find_existing_jira_issues jira depth exception_summary start_at w)
    = Raise RecursionError
    /\ length (snd (find_existing_jira_issues jira depth exception_summary start_at w))
       = (depth + length w)%nat.
Proof.
  intros Hjira depth. induction depth as [|depth IH]; intros start_at w; [now split|].
  rewrite find_existing_jira_issues_step. cbv zeta.
  destruct (Hjira w start_at) as [Hok Hmore]. rewrite Hok.
  change (negb (200 =? 200)) with false. cbv iota.
  destruct (Z.ltb_spec (start_at + maxResults (jira w (Search (sanitize_jql_query
                                                                  exception_summary) start_at)))
              (total (jira w (Search (sanitize_jql_query exception_summary) start_at))))
    as [_|]; [|lia].
  specialize (IH (start_at + maxResults (jira w (Search (sanitize_jql_query exception_summary)
                                                   start_at)))
                (Search (sanitize_jql_query exception_summary) start_at :: w)).
  destruct (find_existing_jira_issues jira depth exception_summary _ _) as [[l|e] w'];
    cbn [fst snd] in *; destruct IH as [He Hlen].
  - discriminate He.
  - injection He as ->. split; [reflexivity|]. rewrite Hlen. cbn [length]. lia.
Qed.

Lemma endless_pages_exhaust_the_recursion_witness :
  fst (find_existing_jira_issues endless_jira 40 "x" 0 []) = Raise RecursionError
  /\ length (snd (find_existing_jira_issues endless_jira 40 "x" 0 [])) = 40%nat.
Proof.
  apply (endless_pages_exhaust_the_recursion endless_jira "x").
  intros w start_at. cbn. lia.
Defined.


(** ** Writing to the tracker *)

Lemma update_to_jira_accepted (jira : world -> request -> response) (issue_id annotation : string)
    (do_status_transition : bool) (w : world) :
  status_code (jira w (Update issue_id annotation)) = 204 ->
  update_to_jira jira issue_id annotation do_status_transition w
  = (Ok tt,
     ((if do_status_transition then [Transition issue_id _JIRA_TRANSITION_REOPEN_ID] else [])
      ++ Update issue_id annotation :: w)%list).
Proof.
  intros Hok. unfold update_to_jira, io_bind, send. rewrite Hok.
  change (negb (204 =? 204)) with false. cbv iota. now destruct do_status_transition.
Qed.

(** X15. An update that the tracker accepts with 204 succeeds whatever
    the tracker answers to the transition that follows: the answer to the
    transition is not looked at.  An update answered with another status code
    raises [InternalError], and no transition is sent. *)
Theorem update_ignores_the_answer_to_the_transition (jira : world -> request -> response)
    (issue_id annotation : string) (do_status_transition : bool) (w : world) :
  (status_code (jira w (Update issue_id annotation)) = 204 ->
   update_to_jira jira issue_id annotation do_status_transition w
   = (Ok tt,
      ((if do_status_transition then [Transition issue_id _JIRA_TRANSITION_REOPEN_ID] else [])
       ++ Update issue_id annotation :: w)%list))
  /\ (status_code (jira w (Update issue_id annotation)) <> 204 ->
      update_to_jira jira issue_id annotation do_status_transition w
      = (Raise (InternalError ("Could not update existing Jira issue, resp code; "
                               ++ Py.decimal (status_code (jira w (Update issue_id annotation))))),
         Update issue_id annotation :: w)).
Proof.
  split; [apply update_to_jira_accepted|].
  intros Hbad. unfold update_to_jira, io_bind, send.
  destruct (Z.eqb_spec (status_code (jira w (Update issue_id annotation))) 204);
    [contradiction | reflexivity].
Qed.

Lemma update_ignores_the_answer_to_the_transition_witness :
  status_code (resolved_jira [] (Update "N-4" "Count: 5")) = 204
  /\ status_code (resolved_jira [Update "N-4" "Count: 5"] (Transition "N-4" "3")) = 404
  /\ update_to_jira resolved_jira "N-4" "Count: 5" true []
     = (Ok tt, [Transition "N-4" "3"; Update "N-4" "Count: 5"]).
Proof.
  split; [reflexivity|]. split; [reflexivity|].
  apply (proj1 (update_ignores_the_answer_to_the_transition resolved_jira "N-4" "Count: 5"
                  true [])).
  reflexivity.
Defined.

(** X16. A duplicate is updated and never filed again.  When the engine
    decides [Duplicate] and the counter returns an annotation, that
    annotation is [Count: n], line feed, [Last: now] with [n] at least 1, and
    if the tracker accepts the update, the answer names the existing issue
    and the requests sent after the decision are one update of the
    environment field with that annotation, then the reopening transition
    exactly when [is_issue_closed] holds of the status of the issue.  When
    the counter raises, which it does with [ValueError] only,
    [add_jira_exception] raises the same error and sends nothing after the
    decision. *)
Theorem duplicate_is_updated_and_reopened (jira : world -> request -> response) (now : string)
    (depth : nat) (data : json_data) (w w1 : world) (target_key status : string)
    (prior : option string) :
  determine_if_duplicate jira depth data w = (Ok (Duplicate target_key status prior), w1) ->
  (forall annotation,
      calculate_issue_occurrence_count now prior = Ok annotation ->
      (exists n, 1 <= n /\ annotation = spec_annotation n now)
      /\ (status_code (jira w1 (Update target_key annotation)) = 204 ->
          add_jira_exception jira now depth data w
          = (Ok ("Jira issue already exists, updated: " ++ target_key, 200),
             ((if is_issue_closed status
               then [Transition target_key _JIRA_TRANSITION_REOPEN_ID] else [])
              ++ Update target_key annotation :: w1)%list)))
  /\ (forall e,
         calculate_issue_occurrence_count now prior = Raise e ->
         e = ValueError /\ add_jira_exception jira now depth data w = (Raise e, w1)).
Proof.
  intros Hdecision. split.
  - intros annotation Hcount. split.
    + destruct (counter_outcome now prior) as [(n & Hn & Hok)|[Hraise _]].
      * exists n. split; [exact Hn | congruence].
      * congruence.
    + intros Hok. unfold add_jira_exception. unfold io_bind at 1. rewrite Hdecision.
      unfold io_bind at 1, io_lift. rewrite Hcount.
      unfold io_bind at 1. rewrite (update_to_jira_accepted _ _ _ _ _ Hok). reflexivity.
  - intros e Hcount. split.
    + destruct (counter_outcome now prior) as [(n & Hn & Hok)|[Hraise _]]; congruence.
    + unfold add_jira_exception. unfold io_bind at 1. rewrite Hdecision.
      unfold io_bind at 1, io_lift. rewrite Hcount. reflexivity.
Qed.

Lemma duplicate_is_updated_and_reopened_witness :
  determine_if_duplicate resolved_jira 9 report_nested []
  = (Ok (Duplicate "N-4" "Resolved" (Some ("Count: 4" ++ newline ++ "Last: then"))),
     [Search (sanitize_jql_query "root") 0])
  /\ calculate_issue_occurrence_count "now" (Some ("Count: 4" ++ newline ++ "Last: then"))
     = Ok (spec_annotation 5 "now")
  /\ add_jira_exception resolved_jira "now" 9 report_nested []
     = (Ok ("Jira issue already exists, updated: N-4", 200),
        [Transition "N-4" "3"; Update "N-4" (spec_annotation 5 "now");
         Search (sanitize_jql_query "root") 0]).
Proof.
  assert (H : determine_if_duplicate resolved_jira 9 report_nested []
              = (Ok (Duplicate "N-4" "Resolved" (Some ("Count: 4" ++ newline ++ "Last: then"))),
                 [Search (sanitize_jql_query "root") 0])) by (vm_compute; reflexivity).
  assert (Hfive : calculate_issue_occurrence_count "now"
                    (Some ("Count: 4" ++ newline ++ "Last: then"))
                  = Ok (spec_annotation 5 "now")) by reflexivity.
  split; [exact H|]. split; [exact Hfive|].
  destruct (proj1 (duplicate_is_updated_and_reopened resolved_jira "now" _ _ _ _ _ _ _ H)
              (spec_annotation 5 "now") Hfive) as [_ Hfinal].
  apply Hfinal. reflexivity.
Defined.

(** X17. A new report is filed once: when the engine decides [New] and
    the tracker answers the creation with 201, the answer carries the key of
    the created issue, and the one request sent after the decision creates
    an issue titled with the summary, whose description embeds the details
    and the printed stacktrace between the markers. *)
Theorem new_report_is_filed (jira : world -> request -> response) (now : string)
    (depth : nat) (data : json_data) (w w1 : world) :
  determine_if_duplicate jira depth data w = (Ok New, w1) ->
  exists summary,
    get_summary_from_message data = Ok summary
    /\ let filed := Create ("HaMIS Exception: " ++ summary)
                      (filed_description summary (create_details_string_from_json data)
                         (get_stacktrace_from_message data)) in
       status_code (jira w1 filed) = 201 ->
       add_jira_exception jira now depth data w
       = (Ok ("Jira issue added: " ++ created_key (jira w1 filed), 201), filed :: w1).
Proof.
  intros Hdecision.
  destruct (get_summary_from_message data) as [summary|e] eqn:Hsummary.
  - exists summary. split; [reflexivity|]. cbv zeta. intros Hok.
    unfold add_jira_exception. unfold io_bind at 1. rewrite Hdecision.
    unfold io_bind at 1, io_lift. rewrite Hsummary.
    unfold add_to_jira, io_bind, send. fold (filed_description summary
      (create_details_string_from_json data) (get_stacktrace_from_message data)).
    unfold filed_description in *. rewrite Hok. reflexivity.
  - exfalso. unfold determine_if_duplicate, io_bind, io_lift in Hdecision.
    rewrite Hsummary in Hdecision. discriminate Hdecision.
Qed.

Lemma new_report_is_filed_witness :
  determine_if_duplicate recording_jira 9 report_nested []
  = (Ok New, [Search (sanitize_jql_query "root") 0])
  /\ add_jira_exception recording_jira "now" 9 report_nested []
     = (Ok ("Jira issue added: HAMISTIRF-1", 201),
        [Create "HaMIS Exception: root"
           (filed_description "root" (create_details_string_from_json report_nested)
              (get_stacktrace_from_message report_nested));
         Search (sanitize_jql_query "root") 0]).
Proof.
  assert (H : determine_if_duplicate recording_jira 9 report_nested []
              = (Ok New, [Search (sanitize_jql_query "root") 0])) by reflexivity.
  split; [exact H|].
  destruct (new_report_is_filed recording_jira "now" 9 report_nested _ _ H)
    as (summary & Hsummary & Hfinal).
  assert (Hroot : get_summary_from_message report_nested = Ok "root") by reflexivity.
  assert (Hs : summary = "root") by congruence.
  rewrite Hs in Hfinal. apply Hfinal. reflexivity.
Defined.

(** X18. A creation that the tracker does not answer with 201 ends the
    request with the answer 500 and the message of the error, after the one
    creation request. *)
Theorem rejected_creation_is_answered_with_500 (jira : world -> request -> response)
    (now : string) (depth : nat) (data : json_data) (summary : string) (w w1 : world) :
  determine_if_duplicate jira depth data w = (Ok New, w1) ->
  get_summary_from_message data = Ok summary ->
  let filed := Create ("HaMIS Exception: " ++ summary)
                 (filed_description summary (create_details_string_from_json data)
                    (get_stacktrace_from_message data)) in
  status_code (jira w1 filed) <> 201 ->
  receive_exception jira now depth data w
  = (Ok ("Error during processing; " ++ newline ++ tab
         ++ "Could not create new Jira issue, resp code; "
         ++ Py.decimal (status_code (jira w1 filed)), 500),
     filed :: w1).
Proof.
  intros Hdecision Hsummary filed Hbad. subst filed.
  unfold receive_exception, add_jira_exception. unfold io_bind at 1. rewrite Hdecision.
  unfold io_bind at 1, io_lift. rewrite Hsummary.
  unfold add_to_jira, io_bind, send. unfold filed_description in *.
  destruct (Z.eqb_spec
              (status_code
                 (jira w1
                    (Create ("HaMIS Exception: " ++ summary)
                       (summary ++ newline ++ newline ++ "Details:" ++ newline
                        ++ create_details_string_from_json data ++ newline ++ newline
                        ++ "Stacktrace:" ++ newline ++ "{noformat}"
                        ++ get_stacktrace_from_message data ++ "{noformat}")))) 201)
    as [Heq|_]; [contradiction | reflexivity].
Qed.

Lemma rejected_creation_is_answered_with_500_witness :
  receive_exception (paged_jira [] 50) "now" 9 report_nested []
  = (Ok ("Error during processing; " ++ newline ++ tab
         ++ "Could not create new Jira issue, resp code; 404", 500),
     [Create "HaMIS Exception: root"
        (filed_description "root" (create_details_string_from_json report_nested)
           (get_stacktrace_from_message report_nested));
      Search (sanitize_jql_query "root") 0]).
Proof.
  apply (rejected_creation_is_answered_with_500 (paged_jira [] 50) "now" 9 report_nested
           "root" [] [Search (sanitize_jql_query "root") 0]).
  - reflexivity.
  - reflexivity.
  - discriminate.
Defined.

(** X19. The handler never lets an [InternalError] out: it answers it
    with the status 500 and the message of the error, passes every other
    outcome of [add_jira_exception] on as it is, and sends no request of its
    own. *)
Theorem handler_answers_internal_errors (jira : world -> request -> response) (now : string)
    (depth : nat) (data : json_data) (w : world) :
  (forall reason, fst (receive_exception jira now depth data w) <> Raise (InternalError reason))
  /\ (forall reason,
         fst (add_jira_exception jira now depth data w) = Raise (InternalError reason) ->
         fst (receive_exception jira now depth data w)
         = Ok ("Error during processing; " ++ newline ++ tab ++ reason, 500))
  /\ (forall answer,
         fst (add_jira_exception jira now depth data w) = Ok answer ->
         fst (receive_exception jira now depth data w) = Ok answer)
  /\ snd (receive_exception jira now depth data w)
     = snd (add_jira_exception jira now depth data w).
Proof.
  unfold receive_exception.
  destruct (add_jira_exception jira now depth data w) as [[answer|[]] w']; cbn [fst snd];
    repeat split; intros; try discriminate; try congruence.
Qed.

Lemma determine_if_duplicate_log (jira : world -> request -> response) (depth : nat)
    (data : json_data) (w : world) :
  exists sent,
    snd (determine_if_duplicate jira depth data w) = (sent ++ w)%list
    /\ Forall is_search sent.
Proof.
  unfold determine_if_duplicate, io_bind, io_lift.
  destruct (get_summary_from_message data) as [summary|e].
  - destruct (find_existing_jira_issues_outcome jira depth summary 0 w)
      as [(sent & Hsent & _ & Hall) _].
    exists sent. split.
    + destruct (find_existing_jira_issues jira depth summary 0 w) as [[l|e] w'];
        cbn [fst snd] in *; exact Hsent.
    + eapply List.Forall_impl; [|exact Hall]. intros r [o ->].
      now exists (sanitize_jql_query summary), o.
  - exists []. split; [reflexivity | constructor].
Qed.

(** X20. Nothing is written before the decision is made: the decision
    stage sends searches only, and when it fails, [add_jira_exception] fails
    with the same error without sending anything more. *)
Theorem failed_decision_writes_nothing (jira : world -> request -> response) (now : string)
    (depth : nat) (data : json_data) (w : world) :
  (exists sent,
      snd (determine_if_duplicate jira depth data w) = (sent ++ w)%list
      /\ Forall is_search sent)
  /\ (forall e,
         fst (determine_if_duplicate jira depth data w) = Raise e ->
         add_jira_exception jira now depth data w
         = (Raise e, snd (determine_if_duplicate jira depth data w))).
Proof.
  split; [apply determine_if_duplicate_log|].
  intros e He. unfold add_jira_exception. unfold io_bind at 1.
  destruct (determine_if_duplicate jira depth data w) as [[d|e'] w']; cbn [fst snd] in *.
  - discriminate He.
  - congruence.
Qed.

(** X21. The ratio that the test compares with 0.95 lies between 0 and
    1. *)
Theorem match_ratio_is_between_0_and_1 (a b : string) :
  (0 <= match_ratio a b)%Q /\ (match_ratio a b <= 1)%Q.
Proof.
  unfold match_ratio.
  set (s := SequenceMatcher.init isjunk (list_ascii_of_string a) (list_ascii_of_string b)).
  destruct (Qgtb (SequenceMatcher.real_quick_ratio s) (6 # 10)); [|split; discriminate].
  unfold SequenceMatcher.ratio, SequenceMatcher._calculate_ratio.
  pose proof (SequenceMatcherFacts.matches_bounds s) as Hm.
  unfold MatcherInvariants.total_size in Hm.
  destruct (Z.eqb_spec (SequenceMatcher.len (SequenceMatcher.a s)
                        + SequenceMatcher.len (SequenceMatcher.b s)) 0) as [_|Hne].
  - split; discriminate.
  - assert (Hpos : 0 < SequenceMatcher.len (SequenceMatcher.a s)
                       + SequenceMatcher.len (SequenceMatcher.b s)).
    { unfold SequenceMatcher.len in *. lia. }
    unfold Qle. cbn [Qnum Qden]. rewrite Z2Pos.id by exact Hpos. split; lia.
Qed.

(** X22. A text whose throw location can be computed matches itself: the
    exact ratio of a text with itself is 1, junk and popular characters
    included, and the two throw locations are the same. *)
Theorem text_matches_itself (a fingerprint : string) :
  first_line_caused_by_from_printed_stacktrace a = Ok fingerprint ->
  (exact_ratio a a == 1)%Q /\ is_match a a = Ok true.
Proof.
  intros Hfp. destruct (self_match_is_true_when_throw_location_exists a) as (Hratio & Hok & _).
  split; [exact Hratio | now apply Hok with fingerprint].
Qed.

Lemma text_matches_itself_witness :
  first_line_caused_by_from_printed_stacktrace (get_stacktrace_from_message report_tide)
  = Ok (tab ++ "at svc.Db.run(Db.java")
  /\ is_match (get_stacktrace_from_message report_tide)
       (get_stacktrace_from_message report_tide) = Ok true.
Proof.
  split; [reflexivity|].
  apply (text_matches_itself (get_stacktrace_from_message report_tide)
           (tab ++ "at svc.Db.run(Db.java")).
  reflexivity.
Defined.

Lemma concat_nil_app (l1 l2 : list string) :
  String.concat "" (l1 ++ l2) = String.concat "" l1 ++ String.concat "" l2.
Proof.
  induction l1 as [|x l1 IH]; [reflexivity|].
  change ((x :: l1) ++ l2)%list with (x :: (l1 ++ l2))%list.
  now rewrite !concat_nil_cons, IH, append_assoc.
Qed.

(** X23. The formatter works frame by frame: the printed stacktrace of a
    report whose frames are those of one report followed by those of another
    is the printed stacktrace of the first followed by that of the second. *)
Theorem printed_stacktrace_of_appended_frames (data first second : json_data) :
  stacktrace data = (stacktrace first ++ stacktrace second)%list ->
  get_stacktrace_from_message data
  = get_stacktrace_from_message first ++ get_stacktrace_from_message second.
Proof.
  intros Hst. unfold get_stacktrace_from_message. rewrite !write_frames, Hst.
  change ("" ++ ?x) with x. now rewrite map_app, concat_nil_app.
Qed.

Lemma printed_stacktrace_of_appended_frames_witness :
  get_stacktrace_from_message
    {| stacktrace := stacktrace report_tide ++ stacktrace report_bare; details := [] |}
  = get_stacktrace_from_message report_tide ++ get_stacktrace_from_message report_bare.
Proof.
  apply (printed_stacktrace_of_appended_frames
           {| stacktrace := stacktrace report_tide ++ stacktrace report_bare; details := [] |}
           report_tide report_bare).
  reflexivity.
Defined.

Lemma details_fold (l : list (string * string)) (output : string) :
  fold_left (fun output kv => output ++ "  " ++ fst kv ++ ": " ++ snd kv ++ newline) l output
  = output ++ String.concat ""
                (map (fun kv => "  " ++ fst kv ++ ": " ++ snd kv ++ newline) l).
Proof.
  revert output. induction l as [|kv l IH]; intros output.
  - cbn [fold_left map String.concat]. now rewrite append_nil_r.
  - cbn [fold_left map]. now rewrite IH, concat_nil_cons, append_assoc.
Qed.

(** X24. The details of a report are printed one entry per line, in the
    order of the report: two spaces, the key, a colon and a space, the
    value, a newline. *)
Theorem details_are_printed_in_order (data : json_data) :
  create_details_string_from_json data
  = String.concat "" (map (fun kv => "  " ++ fst kv ++ ": " ++ snd kv ++ newline)
                        (details data)).
Proof.
  unfold create_details_string_from_json. rewrite details_fold. reflexivity.
Qed.

(** ** The status of an issue *)

Lemma lower_char_idempotent (c : ascii) : Py.lower_char (Py.lower_char c) = Py.lower_char c.
Proof. destruct c as [[] [] [] [] [] [] [] []]; reflexivity. Qed.

Lemma lower_idempotent (s : string) : Py.lower (Py.lower s) = Py.lower s.
Proof.
  induction s as [|c s IH]; [reflexivity|].
  cbn [Py.lower]. now rewrite lower_char_idempotent, IH.
Qed.

(** X25. The status of an issue is read without regard to the case of
    its letters: two statuses with the same lower-case form get the same
    answer, and a status gets the answer of its lower-case form. *)
Theorem status_is_read_in_any_case (status other : string) :
  is_issue_closed (Py.lower status) = is_issue_closed status
  /\ (Py.lower status = Py.lower other -> is_issue_closed status = is_issue_closed other).
Proof.
  unfold is_issue_closed. split.
  - now rewrite lower_idempotent.
  - now intros ->.
Qed.

Lemma status_is_read_in_any_case_witness :
  Py.lower "ReSolved" = Py.lower "RESOLVED"
  /\ is_issue_closed "ReSolved" = is_issue_closed "RESOLVED".
Proof.
  split; [reflexivity|].
  apply (proj2 (status_is_read_in_any_case "ReSolved" "RESOLVED")). reflexivity.
Defined.
